(** * SRM-AI: contextual query resolution

  A shallow embedding of the query-resolution core of the SRM-AI chatbot
  (knowledge_graph.py, nlu_module.py, enhanced_chatbot.py, orb_ai.py,
  admission_handler.py, text_processor.py) and the properties of it that
  the specification states.

  Conventions of the embedding.
  - A Python [str] is a [string] of ASCII characters: [lower], white
    space and the word characters of a regular expression are those of
    ASCII, where they are Python's. Properties that depend on them are
    stated for ASCII text.
  - A Python [dict] is an association list in insertion order whose keys
    are pairwise distinct ([wf_dict]); [dict_set] overwrites in place or
    appends, as CPython does.
  - JSON-like run-time values are the type [value]; numbers (confidences,
    similarity scores) are rationals: a float is the rational it denotes,
    and neither a NaN score nor the rounding of float32 is represented.
  - A call that can raise returns a [result]; [try ... except Exception]
    is [catch].
  - What the repository delegates to other packages (the sentence
    encoder, the part-of-speech tagger, spaCy, numpy's argsort) or to
    modules it imports but does not contain (context_manager,
    response_formatter) is a parameter of the function that uses it. *)

From Stdlib Require Import List Bool Arith ZArith QArith Lia.
From Stdlib Require Import Strings.String Strings.Ascii.
From Stdlib Require Import Sorting.Permutation Sorting.Sorted.
Import ListNotations.

Set Implicit Arguments.
Set Warnings "-register-all".

Local Open Scope string_scope.
Local Open Scope list_scope.

(** ** Exceptions *)

Inductive exn : Type :=
| TypeError
| KeyError
| IndexError
| ValueError
| AttributeError
| ProviderError
  (* any exception raised inside an external model or library call *)
| DuplicateEntityError
  (* named by the specification (section 7); no statement of the
     repository raises it *).

Inductive result (A : Type) : Type :=
| Ok (a : A)
| Raise (e : exn).

Arguments Ok {A} a.
Arguments Raise {A} e.

Definition bind {A B : Type} (r : result A) (k : A -> result B) : result B :=
match r with
| Ok a => k a
| Raise e => Raise e
end.

Notation "x <- r ;; k" := (bind r (fun x => k))
(at level 61, r at next level, right associativity).

(** [try: r except Exception: h] *)
Definition catch {A : Type} (r : result A) (h : exn -> A) : A :=
match r with
| Ok a => a
| Raise e => h e
end.

Definition is_ok {A : Type} (r : result A) : bool :=
match r with Ok _ => true | Raise _ => false end.

Fixpoint mapM {A B : Type} (f : A -> result B) (l : list A) : result (list B) :=
match l with
| [] => Ok []
| x :: l' => y <- f x ;; ys <- mapM f l' ;; Ok (y :: ys)
end.

(** ** Python strings *)

Module PyStr.

Definition lower_char (c : ascii) : ascii :=
  let n := nat_of_ascii c in
  if (65 <=? n)%nat && (n <=? 90)%nat then ascii_of_nat (n + 32) else c.

(** [s.lower()] *)
Fixpoint lower (s : string) : string :=
  match s with
  | EmptyString => EmptyString
  | String c s' => String (lower_char c) (lower s')
  end.

(** [s.startswith(p)] *)
Fixpoint startswith (s p : string) : bool :=
  match p, s with
  | EmptyString, _ => true
  | String _ _, EmptyString => false
  | String a p', String b s' => Ascii.eqb a b && startswith s' p'
  end.

(** [sub in s] *)
Fixpoint contains (s sub : string) : bool :=
  startswith s sub
  || match s with
     | EmptyString => false
     | String _ s' => contains s' sub
     end.

(** The characters Python's [str.split()] and [str.strip()] treat as
    white space, within ASCII: tab, line feed, vertical tab, form feed,
    carriage return, the separators 28 to 31 and the space. *)
Definition is_space (c : ascii) : bool :=
  let n := nat_of_ascii c in
  ((9 <=? n)%nat && (n <=? 13)%nat) || ((28 <=? n)%nat && (n <=? 32)%nat).

(** [s.split(sep)] for a one-character separator: the pieces between
    consecutive separators, empty pieces kept. *)
Fixpoint split_on (sep : ascii) (s : string) : list string :=
  match s with
  | EmptyString => [EmptyString]
  | String c s' =>
      if Ascii.eqb c sep then EmptyString :: split_on sep s'
      else match split_on sep s' with
           | [] => [String c EmptyString]
           | w :: ws => String c w :: ws
           end
  end.

(** [s.split()]: the maximal runs of non-blank characters. *)
Fixpoint split_ws_aux (cur : string) (s : string) : list string :=
  match s with
  | EmptyString =>
      match cur with EmptyString => [] | _ => [cur] end
  | String c s' =>
      if is_space c
      then match cur with
           | EmptyString => split_ws_aux EmptyString s'
           | _ => cur :: split_ws_aux EmptyString s'
           end
      else split_ws_aux (cur ++ String c EmptyString) s'
  end.

Definition split_ws (s : string) : list string := split_ws_aux EmptyString s.

(** [s.lstrip()], [s.rstrip()], [s.strip()] *)
Fixpoint lstrip (s : string) : string :=
  match s with
  | EmptyString => EmptyString
  | String c s' => if is_space c then lstrip s' else s
  end.

Fixpoint rstrip (s : string) : string :=
  match s with
  | EmptyString => EmptyString
  | String c s' =>
      match rstrip s' with
      | EmptyString => if is_space c then EmptyString else String c EmptyString
      | r => String c r
      end
  end.

Definition strip (s : string) : string := rstrip (lstrip s).

(** [sep.join(l)] *)
Fixpoint join (sep : string) (l : list string) : string :=
  match l with
  | [] => EmptyString
  | [x] => x
  | x :: l' => x ++ sep ++ join sep l'
  end.

(** [any(w in s for w in words)] *)
Definition contains_any (s : string) (words : list string) : bool :=
  existsb (contains s) words.

Definition mem (x : string) (l : list string) : bool :=
  existsb (String.eqb x) l.

End PyStr.

(** ** Run-time values and dictionaries *)

Inductive value : Type :=
| VNone
| VBool (b : bool)
| VStr (s : string)
| VNum (q : Q)
| VList (l : list value)
| VDict (d : list (string * value)).

(** An insertion-ordered dictionary with string keys. *)
Definition odict (A : Type) : Type := list (string * A).

Definition dict : Type := odict value.

Module PyDict.

Section Ops.
Variable A : Type.

  (** [d.get(k)] *)
Fixpoint get (k : string) (d : odict A) : option A :=
    match d with
    | [] => None
    | (k', v) :: d' => if String.eqb k k' then Some v else get k d'
    end.

  (** [k in d] *)
Definition has (k : string) (d : odict A) : bool :=
    match get k d with Some _ => true | None => false end.

  (** [d[k] = v]: an existing key keeps its position. *)
Fixpoint set (d : odict A) (k : string) (v : A) : odict A :=
    match d with
    | [] => [(k, v)]
    | (k', v') :: d' =>
        if String.eqb k k' then (k', v) :: d' else (k', v') :: set d' k v
    end.

  (** [d.update(e)] *)
Definition update (d e : odict A) : odict A :=
    fold_left (fun acc kv => set acc (fst kv) (snd kv)) e d.

Definition keys (d : odict A) : list string := map fst d.
Definition values (d : odict A) : list A := map snd d.

  (** The keys of a Python dictionary are pairwise distinct. *)
Definition wf_dict (d : odict A) : Prop := NoDup (keys d).
End Ops.

(** [d.get(k, default)] *)
Definition get_default {A : Type} (k : string) (d : odict A) (default : A) : A :=
  match get k d with Some v => v | None => default end.

End PyDict.

Module PyValue.

Definition bool_num (b : bool) : Q := if b then 1 else 0.

(** [a == b] on values: strings by content, numbers by value ([True] and
    [False] are the numbers 1 and 0), lists element by element,
    dictionaries key by key whatever the order. *)
Fixpoint py_eq (a b : value) {struct a} : bool :=
  match a, b with
  | VNone, VNone => true
  | VBool x, VBool y => Bool.eqb x y
  | VBool x, VNum q => Qeq_bool (bool_num x) q
  | VNum p, VBool y => Qeq_bool p (bool_num y)
  | VStr s, VStr t => String.eqb s t
  | VNum p, VNum q => Qeq_bool p q
  | VList l, VList m =>
      (fix eq_items (l m : list value) {struct l} : bool :=
         match l, m with
         | [], [] => true
         | x :: l', y :: m' => py_eq x y && eq_items l' m'
         | _, _ => false
         end) l m
  | VDict d, VDict e =>
      Nat.eqb (List.length d) (List.length e)
      && (fix eq_fields (d : list (string * value)) {struct d} : bool :=
            match d with
            | [] => true
            | (k, v) :: d' =>
                match PyDict.get k e with
                | Some w => py_eq v w
                | None => false
                end && eq_fields d'
            end) d
  | _, _ => false
  end.

(** [bool(v)] *)
Definition truthy (v : value) : bool :=
  match v with
  | VNone => false
  | VBool b => b
  | VStr s => negb (String.eqb s "")
  | VNum q => negb (Qeq_bool q 0)
  | VList l => match l with [] => false | _ => true end
  | VDict d => match d with [] => false | _ => true end
  end.

(** [isinstance(v, dict)] *)
Definition is_dict (v : value) : bool :=
  match v with VDict _ => true | _ => false end.

(** [a + b]: concatenation of two lists or of two strings, the sum of two
    numbers, a TypeError otherwise. *)
Definition py_add (a b : value) : result value :=
  match a, b with
  | VList l, VList m => Ok (VList (l ++ m))
  | VStr s, VStr t => Ok (VStr (s ++ t)%string)
  | VNum p, VNum q => Ok (VNum (p + q))
  | _, _ => Raise TypeError
  end.

(** [d.get(k)] of a dictionary of values: [None] for a missing key. *)
Definition get_or_none (k : string) (d : dict) : value :=
  PyDict.get_default k d VNone.

(** [x > c] for a value [x] and a number [c]: a TypeError unless [x] is
    a number ([True] and [False] are the numbers 1 and 0). *)
Definition gt_num (x : value) (c : Q) : result bool :=
  match x with
  | VNum q => Ok (if Qlt_le_dec c q then true else false)
  | VBool b => Ok (if Qlt_le_dec c (bool_num b) then true else false)
  | _ => Raise TypeError
  end.

End PyValue.

(** ** knowledge_graph.py: the knowledge store *)

Module KnowledgeGraph.

Import PyStr PyValue.

(** The part of [networkx.MultiDiGraph] the store relies on: the nodes in
    insertion order, each with its attribute dictionary, and the edges in
    insertion order, each with its attribute dictionary. *)
Record MultiDiGraph : Type := mkGraph {
  nodes : odict dict;
  edges : list (string * string * dict)
}.

Definition empty_graph : MultiDiGraph := mkGraph [] [].

(** [graph.add_node(n, **attr)]: a new node is appended with the given
    attributes; an existing node keeps its place and its attribute
    dictionary is updated with [attr]. *)
Definition add_node (g : MultiDiGraph) (n : string) (attr : dict) : MultiDiGraph :=
  match PyDict.get n (nodes g) with
  | None => mkGraph (nodes g ++ [(n, PyDict.update [] attr)]) (edges g)
  | Some old => mkGraph (PyDict.set (nodes g) n (PyDict.update old attr)) (edges g)
  end.

(** [graph.add_edge(u, v, **attr)]: both end points become nodes when they
    are not yet, and one more edge is recorded. *)
Definition add_edge (g : MultiDiGraph) (u v : string) (attr : dict) : MultiDiGraph :=
  let g1 := if PyDict.has u (nodes g) then g else mkGraph (nodes g ++ [(u, [])]) (edges g) in
  let g2 := if PyDict.has v (nodes g1) then g1 else mkGraph (nodes g1 ++ [(v, [])]) (edges g1) in
  mkGraph (nodes g2) (edges g2 ++ [(u, v, PyDict.update [] attr)]).

(** [attributes or {}] *)
Definition or_empty (attributes : option dict) : dict :=
  match attributes with Some d => d | None => [] end.

(** The names the call [add_node(entity_id, type=entity_type, **...)]
    has bound before the attributes are unpacked: the parameters [self]
    and [node_for_adding] of [add_node(self, node_for_adding, **attr)],
    and the keyword [type]. *)
Definition bound_names : list string := ["self"; "node_for_adding"; "type"].

(** An attribute dictionary with a key that is one of the bound names. *)
Definition rebinds (attributes : option dict) : bool :=
  existsb (fun name => PyDict.has name (or_empty attributes)) bound_names.

(** [add_entity]: [add_node(entity_id, type=entity_type, **(attributes or {}))].
    Python refuses the call with a TypeError (multiple values for an
    argument) when [attributes] has a key that is already bound. *)
Definition add_entity (g : MultiDiGraph) (entity_id entity_type : string)
    (attributes : option dict) : result MultiDiGraph :=
  if rebinds attributes then Raise TypeError
  else Ok (add_node g entity_id (("type", VStr entity_type) :: or_empty attributes)).

(** [add_relationship] *)
Definition add_relationship (g : MultiDiGraph) (from_entity to_entity relationship_type : string)
    : MultiDiGraph :=
  add_edge g from_entity to_entity [("relationship", VStr relationship_type)].

(** [{'id': node_id, **attrs}] *)
Definition entity_dict (node_id : string) (attrs : dict) : dict :=
  PyDict.update [("id", VStr node_id)] attrs.

(** ['type' not in attrs or attrs['type'] != entity_type] *)
Definition type_mismatch (attrs : dict) (entity_type : string) : bool :=
  match PyDict.get "type" attrs with
  | None => true
  | Some t => negb (py_eq t (VStr entity_type))
  end.

(** [all(key in attrs and attrs[key] == value for key, value in filters.items())] *)
Definition matches_filters (attrs filters : dict) : bool :=
  forallb (fun kv =>
             match PyDict.get (fst kv) attrs with
             | Some w => py_eq w (snd kv)
             | None => false
             end) filters.

(** [if filters:] is taken for a dictionary that is given and not empty. *)
Definition truthy_filters (filters : option dict) : option dict :=
  match filters with
  | Some (kv :: f) => Some (kv :: f)
  | _ => None
  end.

(** The loop of [query] over [graph.nodes(data=True)]. *)
Fixpoint query_loop (ns : odict dict) (entity_type : string) (filters : option dict)
    (results : list dict) : list dict :=
  match ns with
  | [] => results
  | (node_id, attrs) :: rest =>
      if type_mismatch attrs entity_type
      then query_loop rest entity_type filters results
      else
        match truthy_filters filters with
        | Some f =>
            if negb (matches_filters attrs f)
            then query_loop rest entity_type filters results
            else query_loop rest entity_type filters (results ++ [entity_dict node_id attrs])
        | None =>
            query_loop rest entity_type filters (results ++ [entity_dict node_id attrs])
        end
  end.

Definition query (g : MultiDiGraph) (entity_type : string) (filters : option dict) : list dict :=
  query_loop (nodes g) entity_type filters [].

(** The three branches of [search_by_text] that test one attribute value.
    [str_of] is Python's [str] on the members of a list or dictionary that
    are not strings. *)
Section Search.

Variable str_of : value -> string.

Definition py_str (v : value) : string :=
  match v with
  | VStr s => s
  | _ => str_of v
  end.

Definition value_matches (query : string) (v : value) : bool :=
  match v with
  | VStr s => contains (lower s) query
  | VList l => existsb (fun x => contains (lower (py_str x)) query) l
  | VDict d => existsb (fun x => contains (lower (py_str x)) query) (PyDict.values d)
  | _ => false
  end.

(** The inner loop over [attrs.items()]: the first matching value appends
    the entity and leaves the loop. *)
Fixpoint attrs_loop (query node_id : string) (attrs items : dict) (results : list dict)
    : list dict :=
  match items with
  | [] => results
  | (key, v) :: rest =>
      if value_matches query v
      then results ++ [entity_dict node_id attrs]
      else attrs_loop query node_id attrs rest results
  end.

(** The outer loop of [search_by_text], [query] already in lower case. *)
Fixpoint search_loop (query : string) (ns : odict dict) (results : list dict) : list dict :=
  match ns with
  | [] => results
  | (node_id, attrs) :: rest =>
      if contains (lower node_id) query
      then search_loop query rest (results ++ [entity_dict node_id attrs])
      else search_loop query rest (attrs_loop query node_id attrs attrs results)
  end.

Definition search_by_text (g : MultiDiGraph) (query : string) : list dict :=
  search_loop (lower query) (nodes g) [].

(** Whether a node is reported by [search_by_text] for a query in lower case. *)
Definition node_matches (query : string) (n : string * dict) : bool :=
  contains (lower (fst n)) query || existsb (value_matches query) (PyDict.values (snd n)).

End Search.

(** The invariant of a store: distinct node identifiers, and every
    attribute dictionary with distinct keys. *)
Definition wf_graph (g : MultiDiGraph) : Prop :=
  PyDict.wf_dict (nodes g) /\ Forall (fun n => PyDict.wf_dict (snd n)) (nodes g).

End KnowledgeGraph.

(** ** admission_handler.py *)

Module AdmissionHandler.

Import PyStr.

Inductive AdmissionType : Type :=
| DOMESTIC
| INTERNATIONAL
| NRI
| TRANSFER.

Record AdmissionRequirements : Type := mkRequirements {
  documents : list string;
  eligibility : string;
  contact_email : string;
  procedure : string;
  deadlines : odict string
}.

(** The table [self.admission_requirements], one entry for each member of
    the enumeration. *)
Definition admission_requirements (t : AdmissionType) : AdmissionRequirements :=
  match t with
  | DOMESTIC =>
      mkRequirements
        ["10th Mark Sheet"; "12th Mark Sheet"; "SRMJEEE Score Card"; "Aadhar Card";
         "Passport size photographs"]
        "Minimum 60% in PCM for Engineering"
        "admissions@srmist.edu.in"
        "Apply through SRMJEEE and counselling"
        [("SRMJEEE Registration", "April 30"); ("Counselling", "June-July")]
  | INTERNATIONAL =>
      mkRequirements
        ["High School Transcripts"; "Standardized Test Scores (SAT/ACT)";
         "English Proficiency (IELTS/TOEFL)"; "Passport"; "Statement of Purpose"]
        "Completed 12 years of education with good academic record"
        "admissions.ir@srmist.edu.in"
        "Apply through International Admissions Portal"
        [("Fall Semester", "June 30"); ("Spring Semester", "December 15")]
  | NRI =>
      mkRequirements
        ["NRI Status Proof"; "Passport copies"; "Academic transcripts"; "Bank statements"]
        "NRI/NRI Sponsored candidates"
        "nri.admissions@srmist.edu.in"
        "Direct admission through NRI quota"
        [("Application", "May 31"); ("Admission", "June 30")]
  | TRANSFER =>
      mkRequirements
        ["Current University Transcripts"; "No Objection Certificate";
         "Migration Certificate"; "Syllabus of completed courses"]
        "Completed at least one year at recognized university"
        "transfer.admissions@srmist.edu.in"
        "Apply with complete transcripts for credit transfer"
        [("Fall Transfer", "July 15"); ("Spring Transfer", "December 31")]
  end.

Definition international_words : list string := ["international"; "foreign"; "abroad"; "overseas"].
Definition nri_words : list string := ["nri"; "non resident"; "non-resident"].
Definition transfer_words : list string := ["transfer"; "change university"; "credit transfer"].
Definition domestic_words : list string := ["domestic"; "indian"; "local"; "srmjeee"].

(** [_determine_admission_type]; the annotation of the source is
    [Optional[AdmissionType]]. *)
Definition _determine_admission_type (query : string) : option AdmissionType :=
  if contains_any query international_words then Some INTERNATIONAL
  else if contains_any query nri_words then Some NRI
  else if contains_any query transfer_words then Some TRANSFER
  else if contains_any query domestic_words then Some DOMESTIC
  else Some DOMESTIC.

Definition error_response : dict :=
  [("error",
    VStr "Unable to determine admission type. Please specify if you're asking about domestic, international, NRI, or transfer admissions.")].

Definition str_list (l : list string) : value := VList (map VStr l).

Definition str_dict (d : odict string) : value :=
  VDict (map (fun kv => (fst kv, VStr (snd kv))) d).

(** [if cond: response[key] = v] *)
Definition set_if (cond : bool) (response : dict) (key : string) (v : value) : dict :=
  if cond then PyDict.set response key v else response.

(** [handle_admission_query] *)
Definition handle_admission_query (query : string) : dict :=
  let query := lower query in
  match _determine_admission_type query with
  | None => error_response
  | Some admission_type =>
      let requirements := admission_requirements admission_type in
      let response : dict := [] in
      let response :=
        set_if (contains_any query ["document"; "require"; "submit"])
               response "documents" (str_list (documents requirements)) in
      let response :=
        set_if (contains_any query ["eligible"; "eligibility"; "qualify"])
               response "eligibility" (VStr (eligibility requirements)) in
      let response :=
        set_if (contains_any query ["procedure"; "process"; "how to"; "steps"])
               response "procedure" (VStr (procedure requirements)) in
      let response :=
        set_if (contains_any query ["deadline"; "date"; "when"])
               response "deadlines" (str_dict (deadlines requirements)) in
      let response :=
        set_if (contains_any query ["contact"; "email"; "reach"])
               response "contact" (VStr (contact_email requirements)) in
      match response with
      | [] =>
          [("documents", str_list (documents requirements));
           ("eligibility", VStr (eligibility requirements));
           ("procedure", VStr (procedure requirements));
           ("deadlines", str_dict (deadlines requirements));
           ("contact", VStr (contact_email requirements))]
      | _ => response
      end
  end.

End AdmissionHandler.

(** ** nlu_module.py: the query analyzer and the fallback ranker *)

Module NLUModule.

Import PyStr PyValue.

(** [l[i]] for an index that is not negative. *)
Definition index {A : Type} (l : list A) (i : nat) : result A :=
  match nth_error l i with
  | Some x => Ok x
  | None => Raise IndexError
  end.

(** [l[start:]] with Python's treatment of a negative or too large start. *)
Definition slice_from {A : Type} (start : Z) (l : list A) : list A :=
  let n := Z.of_nat (List.length l) in
  let s := if (start <? 0)%Z then Z.max (start + n) 0 else Z.min start n in
  skipn (Z.to_nat s) l.

(** What the module obtains from other packages: the sentence encoder
    ([SentenceTransformer.encode]), scikit-learn's [cosine_similarity],
    numpy's [argsort] and NLTK's tokenizer followed by its tagger. Each
    call may raise. *)
Record Models : Type := mkModels {
  embedding : Type;
  zeros : nat -> embedding;
  encode : list string -> result (list embedding);
  cosine_similarity : list embedding -> list embedding -> result (list (list Q));
  argsort : list Q -> list nat;
  pos_tag : string -> result (list (string * string))
}.

(** [\w] on ASCII text: a letter, a digit or the underscore. *)
Definition is_word (c : ascii) : bool :=
  let n := nat_of_ascii c in
  ((48 <=? n)%nat && (n <=? 57)%nat) || ((65 <=? n)%nat && (n <=? 90)%nat)
  || ((97 <=? n)%nat && (n <=? 122)%nat) || (n =? 95)%nat.

(** [re.sub(r'[^\w\s?]', ' ', text)] *)
Fixpoint blank_punctuation (s : string) : string :=
  match s with
  | EmptyString => EmptyString
  | String c s' =>
      String (if is_word c || is_space c || Ascii.eqb c "?" then c else " "%char)
             (blank_punctuation s')
  end.

(** [preprocess_text] *)
Definition preprocess_text (text : string) : string :=
  let text := lower text in
  let text := blank_punctuation text in
  join " " (split_ws text).

(** [tag.startswith(('NN', 'NNP', 'NNPS'))] *)
Definition is_noun_tag (tag : string) : bool :=
  startswith tag "NN" || startswith tag "NNP" || startswith tag "NNPS".

(** The loop of [extract_entities] over the tagged words. *)
Fixpoint entities_loop (pos_tags : list (string * string)) (entities current_entity : list string)
    : list string :=
  match pos_tags with
  | [] =>
      match current_entity with
      | [] => entities
      | _ => entities ++ [join " " current_entity]
      end
  | (word, tag) :: rest =>
      if is_noun_tag tag then entities_loop rest entities (current_entity ++ [word])
      else match current_entity with
           | [] => entities_loop rest entities []
           | _ => entities_loop rest (entities ++ [join " " current_entity]) []
           end
  end.

Definition extract_entities (M : Models) (text : string) : result (list string) :=
  pos_tags <- pos_tag M text ;;
  Ok (entities_loop pos_tags [] []).

(** [self.question_patterns], every regular expression written as the
    substrings ([re.search]) or prefixes ([^...]) it stands for. *)
Definition question_patterns : odict (list string * list string) :=
  [("factual",
    (["what is"; "what are"; "where is"; "where are"; "when is"; "when are";
      "who is"; "who are"; "which"], []));
   ("procedural",
    (["how to"; "how do"; "how can"; "how should"; "what steps"; "what process";
      "guide"; "explain"], []));
   ("comparative",
    (["compare"; "difference between"; "vs"; "versus"; "better"; "advantages"], []));
   ("yes_no",
    ([], ["is"; "are"; "can"; "should"; "do"; "does"; "will"; "has"; "have"; "had"]))].

(** [detect_question_type] *)
Definition detect_question_type (text : string) : string :=
  let text := strip (lower text) in
  match find (fun entry =>
                contains_any text (fst (snd entry))
                || existsb (startswith text) (snd (snd entry)))
             question_patterns with
  | Some entry => fst entry
  | None => "other"
  end.

Definition intent_patterns : odict (list string) :=
  [("location", ["where"; "location"; "address"; "directions"; "find"; "reach"]);
   ("timing", ["when"; "timing"; "schedule"; "hours"; "open"; "close"]);
   ("process", ["how to"; "process"; "steps"; "procedure"; "apply"]);
   ("contact", ["contact"; "email"; "phone"; "reach out"; "get in touch"]);
   ("description", ["what is"; "tell me about"; "describe"; "explain"])].

(** [detect_intent] *)
Definition detect_intent (text : string) : string :=
  let text := strip (lower text) in
  match find (fun entry => contains_any text (snd entry)) intent_patterns with
  | Some entry => fst entry
  | None => "general"
  end.

Definition pronouns : list string :=
  ["it"; "this"; "that"; "they"; "these"; "those"; "there"].

Definition followup_phrases : list string :=
  ["what about"; "how about"; "tell me more"; "and"; "also"; "what else";
   "more information"].

Definition conjunctions : list string := ["and"; "but"; "or"; "so"].

(** [is_followup_question]; the parameter [context] is not read. *)
Definition is_followup_question (text : string) (context : dict) : bool :=
  let text := lower text in
  let has_pronouns :=
    existsb (fun p => contains (" " ++ text ++ " ") (" " ++ p ++ " ")) pronouns in
  let has_followup := existsb (fun phrase => contains text phrase) followup_phrases in
  let starts_with_conjunction := existsb (fun conj => startswith text conj) conjunctions in
  has_pronouns || has_followup || starts_with_conjunction.

(** [get_semantic_similarity] *)
Definition get_semantic_similarity (M : Models) (text1 text2 : string) : Q :=
  catch (e1 <- encode M [text1] ;;
         embedding1 <- index e1 0 ;;
         e2 <- encode M [text2] ;;
         embedding2 <- index e2 0 ;;
         sims <- cosine_similarity M [embedding1] [embedding2] ;;
         row <- index sims 0 ;;
         index row 0)
        (fun _ => 0).

(** The dictionary [analyze_query] returns: the seven entries of a
    completed analysis, or the two entries of the [except] branch. *)
Record Analysis : Type := mkAnalysis {
  original_query : string;
  processed_query : string;
  entities : list string;
  question_type : string;
  intent : string;
  is_followup : bool;
  context_used : bool
}.

Inductive analysis : Type :=
| Analysed (a : Analysis)
| AnalysisError (error : exn) (original_query : string).

(** [context or {}] and [bool(context)] *)
Definition context_or_empty (context : option dict) : dict :=
  match context with Some c => c | None => [] end.

Definition context_given (context : option dict) : bool :=
  match context with Some (_ :: _) => true | _ => false end.

(** [analyze_query] *)
Definition analyze_query (M : Models) (query : string) (context : option dict) : analysis :=
  catch (let processed_query := preprocess_text query in
         entities <- extract_entities M processed_query ;;
         let question_type := detect_question_type processed_query in
         let intent := detect_intent processed_query in
         let is_followup := is_followup_question processed_query (context_or_empty context) in
         Ok (Analysed (mkAnalysis query processed_query entities question_type intent
                                  is_followup (context_given context))))
        (fun e => AnalysisError e query).

(** [get_query_embedding] *)
Definition get_query_embedding (M : Models) (text : string) : embedding M :=
  catch (e <- encode M [text] ;; index e 0) (fun _ => zeros M 384).

(** [find_best_matches] *)
Definition find_best_matches (M : Models) (query : string) (candidates : list string)
    (top_k : Z) : list (string * Q) :=
  catch (let query_embedding := get_query_embedding M query in
         candidate_embeddings <- encode M candidates ;;
         sims <- cosine_similarity M [query_embedding] candidate_embeddings ;;
         similarities <- index sims 0 ;;
         let top_indices := rev (slice_from (- top_k) (argsort M similarities)) in
         mapM (fun i => c <- index candidates i ;;
                        s <- index similarities i ;;
                        Ok (c, s))
              top_indices)
        (fun _ => []).

(** The default of the parameter [top_k]. *)
Definition default_top_k : Z := 3.

End NLUModule.

(** ** text_processor.py and orb_ai.py: the pattern-based engine *)

Module ORBAI.

Import PyStr PyValue.

Inductive QuestionType : Type :=
| GREETING
| LOCATION
| FACTUAL
| PROCEDURAL
| COMPARATIVE
| UNKNOWN.

(** The dictionary [classify_question] returns. *)
Record Classification : Type := mkClassification {
  c_type : QuestionType;
  c_entities : list string;
  c_context : dict
}.

Definition nl : string := String (ascii_of_nat 10) EmptyString.

(** [s] without the prefix [p], when it has it. *)
Fixpoint after_prefix (s p : string) : option string :=
  match p, s with
  | EmptyString, _ => Some s
  | String _ _, EmptyString => None
  | String a p', String b s' => if Ascii.eqb a b then after_prefix s' p' else None
  end.

(** A match, at the start of [s], of the words in turn with [\s*] between
    two of them; the rest of [s] after the last word. *)
Fixpoint match_words (words : list string) (s : string) : option string :=
  match words with
  | [] => Some s
  | w :: ws =>
      match after_prefix s w with
      | None => None
      | Some r =>
          match ws with
          | [] => Some r
          | _ => match_words ws (lstrip r)
          end
      end
  end.

(** [(?:\s|$)] *)
Definition at_boundary (rest : string) : bool :=
  match rest with
  | EmptyString => true
  | String c _ => is_space c
  end.

(** The alternatives of the two [greeting_patterns]. *)
Definition greeting_alternatives : list (list string) :=
  [["hi"]; ["hello"]; ["hey"]; ["greetings"];
   ["good"; "morning"]; ["good"; "afternoon"]; ["good"; "evening"];
   ["how"; "are"; "you"]; ["what's"; "up"]].

(** [any(re.match(pattern, query) for pattern in self.greeting_patterns)] *)
Definition is_greeting (query : string) : bool :=
  existsb (fun words =>
             match match_words words query with
             | Some rest => at_boundary rest
             | None => false
             end) greeting_alternatives.

(** [TextProcessor.format_response(QuestionType.GREETING, {})] *)
Definition greeting_text : string :=
  "Hello! I'm ORB AI, your SRMIST Knowledge Assistant. I can help you with:" ++ nl
  ++ "- Campus locations and facilities" ++ nl
  ++ "- Academic programs and courses" ++ nl
  ++ "- Admission procedures" ++ nl
  ++ "- Student facilities" ++ nl ++ nl
  ++ "What would you like to know about?".

(** What the engine obtains from elsewhere: the part of
    [classify_question] that runs spaCy (everything after the greeting
    test), the handlers of the five question types, which read the
    knowledge graph and write nothing of the context but entries of
    [follow_up_context], and the order in which [list(set(...))] lists a
    set of strings. *)
Record Externals : Type := mkExternals {
  spacy_classify : string -> result Classification;
  handle : QuestionType -> odict string -> list string -> dict -> odict string * result dict;
  set_order : list string -> list string
}.

(** [TextProcessor.classify_question] *)
Definition classify_question (E : Externals) (query : string) : result Classification :=
  let query := strip (lower query) in
  if is_greeting query then Ok (mkClassification GREETING [] [])
  else spacy_classify E query.

(** One entry of [conversation_history]. *)
Record Turn : Type := mkTurn {
  t_query : string;
  t_timestamp : string;
  t_response : option dict
}.

(** [self.context] *)
Record Context : Type := mkContext {
  last_question_type : option QuestionType;
  last_entities : option (list string);
  current_topic : option string;
  conversation_history : list Turn;
  referenced_entities : list string;
  follow_up_context : odict string;
  clarification_needed : bool
}.

Definition initial_context : Context :=
  mkContext None None None [] [] [] false.

(** [bool(self.context['last_entities'])] *)
Definition has_last_entities (ctx : Context) : bool :=
  match last_entities ctx with
  | Some (_ :: _) => true
  | _ => false
  end.

Definition pronouns : list string :=
  ["it"; "this"; "that"; "these"; "those"; "they"; "there"].

(** [_is_follow_up_question] *)
Definition _is_follow_up_question (ctx : Context) (query : string)
    (classification : Classification) : bool :=
  let query_lower := lower query in
  let has_pronouns := existsb (fun pronoun => mem pronoun (split_ws query_lower)) pronouns in
  let has_no_entities := match c_entities classification with [] => true | _ => false end in
  let has_previous_context := has_last_entities ctx in
  has_pronouns || (has_no_entities && has_previous_context).

(** The characters of a string, each as a string: what [list.extend]
    takes from a string. *)
Fixpoint chars (s : string) : list string :=
  match s with
  | EmptyString => []
  | String c s' => String c EmptyString :: chars s'
  end.

(** [_resolve_references] *)
Definition _resolve_references (E : Externals) (ctx : Context) (current_entities : list string)
    (query : string) : list string :=
  let resolved_entities := current_entities in
  let resolved_entities :=
    match current_entities with
    | [] =>
        if has_last_entities ctx && contains_any (lower query) ["same"; "this"; "that"; "it"]
        then resolved_entities ++ match last_entities ctx with Some l => l | None => [] end
        else resolved_entities
    | _ => resolved_entities
    end in
  let resolved_entities :=
    match PyDict.get "relevant_entities" (follow_up_context ctx) with
    | Some (String c s) => resolved_entities ++ chars (String c s)
    | _ => resolved_entities
    end in
  set_order E resolved_entities.

(** [_process_by_type]: the greeting and the unknown type are answered in
    place, the other types by their handlers. *)
Definition _process_by_type (E : Externals) (fu : odict string) (question_type : QuestionType)
    (entities : list string) (context : dict) : odict string * result dict :=
  match question_type with
  | GREETING =>
      (fu, Ok [("type", VStr "greeting"); ("formatted_answer", VStr greeting_text)])
  | UNKNOWN =>
      (fu, Ok [("type", VStr "unknown");
               ("formatted_answer",
                VStr "I'm sorry, I don't understand that type of question yet.")])
  | t => handle E t fu entities context
  end.

(** [list(dict.fromkeys(l))] *)
Fixpoint unique (l : list string) : list string :=
  match l with
  | [] => []
  | x :: l' => x :: filter (fun y => negb (String.eqb x y)) (unique l')
  end.

(** [find_similar_questions] *)
Definition find_similar_questions (query : string) : list string :=
  let query := lower query in
  let suggestions :=
    if contains query "where" then
      (if contains query "srm"
       then ["What are the different SRM campuses?";
             "Where is SRM Kattankulathur campus located?";
             "How to reach SRM main campus?"]
       else [])
      ++ (if contains_any query ["tech park"; "library"; "hostel"]
          then ["What facilities are available in Tech Park?";
                "Where is the Central Library located?";
                "What are the hostel facilities?"]
          else [])
    else if contains query "how" then
      (if contains_any query ["admission"; "apply"; "join"]
       then ["How to apply for admission at SRM?";
             "What are the admission requirements?";
             "How to apply for international admission?"]
       else [])
      ++ (if contains query "reach"
          then ["How to reach SRM from Chennai airport?";
                "What transportation facilities are available?";
                "Is there a college bus service?"]
          else [])
    else if contains_any query ["program"; "course"; "degree"] then
      ["What programs are offered at SRM?";
       "Which engineering branches are available?";
       "What are the postgraduate programs?"]
    else if contains_any query ["facility"; "amenity"; "infrastructure"] then
      ["What facilities are available at SRM?";
       "What sports facilities are available?";
       "Tell me about the hostel facilities"]
    else [] in
  firstn 3 (unique suggestions).

(** [_handle_fallback] *)
Definition _handle_fallback (ctx : Context) (query : string) (classification : Classification)
    : dict :=
  match find_similar_questions query with
  | q :: qs =>
      [("type", VStr "suggestion");
       ("formatted_answer",
        VStr ("I'm not sure about that, but you might be interested in:" ++ nl
              ++ join nl (map (fun q => "- " ++ q)%string (q :: qs)))%string)]
  | [] =>
      if _is_follow_up_question ctx query classification && has_last_entities ctx
      then [("type", VStr "clarification");
            ("formatted_answer",
             VStr ("I'm not sure what you're asking about. Are you still asking about "
                   ++ join ", " (match last_entities ctx with Some l => l | None => [] end)
                   ++ "?")%string)]
      else [("type", VStr "fallback");
            ("formatted_answer",
             VStr ("I apologize, but I couldn't find specific information about that. "
                   ++ "Could you please:" ++ nl
                   ++ "1. Rephrase your question" ++ nl
                   ++ "2. Be more specific" ++ nl
                   ++ "3. Ask about a different topic like campus locations, programs, or facilities?")%string)]
  end.

(** [not response or (not response.get('information') and not
    response.get('formatted_answer'))] *)
Definition is_empty_response (response : dict) : bool :=
  match response with
  | [] => true
  | _ => negb (truthy (get_or_none "information" response))
         && negb (truthy (get_or_none "formatted_answer" response))
  end.

(** [self.context['conversation_history'][-1]['response'] = response] *)
Fixpoint set_last_response (history : list Turn) (response : dict) : list Turn :=
  match history with
  | [] => []
  | [t] => [mkTurn (t_query t) (t_timestamp t) (Some response)]
  | t :: rest => t :: set_last_response rest response
  end.

Definition with_history (ctx : Context) (h : list Turn) : Context :=
  mkContext (last_question_type ctx) (last_entities ctx) (current_topic ctx) h
            (referenced_entities ctx) (follow_up_context ctx) (clarification_needed ctx).

Definition with_classification (ctx : Context) (t : QuestionType) (entities : list string)
    : Context :=
  mkContext (Some t) (Some entities) (current_topic ctx) (conversation_history ctx)
            (referenced_entities ctx) (follow_up_context ctx) (clarification_needed ctx).

Definition with_follow_up (ctx : Context) (fu : odict string) : Context :=
  mkContext (last_question_type ctx) (last_entities ctx) (current_topic ctx)
            (conversation_history ctx) (referenced_entities ctx) fu (clarification_needed ctx).

(** [process_query]: the context after the call, and the response or the
    exception of the call. [timestamp] is [datetime.now().isoformat()]. *)
Definition process_query (E : Externals) (ctx : Context) (query timestamp : string)
    : Context * result dict :=
  let ctx := with_history ctx (conversation_history ctx ++ [mkTurn query timestamp None]) in
  match classify_question E query with
  | Raise e => (ctx, Raise e)
  | Ok classification =>
      let question_type := c_type classification in
      let entities := c_entities classification in
      let query_context := c_context classification in
      let ctx := with_classification ctx question_type entities in
      let entities :=
        if _is_follow_up_question ctx query classification
        then _resolve_references E ctx entities query
        else entities in
      match _process_by_type E (follow_up_context ctx) question_type entities query_context with
      | (fu, Raise e) => (with_follow_up ctx fu, Raise e)
      | (fu, Ok response) =>
          let ctx := with_follow_up ctx fu in
          let response :=
            if is_empty_response response
            then _handle_fallback ctx query classification
            else response in
          (with_history ctx (set_last_response (conversation_history ctx) response),
           Ok response)
      end
  end.

End ORBAI.

(** ** enhanced_chatbot.py: the resolution engine *)

Module EnhancedChatbot.

Import PyStr PyValue NLUModule.

(** [self.knowledge_base], as knowledge_base.json holds it: an object of
    categories, each an object of entities, each an object of data. A
    file of another shape is outside the embedding. *)
Definition KnowledgeBase : Type := odict (odict dict).

(** The modules [context_manager] and [response_formatter] are imported by
    enhanced_chatbot.py and are not part of the repository. Their
    operations are parameters, over an arbitrary type [store] of session
    states: [get_context], [get_conversation_summary] and [format_response]
    are read and may raise; [create_conversation] and [update_context]
    return the new store. [new_session_id] is [str(uuid.uuid4())], and
    [str_of] is Python's [str] on a value that is not a string. *)
Record Collaborators : Type := mkCollaborators {
  store : Type;
  create_conversation : store -> string -> result store;
  get_context : store -> string -> result (option dict);
  update_context : store -> string -> string -> dict -> list string -> value -> result store;
  get_conversation_summary : store -> string -> result value;
  format_response : dict -> result dict;
  new_session_id : store -> string;
  str_of : value -> string
}.

(** The acceptance threshold and the similarity floor. *)
Definition acceptance_threshold : Q := 6 # 10.
Definition similarity_floor : Q := 5 # 10.

(** [response.get('confidence', 0) > 0.6] *)
Definition confident (response : dict) : result bool :=
  gt_num (PyDict.get_default "confidence" response (VNum 0)) acceptance_threshold.

(** [{k: v for k, v in entity_data.items() if k not in ['id', 'type'] and
    not isinstance(v, dict)}] *)
Definition other_information (entity_data : dict) : dict :=
  filter (fun kv => negb (mem (fst kv) ["id"; "type"]) && negb (is_dict (snd kv))) entity_data.

(** The response [_get_entity_info] builds for an entity found in
    [category] with the data [entity_data]. *)
Definition entity_response (entity : string) (intent : value) (category : string)
    (entity_data : dict) : result dict :=
  let response : dict :=
    [("type", intent); ("entity", VStr entity); ("confidence", VNum 1)] in
  if py_eq intent (VStr "location") then
    Ok (PyDict.update response
          [("address", get_or_none "address" entity_data);
           ("location", get_or_none "location" entity_data);
           ("map_link", get_or_none "map_link" entity_data)])
  else if py_eq intent (VStr "description") then
    Ok (PyDict.update response
          [("description", get_or_none "description" entity_data);
           ("type_info", get_or_none "type" entity_data);
           ("category", VStr category)])
  else if py_eq intent (VStr "facilities") then
    facilities <- py_add (PyDict.get_default "facilities" entity_data (VList []))
                         (PyDict.get_default "amenities" entity_data (VList [])) ;;
    Ok (PyDict.update response
          [("facilities", facilities);
           ("description", get_or_none "description" entity_data)])
  else if py_eq intent (VStr "contact") then
    Ok (PyDict.update response
          [("contact", get_or_none "contact" entity_data);
           ("additional_info", get_or_none "description" entity_data)])
  else
    Ok (PyDict.update response (other_information entity_data)).

(** [_get_entity_info]: the first category that has the entity answers. *)
Fixpoint _get_entity_info (kb : KnowledgeBase) (entity : string) (intent : value)
    : result dict :=
  match kb with
  | [] => Ok [("confidence", VNum 0)]
  | (category, items) :: rest =>
      match PyDict.get entity items with
      | Some entity_data => entity_response entity intent category entity_data
      | None => _get_entity_info rest entity intent
      end
  end.

(** [', '.join(x)] for a value [x]: the members of a list of strings, the
    characters of a string or the keys of a dictionary; a TypeError
    otherwise. *)
Fixpoint strings_of (l : list value) : result (list string) :=
  match l with
  | [] => Ok []
  | VStr s :: l' => ss <- strings_of l' ;; Ok (s :: ss)
  | _ :: _ => Raise TypeError
  end.

Fixpoint chars (s : string) : list string :=
  match s with
  | EmptyString => []
  | String c s' => String c EmptyString :: chars s'
  end.

Definition join_value (sep : string) (x : value) : result string :=
  match x with
  | VList l => ss <- strings_of l ;; Ok (join sep ss)
  | VStr s => Ok (join sep (chars s))
  | VDict d => Ok (join sep (PyDict.keys d))
  | _ => Raise TypeError
  end.

(** The text a value takes in an f-string. *)
Definition fmt (C : Collaborators) (v : value) : string :=
  match v with
  | VStr s => s
  | _ => str_of C v
  end.

(** The candidates one entity contributes in [_get_candidate_responses]. *)
Definition entity_candidates (C : Collaborators) (entity : string) (data : dict)
    : result (list string) :=
  let c1 := [(entity ++ ": " ++ fmt C (PyDict.get_default "description" data (VStr "")))%string] in
  c2 <- match PyDict.get "facilities" data with
        | Some f => s <- join_value ", " f ;; Ok [(entity ++ " facilities: " ++ s)%string]
        | None => Ok []
        end ;;
  let c3 := match PyDict.get "address" data with
            | Some a => [(entity ++ " is located at " ++ fmt C a)%string]
            | None => []
            end in
  let c4 := match PyDict.get "contact" data with
            | Some (VDict contact_info) =>
                [("Contact " ++ entity ++ ": "
                  ++ join ", " (map (fun kv => (fst kv ++ ": " ++ fmt C (snd kv))%string)
                                    contact_info))%string]
            | Some contact_info => [("Contact " ++ entity ++ ": " ++ fmt C contact_info)%string]
            | None => []
            end in
  Ok (c1 ++ c2 ++ c3 ++ c4).

Fixpoint items_candidates (C : Collaborators) (items : odict dict) : result (list string) :=
  match items with
  | [] => Ok []
  | (entity, data) :: rest =>
      cs <- entity_candidates C entity data ;;
      more <- items_candidates C rest ;;
      Ok (cs ++ more)
  end.

(** [_get_candidate_responses] *)
Fixpoint _get_candidate_responses (C : Collaborators) (kb : KnowledgeBase)
    : result (list string) :=
  match kb with
  | [] => Ok []
  | (category, items) :: rest =>
      cs <- items_candidates C items ;;
      more <- _get_candidate_responses C rest ;;
      Ok (cs ++ more)
  end.

(** [candidate.split(':', 1)] *)
Fixpoint split_colon (s : string) : string * option string :=
  match s with
  | EmptyString => (EmptyString, None)
  | String c s' =>
      if Ascii.eqb c ":" then (EmptyString, Some s')
      else let (a, b) := split_colon s' in (String c a, b)
  end.

(** [_format_candidate_response] *)
Definition _format_candidate_response (candidate : string) (confidence : Q) : dict :=
  let parts := split_colon candidate in
  let entity := strip (fst parts) in
  let info := match snd parts with Some p => strip p | None => "" end in
  let response_type :=
    if contains candidate "located at" then "location"
    else if contains candidate "facilities" then "facilities"
    else if contains candidate "Contact" then "contact"
    else "description" in
  [("type", VStr response_type); ("entity", VStr entity); ("description", VStr info);
   ("confidence", VNum confidence)].

(** The knowledge-base entities similar to [entity], in the order of the
    knowledge base. *)
Definition similar_to (M : Models) (kb : KnowledgeBase) (entity : string) : list (string * Q) :=
  flat_map (fun cat =>
              flat_map (fun kb_entity =>
                          let similarity := get_semantic_similarity M entity kb_entity in
                          if Qlt_le_dec similarity_floor similarity
                          then [(kb_entity, similarity)] else [])
                       (PyDict.keys (snd cat)))
           kb.

(** [similar_entities.sort(key=lambda x: x[1], reverse=True)]: a stable
    sort, the higher score first. *)
Fixpoint insert_desc (x : string * Q) (l : list (string * Q)) : list (string * Q) :=
  match l with
  | [] => [x]
  | y :: l' =>
      if Qlt_le_dec (snd x) (snd y) then y :: insert_desc x l' else x :: y :: l'
  end.

Definition sort_desc (l : list (string * Q)) : list (string * Q) :=
  fold_right insert_desc [] l.

Definition popular_topics : list string :=
  ["Tell me about the Kattankulathur Campus";
   "What facilities are available in Tech Park?";
   "How can I contact the admissions office?";
   "What are the hostel facilities?";
   "Where is the Central Library?"].

Definition fallback_message : string :=
  "I'm not quite sure about that. Here are some related questions you might be interested in:".

(** The suggestions of [_generate_fallback_response] before the final cut. *)
Definition fallback_suggestions (similar_entities : list (string * Q)) : list string :=
  match similar_entities with
  | [] => popular_topics
  | _ =>
      flat_map (fun es =>
                  [("What is " ++ fst es ++ "?")%string;
                   ("Tell me about " ++ fst es)%string;
                   ("Where is " ++ fst es ++ " located?")%string])
               (firstn 3 similar_entities)
  end.

(** [analysis.get('entities')], [analysis.get('intent', 'general')] and
    [analysis['processed_query']] on either form of an analysis. *)
Definition analysis_entities (a : analysis) : list string :=
  match a with Analysed r => entities r | AnalysisError _ _ => [] end.

Definition analysis_intent (a : analysis) (default : value) : value :=
  match a with Analysed r => VStr (intent r) | AnalysisError _ _ => default end.

Definition analysis_processed_query (a : analysis) : result string :=
  match a with Analysed r => Ok (processed_query r) | AnalysisError _ _ => Raise KeyError end.

Definition analysis_is_followup (a : analysis) : result bool :=
  match a with Analysed r => Ok (is_followup r) | AnalysisError _ _ => Raise KeyError end.

(** [_generate_fallback_response] *)
Definition _generate_fallback_response (C : Collaborators) (M : Models) (kb : KnowledgeBase)
    (st : store C) (a : analysis) (session_id : string) : result dict :=
  context <- get_context C st session_id ;;
  let similar_entities := flat_map (similar_to M kb) (analysis_entities a) in
  let similar_entities := sort_desc similar_entities in
  let suggestions := fallback_suggestions similar_entities in
  Ok [("type", VStr "fallback");
      ("message", VStr fallback_message);
      ("suggestions", VList (map VStr (firstn 5 suggestions)));
      ("confidence", VNum 0)].

(** The loop of [_find_best_match] over the extracted entities: the first
    confident response, if any. *)
Fixpoint first_confident (kb : KnowledgeBase) (entities : list string) (intent : value)
    : result (option dict) :=
  match entities with
  | [] => Ok None
  | entity :: rest =>
      response <- _get_entity_info kb entity intent ;;
      c <- confident response ;;
      if c then Ok (Some response) else first_confident kb rest intent
  end.

(** [_find_best_match] *)
Definition _find_best_match (C : Collaborators) (M : Models) (kb : KnowledgeBase)
    (st : store C) (a : analysis) (session_id : string) : result dict :=
  let entities := analysis_entities a in
  let intent := analysis_intent a (VStr "general") in
  found <- first_confident kb entities intent ;;
  match found with
  | Some response => Ok response
  | None =>
      query <- analysis_processed_query a ;;
      candidates <- _get_candidate_responses C kb ;;
      match candidates with
      | [] => _generate_fallback_response C M kb st a session_id
      | _ =>
          match find_best_matches M query candidates default_top_k with
          | (best_match, confidence) :: _ =>
              if Qlt_le_dec acceptance_threshold confidence
              then Ok (_format_candidate_response best_match confidence)
              else _generate_fallback_response C M kb st a session_id
          | [] => _generate_fallback_response C M kb st a session_id
          end
      end
  end.

(** [_handle_followup]. A current entity that is a non-empty list or
    dictionary is truthy and unhashable: the test [entity in items] of
    [_get_entity_info] raises a TypeError at the first category. A number
    or a boolean is no key of the knowledge base and is not found. *)
Definition _handle_followup (C : Collaborators) (M : Models) (kb : KnowledgeBase)
    (st : store C) (query : string) (a : Analysis) (context : dict) (session_id : string)
    : result dict :=
  let current_entity := get_or_none "current_entity" context in
  let current_intent := get_or_none "current_intent" context in
  match current_entity with
  | VStr (String c s) =>
      let new_intent :=
        if negb (String.eqb (intent a) "general") then VStr (intent a) else current_intent in
      response <- _get_entity_info kb (String c s) new_intent ;;
      ok <- confident response ;;
      if ok then Ok response else _find_best_match C M kb st (Analysed a) session_id
  | VList (_ :: _) | VDict (_ :: _) =>
      match kb with
      | [] => _find_best_match C M kb st (Analysed a) session_id
      | _ :: _ => Raise TypeError
      end
  | _ => _find_best_match C M kb st (Analysed a) session_id
  end.

Definition error_response : dict :=
  [("type", VStr "error");
   ("message", VStr "I'm sorry, but I encountered an error processing your request.");
   ("confidence", VNum 0)].

(** The statements of [process_query] inside [try], up to and including
    the call of [update_context]: the store after them and the response. *)
Definition resolve_and_update (C : Collaborators) (M : Models) (kb : KnowledgeBase)
    (st : store C) (query : string) (session_id : string) : result (store C * dict) :=
  context <- get_context C st session_id ;;
  let a := analyze_query M query context in
  followup <- analysis_is_followup a ;;
  response <-
    match a, context with
    | Analysed r, Some (kv :: ctx) =>
        if followup then _handle_followup C M kb st query r (kv :: ctx) session_id
        else _find_best_match C M kb st a session_id
    | _, _ => _find_best_match C M kb st a session_id
    end ;;
  st' <- update_context C st session_id query response
           (analysis_entities a) (analysis_intent a VNone) ;;
  Ok (st', response).

(** [process_query]: the store after the call and the dictionary returned.
    A session is created when none is given; an exception anywhere is
    answered with the error response, and the store keeps what was done
    before it. *)
Definition process_query (C : Collaborators) (M : Models) (kb : KnowledgeBase)
    (st : store C) (query : string) (session_id : option string) : store C * dict :=
  let created :=
    match session_id with
    | Some (String c s) => Ok (st, String c s)
    | _ =>
        let sid := new_session_id C st in
        st1 <- create_conversation C st sid ;; Ok (st1, sid)
    end in
  match created with
  | Raise _ => (st, error_response)
  | Ok (st1, sid) =>
      match resolve_and_update C M kb st1 query sid with
      | Raise _ => (st1, error_response)
      | Ok (st2, response) =>
          match (formatted <- format_response C response ;;
                 summary <- get_conversation_summary C st2 sid ;;
                 Ok (PyDict.set (PyDict.set formatted "session_id" (VStr sid))
                                "conversation_summary" summary)) with
          | Raise _ => (st2, error_response)
          | Ok formatted => (st2, formatted)
          end
      end
  end.

End EnhancedChatbot.

(** ** Notions used to state the properties *)

Module Notions.

Import PyStr PyValue.

(** *** Knowledge store *)

(** The nodes [query] keeps: those of the requested type whose attributes
    have every pair of the filter. *)
Definition selected (entity_type : string) (filters : option dict) (n : string * dict) : bool :=
  negb (KnowledgeGraph.type_mismatch (snd n) entity_type)
  && match KnowledgeGraph.truthy_filters filters with
     | Some f => KnowledgeGraph.matches_filters (snd n) f
     | None => true
     end.

(** The entity reported for a node. *)
Definition render (n : string * dict) : dict :=
  KnowledgeGraph.entity_dict (fst n) (snd n).

(** *** Ranking *)

Definition scores_at (sims : list Q) (idxs : list nat) : list Q :=
  map (fun i => nth i sims 0) idxs.

(** The contract of [argsort]: a permutation of the positions that lists
    the scores in ascending order. The order of positions with equal
    scores is left open, as numpy leaves it for its default sort. *)
Definition is_argsort (sims : list Q) (idxs : list nat) : Prop :=
  Permutation idxs (seq 0 (List.length sims))
  /\ StronglySorted Qle (scores_at sims idxs).

(** A ranking with the higher score first. *)
Definition descending (r : list (string * Q)) : Prop :=
  StronglySorted (fun x y => snd y <= snd x) r.

(** The positions [find_best_matches] selects, best first. *)
Definition top_indices (M : NLUModule.Models) (sims : list Q) (top_k : Z) : list nat :=
  rev (NLUModule.slice_from (- top_k) (NLUModule.argsort M sims)).

Definition pair_at (candidates : list string) (sims : list Q) (i : nat) : string * Q :=
  (nth i candidates "", nth i sims 0).

(** *** Resolution *)

(** The data of an entity, in the first category that has it. *)
Fixpoint lookup (kb : EnhancedChatbot.KnowledgeBase) (entity : string)
    : option (string * dict) :=
  match kb with
  | [] => None
  | (category, items) :: rest =>
      match PyDict.get entity items with
      | Some data => Some (category, data)
      | None => lookup rest entity
      end
  end.

(** The intents whose branch of [_get_entity_info] writes fixed keys only
    and cannot raise. *)
Definition special_intents : list string := ["location"; "description"; "contact"].

(** The shape of a fallback response. *)
Definition fallback_response (suggestions : list string) : dict :=
  [("type", VStr "fallback");
   ("message", VStr EnhancedChatbot.fallback_message);
   ("suggestions", VList (map VStr suggestions));
   ("confidence", VNum 0)].

(** *** Words of a text *)

Fixpoint spaceless (s : string) : bool :=
  match s with
  | EmptyString => true
  | String c s' => negb (Ascii.eqb c " ") && spaceless s'
  end.

(** The first piece of [s.split(' ')] and the pieces after it. *)
Definition first_piece (s : string) : string :=
  match split_on " " s with
  | w :: _ => w
  | [] => EmptyString
  end.

Definition later_pieces (s : string) : list string := tl (split_on " " s).

End Notions.

(** ** Sample stores, models and sessions *)

Module Samples.

Import PyStr PyValue.

(** *** Knowledge store *)

(** A store with one location, as the static loader or [add_entity] builds it. *)
Definition tech_park_attrs : dict :=
  [("address", VStr "SRM Nagar, Kattankulathur");
   ("facilities", VList [VStr "Research Labs"; VStr "Innovation Center"])].

Definition tech_park_store : KnowledgeGraph.MultiDiGraph :=
  KnowledgeGraph.add_node KnowledgeGraph.empty_graph "Tech Park"
    (("type", VStr "location") :: tech_park_attrs).

(** A store with two nodes that both mention "park" more than once. *)
Definition two_parks : KnowledgeGraph.MultiDiGraph :=
  KnowledgeGraph.add_node
    (KnowledgeGraph.add_node KnowledgeGraph.empty_graph "Tech Park"
       [("type", VStr "location"); ("description", VStr "Tech Park labs");
        ("facilities", VList [VStr "Car Park"])])
    "Central Library"
    [("type", VStr "location"); ("description", VStr "Next to Tech Park")].

(** *** External models *)

(** Models to run the ranker with: a text is its own embedding, the
    similarity of a candidate is read from a table, and [argsort] is a
    stable insertion sort, one of the orders numpy's [argsort] may return
    (equal scores in the order of their indices). *)
Definition table_scores : odict Q :=
  [("hostel", 1 # 2); ("library", 1 # 2); ("tech park", 9 # 10); ("canteen", 1 # 10)].

Fixpoint insert_index (sims : list Q) (i : nat) (sorted : list nat) : list nat :=
  match sorted with
  | [] => [i]
  | j :: rest =>
      if Qlt_le_dec (nth i sims 0) (nth j sims 0) then i :: sorted
      else j :: insert_index sims i rest
  end.

Definition stable_argsort (sims : list Q) : list nat :=
  fold_left (fun sorted i => insert_index sims i sorted) (seq 0 (List.length sims)) [].

Definition table_models : NLUModule.Models :=
  NLUModule.mkModels
    (fun _ => "")
    (fun texts => Ok texts)
    (fun _ cs => Ok [map (fun c => PyDict.get_default c table_scores 0) cs])
    stable_argsort
    (fun _ => Ok []).

(** Models in which no two texts are similar and no word is a noun. *)
Definition plain_models : NLUModule.Models :=
  NLUModule.mkModels
    (fun _ => tt)
    (fun texts => Ok (map (fun _ => tt) texts))
    (fun qs cs => Ok [map (fun _ => 0) cs])
    (fun sims => seq 0 (List.length sims))
    (fun _ => Ok []).

(** *** enhanced_chatbot.py *)

(** Collaborators to run the engine with: the store maps a session to its
    context, an update records the entity of the response and the intent,
    and formatting is the identity. *)
Definition simple_collaborators : EnhancedChatbot.Collaborators :=
  EnhancedChatbot.mkCollaborators
    (fun (st : odict dict) sid => Ok (PyDict.set st sid []))
    (fun st sid => Ok (PyDict.get sid st))
    (fun st sid query response entities intent =>
       Ok (PyDict.set st sid [("current_entity", get_or_none "entity" response);
                              ("current_intent", intent)]))
    (fun st sid => Ok VNone)
    (fun response => Ok response)
    (fun st => "session-1")
    (fun v => "").

(** A knowledge base whose only entity has an attribute named
    "confidence", and the analysis of a query that names the entity and
    has the intent "general". *)
Definition shadowing_kb : EnhancedChatbot.KnowledgeBase :=
  [("locations",
    [("tech park", [("description", VStr "Research labs"); ("confidence", VNum (1 # 5))])])].

Definition tech_park_analysis : NLUModule.analysis :=
  NLUModule.Analysed
    (NLUModule.mkAnalysis "Tech Park" "tech park" ["tech park"] "other" "general" false false).


(** *** orb_ai.py *)

(** Externals to run the engine with: beyond the greeting test every
    query is taken for a factual question about the canteen, with the
    context that [_extract_context] returns when it finds nothing. The
    handler in effect for a factual question, the second
    [_handle_factual_query] of the class (line 519), receives that context
    as its [entities], iterates over the first value, which is [None], and
    raises a TypeError. A set is listed in the order it was filled. *)
Definition bare_query_context : dict :=
  [("time_reference", VNone);
   ("location_reference", VNone);
   ("comparison_aspects", VList []);
   ("requirements", VList [])].

Definition bare_externals : ORBAI.Externals :=
  ORBAI.mkExternals
    (fun _ => Ok (ORBAI.mkClassification ORBAI.FACTUAL ["canteen"] bare_query_context))
    (fun t fu entities context => (fu, Raise TypeError))
    (fun l => l).

(** A context in which the last turn resolved "Tech Park". *)
Definition after_tech_park : ORBAI.Context :=
  ORBAI.mkContext (Some ORBAI.LOCATION) (Some ["Tech Park"]) None
    [ORBAI.mkTurn "Where is Tech Park?" "2024-01-01T10:00:00"
       (Some [("type", VStr "location")])]
    [] [("location", "Tech Park")] false.

End Samples.

(** ** Further notions used to state properties *)

Module MoreNotions.

Import PyStr PyValue.

(** *** Admission answers *)

(** The five sections of an answer of [handle_admission_query], in the
    order the function fills them. *)
Definition sections (r : AdmissionHandler.AdmissionRequirements) : dict :=
  [("documents", AdmissionHandler.str_list (AdmissionHandler.documents r));
   ("eligibility", VStr (AdmissionHandler.eligibility r));
   ("procedure", VStr (AdmissionHandler.procedure r));
   ("deadlines", AdmissionHandler.str_dict (AdmissionHandler.deadlines r));
   ("contact", VStr (AdmissionHandler.contact_email r))].

(** The words that ask for each section. *)
Definition section_words : odict (list string) :=
  [("documents", ["document"; "require"; "submit"]);
   ("eligibility", ["eligible"; "eligibility"; "qualify"]);
   ("procedure", ["procedure"; "process"; "how to"; "steps"]);
   ("deadlines", ["deadline"; "date"; "when"]);
   ("contact", ["contact"; "email"; "reach"])].

(** The sections a query in lower case asks for. *)
Definition requested (query : string) : list string :=
  PyDict.keys (filter (fun e => contains_any query (snd e)) section_words).

(** *** Characters of a text *)

Fixpoint all_chars (P : ascii -> bool) (s : string) : bool :=
  match s with
  | EmptyString => true
  | String c s' => P c && all_chars P s'
  end.

(** A character of the ASCII range, where [lower], [is_space] and
    [NLUModule.is_word] are Python's [str.lower], white space and [\w]. *)
Definition is_ascii (c : ascii) : bool := (nat_of_ascii c <? 128)%nat.

(** A character [preprocess_text] lets through unchanged: in lower case,
    and a word character, white space or the question mark. *)
Definition kept (c : ascii) : bool :=
  Ascii.eqb (lower_char c) c
  && (NLUModule.is_word c || is_space c || Ascii.eqb c "?").

(** A character of a word of a preprocessed text. *)
Definition word_char (c : ascii) : bool := kept c && negb (is_space c).

(** A word of a preprocessed text. *)
Definition is_word_piece (w : string) : Prop :=
  w <> "" /\ all_chars word_char w = true.

(** *** Tagged words *)

Definition all_nouns (tags : list (string * string)) : bool :=
  forallb (fun wt => NLUModule.is_noun_tag (snd wt)) tags.

Definition no_noun (tags : list (string * string)) : bool :=
  forallb (fun wt => negb (NLUModule.is_noun_tag (snd wt))) tags.

(** The words of a run of tagged words, joined by single spaces. *)
Definition phrase (run : list (string * string)) : string :=
  join " " (map fst run).

(** A gap of one or more words that are not nouns, followed by a run of
    one or more nouns. *)
Definition gap_then_run (gr : list (string * string) * list (string * string)) : Prop :=
  fst gr <> [] /\ no_noun (fst gr) = true /\ snd gr <> [] /\ all_nouns (snd gr) = true.

(** Tagged words with at least one noun, cut at the ends of the maximal
    runs of nouns: words that are not nouns, the first run, the further
    runs each after its gap, and words that are not nouns. *)
Definition cut_into_runs (tags lead run : list (string * string))
    (more : list (list (string * string) * list (string * string)))
    (tail : list (string * string)) : Prop :=
  tags = lead ++ run ++ flat_map (fun gr => fst gr ++ snd gr) more ++ tail
  /\ no_noun lead = true
  /\ run <> [] /\ all_nouns run = true
  /\ Forall gap_then_run more
  /\ no_noun tail = true.

(** *** Resolution *)

(** The intent [_handle_followup] looks the current entity up with. *)
Definition followup_intent (a : NLUModule.Analysis) (context : dict) : value :=
  if negb (String.eqb (NLUModule.intent a) "general") then VStr (NLUModule.intent a)
  else get_or_none "current_intent" context.

Definition is_special (intent : value) : bool :=
  existsb (fun i => py_eq intent (VStr i)) Notions.special_intents.


(** The three suggestions about one entity. *)
Definition suggestions_about (entity : string) : list string :=
  [("What is " ++ entity ++ "?")%string;
   ("Tell me about " ++ entity)%string;
   ("Where is " ++ entity ++ " located?")%string].

Fixpoint colon_free (s : string) : bool :=
  match s with
  | EmptyString => true
  | String c s' => negb (Ascii.eqb c ":") && colon_free s'
  end.

(** *** Contexts of orb_ai.py *)

(** Two contexts that differ at most in the last question type and the
    last entities. *)
Definition same_but_last (c1 c2 : ORBAI.Context) : Prop :=
  ORBAI.current_topic c1 = ORBAI.current_topic c2
  /\ ORBAI.conversation_history c1 = ORBAI.conversation_history c2
  /\ ORBAI.referenced_entities c1 = ORBAI.referenced_entities c2
  /\ ORBAI.follow_up_context c1 = ORBAI.follow_up_context c2
  /\ ORBAI.clarification_needed c1 = ORBAI.clarification_needed c2.

End MoreNotions.

(** ** Further samples *)

Module MoreSamples.

Import PyStr PyValue.

(** Models whose tagger answers every text with the tags of "where is
    tech park and the library ?". *)
Definition question_tags : list (string * string) :=
  [("where", "WRB"); ("is", "VBZ"); ("tech", "NN"); ("park", "NN");
   ("and", "CC"); ("the", "DT"); ("library", "NN"); ("?", ".")].

Definition question_tagger : NLUModule.Models :=
  NLUModule.mkModels
    (fun _ => tt)
    (fun texts => Ok (map (fun _ => tt) texts))
    (fun qs cs => Ok [map (fun _ => 0) cs])
    (fun sims => seq 0 (List.length sims))
    (fun _ => Ok question_tags).

(** A knowledge base with a location and a facility. *)
Definition campus_kb : EnhancedChatbot.KnowledgeBase :=
  [("locations",
    [("tech park",
      [("description", VStr "Research labs and industry collaboration");
       ("address", VStr "SRM Nagar, Kattankulathur");
       ("facilities", VList [VStr "Research Labs"; VStr "Innovation Center"])])]);
   ("facilities",
    [("hostel",
      [("description", VStr "Rooms for students");
       ("contact", VStr "hostel@srmist.edu.in")])])].

(** The analysis of "where is the srm tech park hostel", with three
    entities of which the first is not in the knowledge base. *)
Definition where_analysis : NLUModule.Analysis :=
  NLUModule.mkAnalysis "Where is the SRM tech park hostel?" "where is the srm tech park hostel?"
    ["srm"; "tech park"; "hostel"] "factual" "location" false true.

(** The analysis of "what about the hostel", of general intent, and a
    context whose current entity is the tech park. *)
Definition what_about_analysis : NLUModule.Analysis :=
  NLUModule.mkAnalysis "What about the hostel?" "what about the hostel?"
    ["hostel"] "other" "general" true true.

Definition tech_park_context : dict :=
  [("current_entity", VStr "tech park"); ("current_intent", VStr "location")].

(** Models in which the text "library" resembles the entity "tech park"
    (0.7) more than the entity "hostel" (0.6), and a tagger that finds no
    noun. *)
Definition library_models : NLUModule.Models :=
  NLUModule.mkModels
    (fun _ => "")
    (fun texts => Ok texts)
    (fun qs cs =>
       Ok [map (fun c => if String.eqb c "tech park" then 7 # 10
                         else if String.eqb c "hostel" then 6 # 10 else 0) cs])
    (fun sims => seq 0 (List.length sims))
    (fun _ => Ok []).

Definition library_analysis : NLUModule.analysis :=
  NLUModule.Analysed
    (NLUModule.mkAnalysis "Library?" "library?" ["library"] "other" "general" false false).

End MoreSamples.

(** ** text_processor.py: the question patterns *)

Module TextProcessor.

Import PyStr.

(** The regular expressions of [question_patterns], as far as the answer
    of [re.search] goes: literal text, alternatives, sequences, optional
    parts and [(.+)], one or more characters other than the line feed. *)
Inductive regex : Type :=
| Lit (s : string)
| Alt (a b : regex)
| Seq (a b : regex)
| Opt (a : regex)
| AnyPlus.

(** [(?:w1|w2|...)] *)
Fixpoint one_of (words : list string) : regex :=
  match words with
  | [] => Lit ""
  | [w] => Lit w
  | w :: ws => Alt (Lit w) (one_of ws)
  end.

(** A sequence of parts. *)
Fixpoint seq_of (parts : list regex) : regex :=
  match parts with
  | [] => Lit ""
  | [r] => r
  | r :: rs => Seq r (seq_of rs)
  end.

Definition is_newline (c : ascii) : bool := Ascii.eqb c (ascii_of_nat 10).

(** What is left of [s] after one or more characters other than the line
    feed, the shortest match first. *)
Fixpoint any_plus (s : string) : list string :=
  match s with
  | EmptyString => []
  | String c s' => if is_newline c then [] else s' :: any_plus s'
  end.

(** What can be left of [s] after a match of [r] at its start. *)
Fixpoint rmatch (r : regex) (s : string) : list string :=
  match r with
  | Lit l => match ORBAI.after_prefix s l with Some rest => [rest] | None => [] end
  | Alt a b => rmatch a s ++ rmatch b s
  | Seq a b => flat_map (rmatch b) (rmatch a s)
  | Opt a => rmatch a s ++ [s]
  | AnyPlus => any_plus s
  end.

Definition matches_at_start (r : regex) (s : string) : bool :=
  match rmatch r s with [] => false | _ => true end.

(** [re.search(r, s)]: a match at some position of [s]. *)
Fixpoint search (r : regex) (s : string) : bool :=
  matches_at_start r s
  || match s with
     | EmptyString => false
     | String _ s' => search r s'
     end.

Definition the_rest : list regex := [Opt (Lit "the "); AnyPlus].

Definition location_patterns : list regex :=
  [seq_of ([Lit "where "; one_of ["is"; "are"; "can i find"]; Lit " "] ++ the_rest);
   seq_of ([Alt (Lit "location") (Alt (Lit "address") (Seq (Lit "direction") (Opt (Lit "s"))));
            Lit " "; one_of ["of"; "to"; "for"]; Lit " "] ++ the_rest);
   seq_of ([Lit "how "; one_of ["do"; "can"]; Lit " "; one_of ["i"; "we"]; Lit " ";
            one_of ["get"; "reach"; "find"]; Lit " "] ++ the_rest);
   seq_of ([Lit "show me "; one_of ["where"; "how to get to"]; Lit " "] ++ the_rest)].

(** [r'what (?:is|are) (?:the )?(.+)'] *)
Definition what_is_pattern : regex :=
  seq_of ([Lit "what "; one_of ["is"; "are"]; Lit " "] ++ the_rest).

(** [r'what (?:are|is) the (?:steps|process|procedure) (?:to|for) (.+)'] *)
Definition steps_pattern : regex :=
  seq_of [Lit "what "; one_of ["are"; "is"]; Lit " the ";
          one_of ["steps"; "process"; "procedure"]; Lit " "; one_of ["to"; "for"]; Lit " ";
          AnyPlus].

(** [r'what are the (?:pros|cons|advantages|disadvantages) of (.+)'] *)
Definition pros_cons_pattern : regex :=
  seq_of [Lit "what are the "; one_of ["pros"; "cons"; "advantages"; "disadvantages"];
          Lit " of "; AnyPlus].

Definition factual_patterns : list regex :=
  [what_is_pattern;
   seq_of (Lit "tell me about " :: the_rest);
   seq_of ([one_of ["information"; "details"]; Lit " "; one_of ["about"; "on"; "for"]; Lit " "]
           ++ the_rest);
   seq_of (Lit "describe " :: the_rest)].

Definition procedural_patterns : list regex :=
  [seq_of [Lit "how "; one_of ["do"; "can"; "should"]; Lit " "; one_of ["i"; "we"]; Lit " ";
           AnyPlus];
   steps_pattern;
   seq_of [Lit "guide "; one_of ["me"; "us"]; Lit " "; one_of ["through"; "on"]; Lit " ";
           AnyPlus];
   seq_of [Lit "explain how to "; AnyPlus]].

Definition comparative_patterns : list regex :=
  [seq_of [one_of ["compare"; "difference between"]; Lit " "; AnyPlus];
   seq_of [Lit "which is "; one_of ["better"; "worse"; "more"; "less"]; Lit " "; AnyPlus];
   pros_cons_pattern;
   seq_of [Lit "how does "; AnyPlus; Lit " compare to "; AnyPlus]].

(** [self.question_patterns], in the order of the dictionary. *)
Definition question_patterns : list (ORBAI.QuestionType * list regex) :=
  [(ORBAI.LOCATION, location_patterns);
   (ORBAI.FACTUAL, factual_patterns);
   (ORBAI.PROCEDURAL, procedural_patterns);
   (ORBAI.COMPARATIVE, comparative_patterns)].

(** [re.search(pattern, query, re.IGNORECASE)] for a pattern in lower
    case and a query of ASCII characters: the case of the letters of
    [query] does not count. *)
Definition search_ignorecase (r : regex) (query : string) : bool :=
  search r (lower query).

(** [_match_question_type] *)
Definition _match_question_type (query : string) : ORBAI.QuestionType :=
  match find (fun entry => existsb (fun r => search_ignorecase r query) (snd entry))
             question_patterns with
  | Some entry => fst entry
  | None => ORBAI.UNKNOWN
  end.

End TextProcessor.

(** * Properties *)

(** ** Dictionaries *)

Module PyDictFacts.

Import PyDict.

Section Facts.

Variable A : Type.
Implicit Types (d e : odict A) (k : string) (v : A).

Lemma get_set_same d k v : get k (set d k v) = Some v.
Proof.
  induction d as [|[k' v'] d IH]; simpl.
  - now rewrite String.eqb_refl.
  - destruct (String.eqb k k') eqn:E; simpl; rewrite E; auto.
Qed.

Lemma get_set_other d k k' v : k <> k' -> get k' (set d k v) = get k' d.
Proof.
  intros Hne. induction d as [|[k0 v0] d IH]; simpl.
  - destruct (String.eqb k' k) eqn:E; auto.
    apply String.eqb_eq in E. congruence.
  - destruct (String.eqb k k0) eqn:E; simpl.
    + apply String.eqb_eq in E. subst k0.
      destruct (String.eqb k' k) eqn:E'; auto.
      apply String.eqb_eq in E'. congruence.
    + now rewrite IH.
Qed.

Lemma set_fixed d k v : get k d = Some v -> set d k v = d.
Proof.
  induction d as [|[k' v'] d IH]; simpl; [discriminate|].
  destruct (String.eqb k k') eqn:E; intros H.
  - now inversion H.
  - now rewrite IH.
Qed.

Lemma get_none_notin d k : get k d = None <-> ~ In k (keys d).
Proof.
  induction d as [|[k' v'] d IH]; simpl.
  - tauto.
  - destruct (String.eqb k k') eqn:E.
    + apply String.eqb_eq in E. subst. split; [discriminate | intros H; exfalso; auto].
    + apply String.eqb_neq in E. rewrite IH. split.
      * intros H [H'|H']; [congruence | auto].
      * intros H H'. auto.
Qed.

Lemma has_false_notin d k : has k d = false <-> ~ In k (keys d).
Proof.
  unfold has. rewrite <- get_none_notin. destruct (get k d); split; congruence.
Qed.

Lemma keys_set d k v :
  keys (set d k v) = if has k d then keys d else keys d ++ [k].
Proof.
  unfold has. induction d as [|[k' v'] d IH]; simpl; auto.
  destruct (String.eqb k k') eqn:E; simpl; auto.
  rewrite IH. now destruct (get k d).
Qed.

Lemma get_update_notin e : forall d k,
  ~ In k (keys e) -> get k (update d e) = get k d.
Proof.
  induction e as [|[k0 v0] e IH]; intros d k Hn; simpl; auto.
  unfold update in *. simpl in *. rewrite IH by tauto.
  apply get_set_other. intros ->. tauto.
Qed.

Lemma get_update_in e : forall d k v,
  wf_dict e -> In (k, v) e -> get k (update d e) = Some v.
Proof.
  induction e as [|[k0 v0] e IH]; intros d k v Hwf Hin; [easy|].
  unfold wf_dict in *. simpl in Hwf. inversion Hwf as [|? ? Hn Hnd]; subst.
  destruct Hin as [Heq|Hin].
  - inversion Heq; subst. change (update d ((k, v) :: e)) with (update (set d k v) e).
    rewrite get_update_notin by assumption. apply get_set_same.
  - change (update d ((k0, v0) :: e)) with (update (set d k0 v0) e). now apply IH.
Qed.

Lemma update_fixed e : forall d,
  (forall k v, In (k, v) e -> get k d = Some v) -> update d e = d.
Proof.
  induction e as [|[k0 v0] e IH]; intros d H; [easy|].
  change (update d ((k0, v0) :: e)) with (update (set d k0 v0) e).
  rewrite set_fixed by (apply H; now left).
  apply IH. intros k v Hin. apply H. now right.
Qed.

(** Updating twice with the same dictionary is updating once. *)
Lemma update_idempotent d e : wf_dict e -> update (update d e) e = update d e.
Proof.
  intros Hwf. apply update_fixed. intros k v Hin. now apply get_update_in.
Qed.

Lemma keys_update_present e : forall d,
  (forall k, In k (keys e) -> In k (keys d)) -> keys (update d e) = keys d.
Proof.
  induction e as [|[k0 v0] e IH]; intros d H; [easy|].
  change (update d ((k0, v0) :: e)) with (update (set d k0 v0) e).
  assert (Hk : keys (set d k0 v0) = keys d).
  { rewrite keys_set. destruct (has k0 d) eqn:E; auto.
    apply has_false_notin in E. exfalso. apply E, H. now left. }
  rewrite IH; auto.
  intros k Hin. rewrite Hk. apply H. now right.
Qed.

Lemma get_app_none d e k : get k d = None -> get k (d ++ e) = get k e.
Proof.
  induction d as [|[k' v'] d IH]; simpl; auto.
  destruct (String.eqb k k'); [discriminate | auto].
Qed.

Lemma get_in d k v : get k d = Some v -> In (k, v) d.
Proof.
  induction d as [|[k' v'] d IH]; simpl; [discriminate|].
  destruct (String.eqb k k') eqn:E; intros H.
  - apply String.eqb_eq in E. inversion H. subst. now left.
  - right. auto.
Qed.

Lemma wf_set d k v : wf_dict d -> wf_dict (set d k v).
Proof.
  unfold wf_dict. rewrite keys_set. intros H.
  destruct (has k d) eqn:E; auto.
  apply has_false_notin in E.
  apply NoDup_app; repeat split; auto.
  - repeat constructor. intros [].
  - intros x Hx [<-|[]]. auto.
Qed.

Lemma wf_update e : forall d, wf_dict d -> wf_dict (update d e).
Proof.
  induction e as [|[k v] e IH]; intros d H; auto.
  change (update d ((k, v) :: e)) with (update (set d k v) e).
  apply IH. now apply wf_set.
Qed.

Lemma Forall_values_set (P : A -> Prop) d k v :
  Forall (fun n => P (snd n)) d -> P v -> Forall (fun n => P (snd n)) (set d k v).
Proof.
  induction d as [|[k' v'] d IH]; simpl; intros H Hv.
  - now repeat constructor.
  - inversion H; subst. destruct (String.eqb k k'); constructor; auto.
Qed.

End Facts.

End PyDictFacts.

(** ** The knowledge store *)

Module KnowledgeGraphFacts.

Import PyStr PyValue KnowledgeGraph PyDictFacts Notions Samples.

(** *** query *)

Lemma query_loop_spec entity_type filters : forall ns results,
  query_loop ns entity_type filters results
  = results ++ map render (filter (selected entity_type filters) ns).
Proof.
  induction ns as [|[node_id attrs] ns IH]; intros results; simpl.
  - now rewrite app_nil_r.
  - unfold selected at 1. simpl.
    destruct (type_mismatch attrs entity_type); simpl; [apply IH|].
    destruct (truthy_filters filters) as [f|].
    + destruct (matches_filters attrs f); simpl; rewrite IH; auto.
      now rewrite <- app_assoc.
    + rewrite IH. now rewrite <- app_assoc.
Qed.

(** [query] returns, in insertion order, the nodes of the requested type
    whose attribute dictionary has every pair of the filter; it never
    raises, and nothing matching gives the empty list. *)
Lemma query_spec g entity_type filters :
  query g entity_type filters
  = map render (filter (selected entity_type filters) (nodes g)).
Proof. unfold query. now rewrite query_loop_spec. Qed.

(** The identifier of a node is not one of its attributes, so a filter on
    "id" selects nothing unless a node carries an attribute of that name. *)
Lemma query_by_id_empty g entity_type v :
  (forall n, In n (nodes g) -> PyDict.get "id" (snd n) = None) ->
  query g entity_type (Some [("id", v)]) = [].
Proof.
  intros H. rewrite query_spec.
  replace (filter _ (nodes g)) with (@nil (string * dict)); auto.
  symmetry. induction (nodes g) as [|n ns IH]; simpl; auto.
  unfold selected at 1. simpl. rewrite (H n) by now left.
  rewrite andb_false_r. apply IH. intros m Hm. apply H. now right.
Qed.

(** C1: the store that holds the location "Tech Park" answers the query
    for that type and identifier with the empty list, although the same
    store returns the entity, identifier included, when no filter is given;
    the specification (and every caller in orb_ai.py) expects exactly one
    result from the filtered query. *)
Theorem query_by_id_misses_stored_entity :
  add_entity empty_graph "Tech Park" "location" (Some tech_park_attrs) = Ok tech_park_store
  /\ query tech_park_store "location" (Some [("id", VStr "Tech Park")]) = []
  /\ query tech_park_store "location" None
     = [ ("id", VStr "Tech Park") :: ("type", VStr "location") :: tech_park_attrs ].
Proof. repeat split. Qed.

(** *** add_entity *)

Lemma add_node_get g n attr :
  exists a, PyDict.get n (nodes (add_node g n attr)) = Some a
            /\ forall k, ~ In k (PyDict.keys (tl attr)) ->
                         PyDict.get k a = PyDict.get k (PyDict.update
                           (match PyDict.get n (nodes g) with Some old => old | None => [] end)
                           (firstn 1 attr)).
Proof.
  unfold add_node. destruct (PyDict.get n (nodes g)) as [old|] eqn:E; simpl.
  - exists (PyDict.update old attr). split; [apply get_set_same|].
    intros k Hk. destruct attr as [|[k0 v0] attr]; auto.
    change (PyDict.update old ((k0, v0) :: attr))
      with (PyDict.update (PyDict.set old k0 v0) attr).
    now rewrite get_update_notin.
  - exists (PyDict.update [] attr). split.
    + rewrite get_app_none by assumption. simpl. now rewrite String.eqb_refl.
    + intros k Hk. destruct attr as [|[k0 v0] attr]; auto.
      change (PyDict.update [] ((k0, v0) :: attr))
        with (PyDict.update (PyDict.set [] k0 v0) attr).
      now rewrite get_update_notin.
Qed.

Lemma add_node_idempotent g n attr :
  PyDict.wf_dict attr -> add_node (add_node g n attr) n attr = add_node g n attr.
Proof.
  intros Hwf. unfold add_node at 2 3.
  destruct (PyDict.get n (nodes g)) as [old|] eqn:E.
  - unfold add_node. simpl. rewrite get_set_same.
    rewrite update_idempotent by assumption.
    f_equal. apply set_fixed, get_set_same.
  - unfold add_node. simpl.
    assert (Hg : PyDict.get n (nodes g ++ [(n, PyDict.update [] attr)])
                 = Some (PyDict.update [] attr)).
    { rewrite get_app_none by assumption. simpl. now rewrite String.eqb_refl. }
    rewrite Hg. rewrite update_idempotent by assumption.
    f_equal. now apply set_fixed.
Qed.

Lemma add_node_keeps_order g n attr :
  PyDict.has n (nodes g) = true ->
  PyDict.keys (nodes (add_node g n attr)) = PyDict.keys (nodes g).
Proof.
  unfold add_node, PyDict.has. destruct (PyDict.get n (nodes g)) eqn:E; [|discriminate].
  intros _. simpl. rewrite keys_set. unfold PyDict.has. now rewrite E.
Qed.

(** The claim of the specification at one store: re-adding "Tech Park"
    with the conflicting type "campus" does not fail, it retypes the node. *)
Lemma add_entity_conflicting_type_succeeds :
  add_entity tech_park_store "Tech Park" "campus" None
  = Ok (mkGraph [("Tech Park", ("type", VStr "campus") :: tech_park_attrs)] [])
  /\ add_entity tech_park_store "Tech Park" "campus" None <> Raise DuplicateEntityError.
Proof. split; [reflexivity | discriminate]. Qed.

(** An attribute dictionary that rebinds no name has no key "type". *)
Lemma rebinds_false_type attributes :
  rebinds attributes = false -> PyDict.has "type" (or_empty attributes) = false.
Proof.
  unfold rebinds, bound_names. simpl. rewrite !orb_false_iff. tauto.
Qed.

Lemma get_snoc_other (d : odict dict) n a n' :
  n' <> n -> PyDict.get n' (d ++ [(n, a)]) = PyDict.get n' d.
Proof.
  intros Hne. induction d as [|[k v] d IH]; simpl.
  - destruct (String.eqb n' n) eqn:E; auto. apply String.eqb_eq in E. congruence.
  - destruct (String.eqb n' k); auto.
Qed.

(** What [add_node] does to the graph around the node it adds or updates. *)
Lemma add_node_frame g n attr :
  (PyDict.has n (nodes g) = true ->
   PyDict.keys (nodes (add_node g n attr)) = PyDict.keys (nodes g))
  /\ (forall n', n' <> n ->
        PyDict.get n' (nodes (add_node g n attr)) = PyDict.get n' (nodes g))
  /\ edges (add_node g n attr) = edges g.
Proof.
  split; [apply add_node_keeps_order|]. split.
  - intros n' Hne. unfold add_node.
    destruct (PyDict.get n (nodes g)) as [old|]; simpl.
    + apply get_set_other. congruence.
    + now apply get_snoc_other.
  - unfold add_node. now destruct (PyDict.get n (nodes g)).
Qed.

(** The attributes of the node after [add_node]: the given ones with the
    given values, the others as they were. *)
Lemma add_node_attributes g n attr :
  PyDict.wf_dict attr ->
  exists a,
    PyDict.get n (nodes (add_node g n attr)) = Some a
    /\ (forall k v, In (k, v) attr -> PyDict.get k a = Some v)
    /\ (forall k, ~ In k (PyDict.keys attr) ->
          PyDict.get k a = match PyDict.get n (nodes g) with
                           | Some old => PyDict.get k old
                           | None => None
                           end).
Proof.
  intros Hwf. unfold add_node.
  destruct (PyDict.get n (nodes g)) as [old|] eqn:E; simpl.
  - exists (PyDict.update old attr). split; [apply get_set_same|]. split.
    + intros k v Hin. now apply get_update_in.
    + intros k Hk. now apply get_update_notin.
  - exists (PyDict.update [] attr). split.
    + rewrite get_app_none by assumption. simpl. now rewrite String.eqb_refl.
    + split.
      * intros k v Hin. now apply get_update_in.
      * intros k Hk. now rewrite get_update_notin.
Qed.

(** C2 (amended): [add_entity] never fails with DuplicateEntityError. It
    fails, with a TypeError, exactly when the attributes have a key
    "type", "node_for_adding" or "self". Otherwise it succeeds whether or
    not the identifier is present, with the same or with another type:
    afterwards the node has the new type and every given attribute with
    the given value, its other attributes are what they were (none for a
    new node), a node already present keeps its place, the other nodes and
    the edges are untouched, and adding the same entity again leaves the
    store unchanged. *)
Theorem add_entity_merges_and_is_idempotent g entity_id entity_type attributes :
  PyDict.wf_dict (or_empty attributes) ->
  add_entity g entity_id entity_type attributes <> Raise DuplicateEntityError
  /\ (rebinds attributes = true ->
      add_entity g entity_id entity_type attributes = Raise TypeError)
  /\ (rebinds attributes = false ->
      exists g' a,
        add_entity g entity_id entity_type attributes = Ok g'
        /\ PyDict.get entity_id (nodes g') = Some a
        /\ PyDict.get "type" a = Some (VStr entity_type)
        /\ (forall k v, In (k, v) (or_empty attributes) -> PyDict.get k a = Some v)
        /\ (forall k, k <> "type" -> PyDict.has k (or_empty attributes) = false ->
              PyDict.get k a = match PyDict.get entity_id (nodes g) with
                               | Some old => PyDict.get k old
                               | None => None
                               end)
        /\ (PyDict.has entity_id (nodes g) = true ->
            PyDict.keys (nodes g') = PyDict.keys (nodes g))
        /\ (forall n, n <> entity_id -> PyDict.get n (nodes g') = PyDict.get n (nodes g))
        /\ edges g' = edges g
        /\ add_entity g' entity_id entity_type attributes = Ok g').
Proof.
  intros Hwf. unfold add_entity.
  destruct (rebinds attributes) eqn:E.
  - split; [discriminate|]. split; [reflexivity | discriminate].
  - split; [discriminate|]. split; [discriminate|]. intros _.
    assert (Hn : ~ In "type" (PyDict.keys (or_empty attributes)))
      by now apply has_false_notin, rebinds_false_type.
    set (attr := ("type", VStr entity_type) :: or_empty attributes).
    assert (Hwf' : PyDict.wf_dict attr).
    { unfold PyDict.wf_dict, attr. simpl. constructor; assumption. }
    destruct (@add_node_attributes g entity_id attr Hwf') as (a & Ha & Hgiven & Hkept).
    destruct (add_node_frame g entity_id attr) as (Horder & Hothers & Hedges).
    exists (add_node g entity_id attr), a.
    split; [reflexivity|]. split; [exact Ha|].
    split; [apply Hgiven; now left|].
    split; [intros k v Hkv; apply Hgiven; now right|].
    split.
    { intros k Hk Hhas. apply Hkept. unfold attr. simpl.
      intros [Heq|Hin]; [congruence|]. now apply has_false_notin in Hhas. }
    split; [exact Horder|]. split; [exact Hothers|]. split; [exact Hedges|].
    f_equal. now apply add_node_idempotent.
Qed.

Lemma add_entity_merges_and_is_idempotent_witness :
  PyDict.wf_dict (or_empty (Some tech_park_attrs))
  /\ rebinds (Some tech_park_attrs) = false
  /\ exists g' a,
       add_entity tech_park_store "Tech Park" "campus" (Some tech_park_attrs) = Ok g'
       /\ PyDict.get "Tech Park" (nodes g') = Some a
       /\ PyDict.get "type" a = Some (VStr "campus")
       /\ PyDict.get "address" a = Some (VStr "SRM Nagar, Kattankulathur")
       /\ PyDict.keys (nodes g') = PyDict.keys (nodes tech_park_store)
       /\ add_entity g' "Tech Park" "campus" (Some tech_park_attrs) = Ok g'.
Proof.
  assert (H : PyDict.wf_dict (or_empty (Some tech_park_attrs))).
  { unfold PyDict.wf_dict. simpl. repeat constructor; simpl; intuition discriminate. }
  split; [exact H|]. split; [reflexivity|].
  destruct (proj2 (proj2 (add_entity_merges_and_is_idempotent
                            tech_park_store "Tech Park" "campus" (Some tech_park_attrs) H))
                  eq_refl)
    as (g' & a & Hadd & Ha & Htype & Hgiven & _ & Horder & _ & _ & Hagain).
  exists g', a. split; [exact Hadd|]. split; [exact Ha|]. split; [exact Htype|].
  split; [apply Hgiven; simpl; now left|].
  split; [apply Horder; reflexivity | exact Hagain].
Defined.

(** *** The invariant of a store *)

Lemma empty_graph_wf : wf_graph empty_graph.
Proof. split; constructor. Qed.

Lemma add_node_wf g n attr : wf_graph g -> wf_graph (add_node g n attr).
Proof.
  intros [Hk Ha]. unfold add_node, wf_graph.
  destruct (PyDict.get n (nodes g)) as [old|] eqn:E; simpl.
  - split; [now apply wf_set|].
    apply Forall_values_set with (P := @PyDict.wf_dict value); auto.
    apply wf_update.
    apply get_in in E. rewrite Forall_forall in Ha. exact (Ha _ E).
  - split.
    + apply wf_set with (k := n) (v := PyDict.update [] attr) in Hk.
      unfold PyDict.wf_dict in *. rewrite keys_set in Hk.
      unfold PyDict.has in Hk. rewrite E in Hk.
      unfold PyDict.keys in *. now rewrite map_app.
    + apply Forall_app. split; auto.
      repeat constructor. simpl. apply wf_update. constructor.
Qed.

Lemma add_entity_wf g entity_id entity_type attributes g' :
  wf_graph g -> add_entity g entity_id entity_type attributes = Ok g' -> wf_graph g'.
Proof.
  unfold add_entity. intros Hwf.
  destruct (rebinds attributes); [discriminate|].
  intros H. inversion H. now apply add_node_wf.
Qed.

Lemma add_relationship_wf g from_entity to_entity relationship_type :
  wf_graph g -> wf_graph (add_relationship g from_entity to_entity relationship_type).
Proof.
  intros Hwf. unfold add_relationship, add_edge.
  assert (Hnew : forall h u, wf_graph h ->
            wf_graph (if PyDict.has u (nodes h) then h
                      else mkGraph (nodes h ++ [(u, [])]) (edges h))).
  { intros h u [Hk Ha]. destruct (PyDict.has u (nodes h)) eqn:E; [now split|].
    split; simpl.
    - apply has_false_notin in E. unfold PyDict.wf_dict, PyDict.keys in *.
      rewrite map_app. apply NoDup_app; repeat split; auto.
      + repeat constructor. intros [].
      + intros x Hx [<-|[]]. auto.
    - apply Forall_app. split; auto. repeat constructor. }
  pose proof (Hnew _ to_entity (Hnew _ from_entity Hwf)) as [Hk Ha].
  split; assumption.
Qed.

(** *** search_by_text *)

Section SearchFacts.

Variable str_of : value -> string.

Lemma startswith_empty s : startswith s "" = true.
Proof. now destruct s. Qed.

(** The empty string occurs in every string. *)
Lemma contains_empty s : contains s "" = true.
Proof. destruct s; reflexivity. Qed.

Lemma attrs_loop_spec query node_id attrs : forall items results,
  attrs_loop str_of query node_id attrs items results
  = if existsb (value_matches str_of query) (PyDict.values items)
    then results ++ [entity_dict node_id attrs]
    else results.
Proof.
  induction items as [|[key v] items IH]; intros results; simpl; auto.
  destruct (value_matches str_of query v); simpl; auto.
Qed.

Lemma search_loop_spec query : forall ns results,
  search_loop str_of query ns results
  = results ++ map render (filter (node_matches str_of query) ns).
Proof.
  induction ns as [|[node_id attrs] ns IH]; intros results; simpl.
  - now rewrite app_nil_r.
  - unfold node_matches at 1. simpl.
    destruct (contains (lower node_id) query); simpl.
    + rewrite IH. now rewrite <- app_assoc.
    + rewrite attrs_loop_spec.
      destruct (existsb (value_matches str_of query) (PyDict.values attrs)).
      * rewrite IH. now rewrite <- app_assoc.
      * apply IH.
Qed.

Lemma filter_all_true {B : Type} (f : B -> bool) (l : list B) :
  (forall x, f x = true) -> filter f l = l.
Proof.
  intros H. induction l as [|x l IH]; simpl; auto. now rewrite H, IH.
Qed.

Lemma lower_empty : lower "" = "".
Proof. reflexivity. Qed.

Lemma render_id n : PyDict.get "id" (snd n) = None ->
  PyDict.get "id" (render n) = Some (VStr (fst n)).
Proof.
  intros H. unfold render, entity_dict.
  rewrite get_update_notin by now apply get_none_notin.
  reflexivity.
Qed.

Lemma NoDup_map_render (l : odict dict) :
  NoDup (PyDict.keys l) ->
  (forall n, In n l -> PyDict.get "id" (snd n) = None) ->
  NoDup (map render l).
Proof.
  induction l as [|n l IH]; simpl; intros Hnd Hid; [constructor|].
  inversion Hnd as [|? ? Hn Hnd']; subst.
  constructor.
  - intros Hin. apply in_map_iff in Hin. destruct Hin as [m [Heq Hm]].
    assert (Hfst : fst m = fst n).
    { pose proof (render_id m (Hid m (or_intror Hm))) as H1.
      pose proof (render_id n (Hid n (or_introl eq_refl))) as H2.
      rewrite Heq, H2 in H1. now inversion H1. }
    apply Hn. unfold PyDict.keys. rewrite <- Hfst. now apply in_map.
  - apply IH; auto.
Qed.

Lemma NoDup_keys_filter {B : Type} (f : string * B -> bool) (l : odict B) :
  NoDup (PyDict.keys l) -> NoDup (PyDict.keys (filter f l)).
Proof.
  induction l as [|n l IH]; simpl; intros Hnd; [constructor|].
  inversion Hnd as [|? ? Hn Hnd']; subst.
  destruct (f n); simpl; auto.
  constructor; auto.
  intros Hin. apply Hn. unfold PyDict.keys in *.
  apply in_map_iff in Hin. destruct Hin as [m [Heq Hm]].
  apply filter_In in Hm. rewrite <- Heq. apply in_map. tauto.
Qed.

(** C10: the search for the empty string returns one entry for every node
    of the graph, in graph order; for every query the result has one entry
    for each node whose identifier or some attribute matches and none for
    the others, so a node whose identifier and several attributes all match
    is reported once; and in a store with distinct identifiers, none of
    them shadowed by an attribute named "id", no entry occurs twice. *)
Theorem search_by_text_reports_each_node_once g :
  search_by_text str_of g "" = map render (nodes g)
  /\ (forall query,
        search_by_text str_of g query
        = map render (filter (node_matches str_of (lower query)) (nodes g)))
  /\ (forall query,
        wf_graph g ->
        (forall n, In n (nodes g) -> PyDict.get "id" (snd n) = None) ->
        NoDup (search_by_text str_of g query)).
Proof.
  assert (Hspec : forall query,
             search_by_text str_of g query
             = map render (filter (node_matches str_of (lower query)) (nodes g))).
  { intros query. unfold search_by_text. now rewrite search_loop_spec. }
  split; [|split].
  - rewrite Hspec, lower_empty. rewrite filter_all_true; auto.
    intros n. unfold node_matches. now rewrite contains_empty.
  - exact Hspec.
  - intros query [Hwf _] Hid. rewrite Hspec.
    apply NoDup_map_render.
    + now apply NoDup_keys_filter.
    + intros n Hin. apply filter_In in Hin. now apply Hid.
Qed.

End SearchFacts.

Lemma two_parks_wf :
  wf_graph two_parks
  /\ (forall n, In n (nodes two_parks) -> PyDict.get "id" (snd n) = None).
Proof.
  split; [split|].
  - unfold PyDict.wf_dict. simpl. repeat constructor; simpl; intuition discriminate.
  - simpl. repeat constructor; unfold PyDict.wf_dict; simpl;
      repeat constructor; simpl; intuition discriminate.
  - simpl. intros n [<-|[<-|[]]]; reflexivity.
Qed.

Lemma search_by_text_reports_each_node_once_witness :
  wf_graph two_parks
  /\ (forall n, In n (nodes two_parks) -> PyDict.get "id" (snd n) = None)
  /\ search_by_text (fun _ => "") two_parks "" = map render (nodes two_parks)
  /\ List.length (search_by_text (fun _ => "") two_parks "PARK") = 2%nat
  /\ NoDup (search_by_text (fun _ => "") two_parks "PARK").
Proof.
  destruct two_parks_wf as [Hwf Hid].
  destruct (search_by_text_reports_each_node_once (fun _ => "") two_parks)
    as [Hall [_ Hnd]].
  split; [exact Hwf|]. split; [exact Hid|]. split; [exact Hall|].
  split; [reflexivity|]. exact (Hnd "PARK" Hwf Hid).
Defined.

End KnowledgeGraphFacts.

(** ** The admission handler *)

Module AdmissionHandlerFacts.

Import PyStr AdmissionHandler Notions Samples.

Lemma determine_admission_type_total query :
  _determine_admission_type query <> None.
Proof.
  unfold _determine_admission_type.
  destruct (contains_any query international_words); [discriminate|].
  destruct (contains_any query nri_words); [discriminate|].
  destruct (contains_any query transfer_words); [discriminate|].
  destruct (contains_any query domestic_words); discriminate.
Qed.

(** C9: for every query the classifier returns an admission type, DOMESTIC
    when the query has none of the type keywords, and the answer of
    [handle_admission_query] is never the "Unable to determine admission
    type" error: it has no "error" entry at all. *)
Theorem admission_type_always_determined query :
  (exists t, _determine_admission_type query = Some t)
  /\ (contains_any query (international_words ++ nri_words ++ transfer_words ++ domestic_words)
      = false -> _determine_admission_type query = Some DOMESTIC)
  /\ handle_admission_query query <> error_response
  /\ PyDict.get "error" (handle_admission_query query) = None.
Proof.
  split; [|split].
  - destruct (_determine_admission_type query) as [t|] eqn:E.
    + now exists t.
    + now apply determine_admission_type_total in E.
  - unfold _determine_admission_type, contains_any.
    rewrite !existsb_app, !orb_false_iff. intros (H1 & H2 & H3 & _).
    rewrite H1, H2, H3. now destruct (existsb (contains query) domestic_words).
  - assert (H : PyDict.get "error" (handle_admission_query query) = None).
    { unfold handle_admission_query.
      destruct (_determine_admission_type (lower query)) as [t|] eqn:E;
        [|now apply determine_admission_type_total in E].
      destruct (contains_any (lower query) ["document"; "require"; "submit"]),
        (contains_any (lower query) ["eligible"; "eligibility"; "qualify"]),
        (contains_any (lower query) ["procedure"; "process"; "how to"; "steps"]),
        (contains_any (lower query) ["deadline"; "date"; "when"]),
        (contains_any (lower query) ["contact"; "email"; "reach"]);
        reflexivity. }
    split; [|exact H].
    intros Heq. rewrite Heq in H. discriminate.
Qed.

Lemma admission_type_always_determined_witness :
  contains_any "what are the fees" (international_words ++ nri_words ++ transfer_words ++ domestic_words)
  = false
  /\ _determine_admission_type "what are the fees" = Some DOMESTIC.
Proof.
  split; [reflexivity|].
  apply (admission_type_always_determined "what are the fees"). reflexivity.
Defined.

End AdmissionHandlerFacts.

(** ** The fallback ranker *)

Module RankerFacts.

Import PyStr PyValue NLUModule Notions Samples.

Lemma mapM_ok {A B : Type} (f : A -> result B) (g : A -> B) (l : list A) :
  (forall x, In x l -> f x = Ok (g x)) -> mapM f l = Ok (map g l).
Proof.
  induction l as [|x l IH]; intros H; simpl; auto.
  rewrite (H x) by now left. simpl.
  rewrite IH by (intros y Hy; apply H; now right). reflexivity.
Qed.

Lemma index_nil {A : Type} (i : nat) : index (@nil A) i = Raise IndexError.
Proof. unfold index. now destruct i. Qed.

Lemma index_nth {A : Type} (l : list A) (i : nat) (d : A) :
  (i < List.length l)%nat -> index l i = Ok (nth i l d).
Proof.
  intros H. unfold index. now rewrite (nth_error_nth' l d H).
Qed.

(** C7: whatever the query, the value of [top_k] and the behaviour of the
    encoder, of [cosine_similarity] and of [argsort] (each may return
    anything or raise), ranking against the empty candidate list returns
    the empty list; the function has no other outcome than a list. *)
Theorem find_best_matches_empty_candidates (M : Models) (query : string) (top_k : Z) :
  find_best_matches M query [] top_k = [].
Proof.
  unfold find_best_matches.
  destruct (encode M []) as [ce|e]; simpl; auto.
  destruct (cosine_similarity M [get_query_embedding M query] ce) as [sims|e]; simpl; auto.
  destruct (index sims 0) as [similarities|e]; simpl; auto.
  destruct (rev (slice_from (- top_k) (argsort M similarities))) as [|i l]; simpl; auto.
  now rewrite index_nil.
Qed.

(** A fault of the encoder or of [cosine_similarity] is answered with the
    empty list, whatever the candidates. *)
Lemma find_best_matches_provider_fault (M : Models) query candidates top_k :
  is_ok (encode M candidates) = false
  \/ (exists ce, encode M candidates = Ok ce
                 /\ is_ok (cosine_similarity M [get_query_embedding M query] ce) = false) ->
  find_best_matches M query candidates top_k = [].
Proof.
  unfold find_best_matches. intros [H|[ce [He H]]].
  - destruct (encode M candidates); [discriminate | reflexivity].
  - rewrite He. simpl.
    destruct (cosine_similarity M [get_query_embedding M query] ce);
      [discriminate | reflexivity].
Qed.

(** *** Order of the ranking *)

Section Sorted.

Variable A : Type.
Variable R : A -> A -> Prop.

Lemma StronglySorted_app_split (l1 l2 : list A) :
  StronglySorted R (l1 ++ l2) ->
  StronglySorted R l1 /\ StronglySorted R l2
  /\ (forall x y, In x l1 -> In y l2 -> R x y).
Proof.
  induction l1 as [|a l1 IH]; simpl; intros H.
  - repeat split; [constructor | assumption | intros x y []].
  - apply StronglySorted_inv in H. destruct H as [H Hall].
    destruct (IH H) as (H1 & H2 & H3).
    rewrite Forall_forall in Hall.
    repeat split; auto.
    + constructor; auto. apply Forall_forall. intros x Hx. apply Hall, in_or_app. now left.
    + intros x y [<-|Hx] Hy; auto. apply Hall, in_or_app. now right.
Qed.

Lemma StronglySorted_snoc (l : list A) (a : A) :
  StronglySorted R l -> (forall x, In x l -> R x a) -> StronglySorted R (l ++ [a]).
Proof.
  induction l as [|b l IH]; simpl; intros H Ha.
  - repeat constructor.
  - apply StronglySorted_inv in H. destruct H as [H Hall].
    constructor; auto.
    apply Forall_app. split; auto.
Qed.

End Sorted.

Lemma StronglySorted_rev_flip {A : Type} (R : A -> A -> Prop) (l : list A) :
  StronglySorted R l -> StronglySorted (fun x y => R y x) (rev l).
Proof.
  induction 1 as [|a l Hl IH Hall]; simpl; [constructor|].
  apply StronglySorted_snoc; auto.
  intros x Hx. apply in_rev in Hx. rewrite Forall_forall in Hall. auto.
Qed.

Lemma StronglySorted_map_inv {A B : Type} (R : B -> B -> Prop) (f : A -> B) (l : list A) :
  StronglySorted R (map f l) -> StronglySorted (fun x y => R (f x) (f y)) l.
Proof.
  induction l as [|a l IH]; simpl; intros H; [constructor|].
  apply StronglySorted_inv in H. destruct H as [H Hall].
  constructor; auto.
  rewrite Forall_forall in *. intros x Hx. apply Hall. now apply in_map.
Qed.

Lemma StronglySorted_map_intro {A B : Type} (R : B -> B -> Prop) (f : A -> B) (l : list A) :
  StronglySorted (fun x y => R (f x) (f y)) l -> StronglySorted R (map f l).
Proof.
  induction 1 as [|a l Hl IH Hall]; simpl; constructor; auto.
  rewrite Forall_forall in *. intros y Hy. apply in_map_iff in Hy.
  destruct Hy as [x [<- Hx]]. auto.
Qed.

(** [a[-k:]] keeps the last [k] elements when [k] is positive. *)
Lemma slice_from_last {A : Type} (l : list A) (k : Z) :
  (1 <= k)%Z ->
  slice_from (- k) l = skipn (List.length l - Z.to_nat k) l.
Proof.
  intros Hk. unfold slice_from.
  destruct (Z.ltb_spec (- k) 0); [|lia].
  f_equal. lia.
Qed.

(** [a[-0:]] is the whole list. *)
Lemma slice_from_zero {A : Type} (l : list A) : slice_from (- 0) l = l.
Proof.
  unfold slice_from. simpl. now rewrite Z.min_l by lia.
Qed.

Lemma find_best_matches_pairs M query candidates top_k ce sims more :
  encode M candidates = Ok ce ->
  cosine_similarity M [get_query_embedding M query] ce = Ok (sims :: more) ->
  List.length sims = List.length candidates ->
  Permutation (argsort M sims) (seq 0 (List.length sims)) ->
  find_best_matches M query candidates top_k
  = map (pair_at candidates sims) (top_indices M sims top_k).
Proof.
  intros He Hc Hlen Hperm. unfold find_best_matches.
  rewrite He. simpl. rewrite Hc. simpl.
  fold (top_indices M sims top_k).
  rewrite (mapM_ok _ (pair_at candidates sims)); [reflexivity|].
  intros i Hi.
  assert (Hlt : (i < List.length sims)%nat).
  { unfold top_indices in Hi. apply in_rev in Hi.
    assert (Hin : In i (argsort M sims)).
    { unfold slice_from in Hi.
      rewrite <- (firstn_skipn (Z.to_nat
         (if (- top_k <? 0)%Z
          then Z.max (- top_k + Z.of_nat (List.length (argsort M sims))) 0
          else Z.min (- top_k) (Z.of_nat (List.length (argsort M sims)))))
         (argsort M sims)).
      apply in_or_app. now right. }
    apply (Permutation_in _ Hperm) in Hin. apply in_seq in Hin. lia. }
  rewrite (index_nth candidates "") by lia. simpl.
  rewrite (index_nth sims 0) by lia. reflexivity.
Qed.

(** *** A stable argsort meets the contract *)

Lemma insert_index_perm sims i : forall l, Permutation (insert_index sims i l) (i :: l).
Proof.
  induction l as [|j l IH]; simpl; auto.
  destruct (Qlt_le_dec (nth i sims 0) (nth j sims 0)); auto.
  rewrite IH. apply perm_swap.
Qed.

Lemma insert_index_sorted sims i : forall l,
  StronglySorted (fun x y => nth x sims 0 <= nth y sims 0) l ->
  StronglySorted (fun x y => nth x sims 0 <= nth y sims 0) (insert_index sims i l).
Proof.
  induction l as [|j l IH]; simpl; intros H.
  - repeat constructor.
  - apply StronglySorted_inv in H. destruct H as [Hl Hj].
    destruct (Qlt_le_dec (nth i sims 0) (nth j sims 0)) as [Hlt|Hle].
    + constructor; [constructor; auto|].
      constructor; [now apply Qlt_le_weak|].
      rewrite Forall_forall in *. intros x Hx.
      apply Qle_trans with (nth j sims 0); [now apply Qlt_le_weak | auto].
    + constructor; auto.
      rewrite Forall_forall in *. intros x Hx.
      apply (Permutation_in _ (insert_index_perm sims i l)) in Hx.
      destruct Hx as [<-|Hx]; auto.
Qed.

Lemma stable_argsort_fold sims : forall l acc,
  StronglySorted (fun x y => nth x sims 0 <= nth y sims 0) acc ->
  Permutation (fold_left (fun sorted i => insert_index sims i sorted) l acc) (acc ++ l)
  /\ StronglySorted (fun x y => nth x sims 0 <= nth y sims 0)
       (fold_left (fun sorted i => insert_index sims i sorted) l acc).
Proof.
  induction l as [|i l IH]; intros acc Hacc; simpl.
  - rewrite app_nil_r. auto.
  - destruct (IH (insert_index sims i acc) (insert_index_sorted sims i Hacc)) as [Hp Hs].
    split; auto.
    rewrite Hp, insert_index_perm. apply Permutation_middle.
Qed.

(** The stable insertion argsort meets the contract of [argsort] on every
    array of scores. *)
Lemma stable_argsort_is_argsort sims : is_argsort sims (stable_argsort sims).
Proof.
  unfold stable_argsort, is_argsort.
  destruct (stable_argsort_fold sims (seq 0 (List.length sims)) (acc := []))
    as [Hp Hs]; [constructor|].
  split; [exact Hp|].
  unfold scores_at. now apply StronglySorted_map_intro.
Qed.

(** The claim of the specification at two inputs: with [top_k = 0] the
    slice [[-0:]] is the whole array, so one candidate gives one pair and
    not at most zero; and two candidates with equal similarity come out
    in the reverse of their input order when [argsort] is stable. *)
Lemma find_best_matches_zero_top_k_and_ties :
  find_best_matches table_models "where can i sleep" ["hostel"] 0 = [("hostel", 1 # 2)]
  /\ find_best_matches table_models "where can i sleep" ["hostel"; "library"] 3
     = [("library", 1 # 2); ("hostel", 1 # 2)].
Proof. split; reflexivity. Qed.

(** C6 (amended): when the encoder and [cosine_similarity] answer with one
    score for each candidate and [argsort] meets its contract, then for
    every [top_k] of at least 1 the ranker returns exactly
    [min top_k (number of candidates)] pairs, each a candidate with its own
    score, no candidate twice, in descending order of score, and no
    candidate left out scores higher than one returned. Nothing is
    promised about the order of candidates with equal scores. *)
Theorem find_best_matches_ranking M query candidates top_k ce sims more :
  encode M candidates = Ok ce ->
  cosine_similarity M [get_query_embedding M query] ce = Ok (sims :: more) ->
  List.length sims = List.length candidates ->
  is_argsort sims (argsort M sims) ->
  (1 <= top_k)%Z ->
  find_best_matches M query candidates top_k
  = map (pair_at candidates sims) (top_indices M sims top_k)
  /\ List.length (find_best_matches M query candidates top_k)
     = Nat.min (Z.to_nat top_k) (List.length candidates)
  /\ NoDup (top_indices M sims top_k)
  /\ Forall (fun i => (i < List.length candidates)%nat) (top_indices M sims top_k)
  /\ descending (find_best_matches M query candidates top_k)
  /\ (forall j i, (j < List.length candidates)%nat ->
        ~ In j (top_indices M sims top_k) -> In i (top_indices M sims top_k) ->
        nth j sims 0 <= nth i sims 0).
Proof.
  intros He Hc Hlen [Hperm Hsorted] Hk.
  pose proof (find_best_matches_pairs M query candidates top_k He Hc Hlen Hperm) as Heq.
  set (a := argsort M sims) in *.
  set (m := (List.length a - Z.to_nat top_k)%nat).
  assert (Hla : List.length a = List.length sims).
  { rewrite (Permutation_length Hperm). apply length_seq. }
  assert (Htop : top_indices M sims top_k = rev (skipn m a)).
  { unfold top_indices. fold a. now rewrite slice_from_last. }
  assert (Hnd : NoDup a).
  { apply (Permutation_NoDup (Permutation_sym Hperm)), seq_NoDup. }
  assert (Hsplit : a = firstn m a ++ skipn m a) by (symmetry; apply firstn_skipn).
  apply StronglySorted_map_inv in Hsorted.
  rewrite Hsplit in Hsorted.
  apply StronglySorted_app_split in Hsorted. destruct Hsorted as (_ & Hs2 & Hcross).
  split; [exact Heq|]. rewrite Heq, Htop.
  split; [|split; [|split; [|split]]].
  - rewrite length_map, length_rev, length_skipn. unfold m. lia.
  - apply NoDup_rev. rewrite Hsplit in Hnd. now apply NoDup_app_remove_l in Hnd.
  - apply Forall_forall. intros i Hi. apply in_rev in Hi.
    assert (Hin : In i a) by (rewrite Hsplit; apply in_or_app; now right).
    apply (Permutation_in _ Hperm) in Hin. apply in_seq in Hin. lia.
  - unfold descending. apply StronglySorted_map_intro. simpl.
    exact (@StronglySorted_rev_flip _ (fun x y => nth x sims 0 <= nth y sims 0) _ Hs2).
  - intros j i Hj Hnj Hi. apply in_rev in Hi.
    apply Hcross; auto.
    assert (Hin : In j a).
    { apply (Permutation_in _ (Permutation_sym Hperm)). apply in_seq. lia. }
    rewrite Hsplit in Hin. apply in_app_or in Hin. destruct Hin as [Hin|Hin]; auto.
    exfalso. apply Hnj. now apply in_rev in Hin.
Qed.

Lemma find_best_matches_ranking_witness :
  find_best_matches table_models "where are the labs" ["canteen"; "hostel"; "tech park"] 2
  = [("tech park", 9 # 10); ("hostel", 1 # 2)]
  /\ descending (find_best_matches table_models "where are the labs"
                   ["canteen"; "hostel"; "tech park"] 2).
Proof.
  pose proof (stable_argsort_is_argsort [1 # 10; 1 # 2; 9 # 10]) as Hsort.
  destruct (@find_best_matches_ranking table_models "where are the labs"
              ["canteen"; "hostel"; "tech park"] 2%Z
              ["canteen"; "hostel"; "tech park"]
              [1 # 10; 1 # 2; 9 # 10] []
              eq_refl eq_refl eq_refl Hsort ltac:(lia))
    as (Heq & _ & _ & _ & Hdesc & _).
  split; [exact Heq | exact Hdesc].
Defined.

End RankerFacts.

(** ** The resolution engine *)

Module EnhancedChatbotFacts.

Import PyStr PyValue NLUModule EnhancedChatbot PyDictFacts Notions Samples.

(** *** Direct match *)

Lemma first_confident_skips kb intent : forall pre rest,
  Forall (fun p => exists r, _get_entity_info kb p intent = Ok r /\ confident r = Ok false) pre ->
  first_confident kb (pre ++ rest) intent = first_confident kb rest intent.
Proof.
  induction pre as [|p pre IH]; intros rest H; simpl; auto.
  inversion H as [|? ? [r [Hr Hc]] Hpre]; subst.
  rewrite Hr. simpl. rewrite Hc. simpl. now apply IH.
Qed.

(** The entities are tried in extraction order and the first one whose
    lookup is confident answers, whatever the later ones would score. *)
Lemma find_best_match_first_confident C M kb st a sid pre e post r :
  analysis_entities a = pre ++ e :: post ->
  Forall (fun p => exists r', _get_entity_info kb p (analysis_intent a (VStr "general")) = Ok r'
                              /\ confident r' = Ok false) pre ->
  _get_entity_info kb e (analysis_intent a (VStr "general")) = Ok r ->
  confident r = Ok true ->
  _find_best_match C M kb st a sid = Ok r.
Proof.
  intros Hent Hpre Hr Hc. unfold _find_best_match.
  rewrite Hent, first_confident_skips by exact Hpre. simpl.
  rewrite Hr. simpl. now rewrite Hc.
Qed.

Lemma get_entity_info_lookup kb entity intent :
  _get_entity_info kb entity intent
  = match lookup kb entity with
    | Some (category, data) => entity_response entity intent category data
    | None => Ok [("confidence", VNum 0)]
    end.
Proof.
  induction kb as [|[category items] kb IH]; simpl; auto.
  now destruct (PyDict.get entity items).
Qed.

(** An entity the knowledge base does not have scores 0. *)
Lemma get_entity_info_miss kb entity intent :
  lookup kb entity = None ->
  _get_entity_info kb entity intent = Ok [("confidence", VNum 0)]
  /\ confident [("confidence", VNum 0)] = Ok false.
Proof.
  intros H. rewrite get_entity_info_lookup, H. split; reflexivity.
Qed.

Lemma other_information_keys data k :
  In k (PyDict.keys (other_information data)) -> In k (PyDict.keys data).
Proof.
  unfold PyDict.keys, other_information. intros Hin.
  apply in_map_iff in Hin. destruct Hin as [kv [Hk Hin]].
  apply filter_In in Hin. rewrite <- Hk. apply in_map. tauto.
Qed.

(** An exact hit scores 1, and is confident, for the intents "location",
    "description" and "contact", and for every other intent but
    "facilities" when the data of the entity has no entry named
    "confidence". *)
Lemma entity_hit_confidence kb entity intent category data :
  lookup kb entity = Some (category, data) ->
  py_eq intent (VStr "facilities") = false ->
  (existsb (fun i => py_eq intent (VStr i)) special_intents = true
   \/ PyDict.has "confidence" data = false) ->
  exists r, _get_entity_info kb entity intent = Ok r
            /\ PyDict.get "confidence" r = Some (VNum 1)
            /\ confident r = Ok true.
Proof.
  intros Hl Hf Hcase. rewrite get_entity_info_lookup, Hl.
  unfold entity_response. rewrite Hf.
  destruct (py_eq intent (VStr "location")) eqn:E1;
    [eexists; split; [reflexivity|]; split; reflexivity|].
  destruct (py_eq intent (VStr "description")) eqn:E2;
    [eexists; split; [reflexivity|]; split; reflexivity|].
  destruct (py_eq intent (VStr "contact")) eqn:E3;
    [eexists; split; [reflexivity|]; split; reflexivity|].
  destruct Hcase as [Hs|Hn].
  - simpl in Hs. rewrite E1, E2, E3 in Hs. discriminate.
  - eexists; split; [reflexivity|].
    assert (H1 : PyDict.get "confidence"
                   (PyDict.update [("type", intent); ("entity", VStr entity);
                                   ("confidence", VNum 1)] (other_information data))
                 = Some (VNum 1)).
    { rewrite get_update_notin; [reflexivity|].
      intros Hin. apply other_information_keys in Hin.
      apply has_false_notin in Hn. auto. }
    split; [exact H1|].
    unfold confident, PyDict.get_default. now rewrite H1.
Qed.

(** C5: on this knowledge base the exact hit on "tech park" does not
    score 1: the attributes copied into the response for the intent
    "general" overwrite the entry "confidence", whose value 1/5 is then
    below the threshold, and [_find_best_match] answers with the fallback
    instead of the response for the entity. *)
Theorem exact_hit_confidence_overwritten :
  lookup shadowing_kb "tech park"
  = Some ("locations", [("description", VStr "Research labs"); ("confidence", VNum (1 # 5))])
  /\ _get_entity_info shadowing_kb "tech park" (VStr "general")
     = Ok [("type", VStr "general"); ("entity", VStr "tech park");
           ("confidence", VNum (1 # 5)); ("description", VStr "Research labs")]
  /\ _find_best_match simple_collaborators plain_models shadowing_kb [] tech_park_analysis
       "session-1"
     = Ok (fallback_response popular_topics).
Proof. repeat split. Qed.

(** *** Fallback *)

Lemma insert_desc_not_nil x l : insert_desc x l <> [].
Proof.
  destruct l as [|y l]; simpl; [discriminate|].
  destruct (Qlt_le_dec (snd x) (snd y)); discriminate.
Qed.

Lemma sort_desc_nil l : sort_desc l = [] -> l = [].
Proof.
  destruct l as [|x l]; auto. simpl. intros H. now apply insert_desc_not_nil in H.
Qed.

Lemma fallback_suggestions_length similar :
  (3 <= List.length (fallback_suggestions similar))%nat.
Proof.
  destruct similar as [|x similar]; simpl; lia.
Qed.

(** C8: every response [_generate_fallback_response] produces has the type
    "fallback", the confidence 0 and a list of suggestion strings with at
    least one and at most five members; the suggestions are the five fixed
    example questions when no entity of the knowledge base is similar
    above the floor 0.5 to an extracted entity; and the function produces
    a response whenever the context of the session can be read. *)
Theorem fallback_response_never_without_suggestions C M kb st a sid :
  (forall r, _generate_fallback_response C M kb st a sid = Ok r ->
     exists suggestions,
       r = fallback_response suggestions
       /\ PyDict.get "type" r = Some (VStr "fallback")
       /\ PyDict.get "confidence" r = Some (VNum 0)
       /\ PyDict.get "suggestions" r = Some (VList (map VStr suggestions))
       /\ (1 <= List.length suggestions <= 5)%nat
       /\ (flat_map (similar_to M kb) (analysis_entities a) = [] ->
           suggestions = popular_topics))
  /\ (is_ok (get_context C st sid) = true ->
      is_ok (_generate_fallback_response C M kb st a sid) = true).
Proof.
  unfold _generate_fallback_response. split.
  - intros r Hr. destruct (get_context C st sid) as [ctx|e]; [|discriminate].
    unfold bind in Hr. inversion Hr; subst r; clear Hr.
    exists (firstn 5 (fallback_suggestions
                        (sort_desc (flat_map (similar_to M kb) (analysis_entities a))))).
    split; [reflexivity|]. split; [reflexivity|]. split; [reflexivity|].
    split; [reflexivity|]. split; [split|].
    + rewrite length_firstn.
      pose proof (fallback_suggestions_length
                    (sort_desc (flat_map (similar_to M kb) (analysis_entities a)))).
      lia.
    + rewrite length_firstn. lia.
    + intros Hnone. rewrite Hnone. reflexivity.
  - destruct (get_context C st sid); [reflexivity | discriminate].
Qed.

Lemma fallback_response_never_without_suggestions_witness :
  _generate_fallback_response simple_collaborators plain_models shadowing_kb []
    tech_park_analysis "session-1" = Ok (fallback_response popular_topics)
  /\ exists suggestions,
       fallback_response popular_topics = fallback_response suggestions
       /\ (1 <= List.length suggestions <= 5)%nat.
Proof.
  split; [reflexivity|].
  destruct (proj1 (fallback_response_never_without_suggestions
                     simple_collaborators plain_models shadowing_kb []
                     tech_park_analysis "session-1")
                  (fallback_response popular_topics) eq_refl)
    as (suggestions & Heq & _ & _ & _ & Hlen & _).
  exists suggestions. split; [exact Heq | exact Hlen].
Defined.

End EnhancedChatbotFacts.

(** ** Follow-up detection *)

Module FollowupFacts.

Import PyStr PyValue Notions Samples.

(** *** Strings *)

Lemma split_on_not_nil sep s : split_on sep s <> [].
Proof.
  destruct s as [|c s]; simpl; [discriminate|].
  destruct (Ascii.eqb c sep); [discriminate|].
  destruct (split_on sep s); discriminate.
Qed.

Lemma split_on_pieces s : split_on " " s = first_piece s :: later_pieces s.
Proof.
  unfold first_piece, later_pieces.
  destruct (split_on " " s) eqn:E; [now apply split_on_not_nil in E | reflexivity].
Qed.

Lemma first_piece_cons c s :
  first_piece (String c s)
  = if Ascii.eqb c " " then EmptyString else String c (first_piece s).
Proof.
  unfold first_piece. simpl. destruct (Ascii.eqb c " "); auto.
  destruct (split_on " " s) eqn:E; [now apply split_on_not_nil in E | reflexivity].
Qed.

Lemma later_pieces_cons c s :
  later_pieces (String c s)
  = if Ascii.eqb c " " then split_on " " s else later_pieces s.
Proof.
  unfold later_pieces. simpl. destruct (Ascii.eqb c " "); auto.
  destruct (split_on " " s) eqn:E; [now apply split_on_not_nil in E | reflexivity].
Qed.

(** A text followed by a space starts with a spaceless word followed by a
    space exactly when the word is its first piece. *)
Lemma startswith_first_piece : forall t p,
  spaceless p = true ->
  startswith (t ++ " ") (p ++ " ") = String.eqb (first_piece t) p.
Proof.
  induction t as [|a t IH]; intros p Hp.
  - destruct p as [|c p]; [reflexivity|].
    simpl in Hp. apply andb_prop in Hp. destruct Hp as [Hc _].
    simpl. apply negb_true_iff in Hc. now rewrite Hc.
  - rewrite first_piece_cons. destruct p as [|c p].
    + change (startswith (String a t ++ " ") ("" ++ " "))
        with (Ascii.eqb " " a && startswith (t ++ " ") "").
      rewrite KnowledgeGraphFacts.startswith_empty, andb_true_r, Ascii.eqb_sym.
      destruct (Ascii.eqb a " "); reflexivity.
    + simpl in Hp. apply andb_prop in Hp. destruct Hp as [Hc Hp].
      apply negb_true_iff in Hc.
      change (startswith (String a t ++ " ") (String c p ++ " "))
        with (Ascii.eqb c a && startswith (t ++ " ") (p ++ " ")).
      rewrite IH by assumption.
      destruct (Ascii.eqb a " ") eqn:Ea.
      * apply Ascii.eqb_eq in Ea. subst a. rewrite Hc. reflexivity.
      * simpl. now rewrite (Ascii.eqb_sym a c).
Qed.

Lemma contains_nil_word p : contains "" (String " " p) = false.
Proof. reflexivity. Qed.

(** A text followed by a space contains a spaceless word between two
    spaces exactly when the word is one of its later pieces. *)
Lemma contains_later_piece : forall t p,
  spaceless p = true ->
  contains (t ++ " ") (String " " (p ++ " ")) = true <-> In p (later_pieces t).
Proof.
  induction t as [|a t IH]; intros p Hp.
  - simpl. destruct p; simpl; split; intros H; try discriminate; destruct H.
  - rewrite later_pieces_cons.
    change (contains (String a t ++ " ") (String " " (p ++ " ")))
      with ((Ascii.eqb " " a && startswith (t ++ " ") (p ++ " "))
            || contains (t ++ " ") (String " " (p ++ " "))).
    rewrite startswith_first_piece by assumption.
    rewrite orb_true_iff, andb_true_iff, (IH p Hp), (Ascii.eqb_sym " " a).
    destruct (Ascii.eqb a " ").
    + rewrite split_on_pieces. simpl. rewrite String.eqb_eq. intuition.
    + intuition discriminate.
Qed.

(** [f" {p} " in f" {text} "] holds exactly when [p] is one of the pieces
    of [text.split(' ')]. *)
Lemma padded_contains_iff_piece t p :
  spaceless p = true ->
  contains (" " ++ t ++ " ") (" " ++ p ++ " ") = true <-> In p (split_on " " t).
Proof.
  intros Hp.
  change (contains (" " ++ t ++ " ") (" " ++ p ++ " "))
    with ((Ascii.eqb " " " " && startswith (t ++ " ") (p ++ " "))
          || contains (t ++ " ") (String " " (p ++ " "))).
  rewrite startswith_first_piece by assumption.
  rewrite orb_true_iff, (@contains_later_piece t p Hp), split_on_pieces.
  simpl. rewrite String.eqb_eq. tauto.
Qed.

Lemma mem_iff_In x l : mem x l = true <-> In x l.
Proof.
  unfold mem. rewrite existsb_exists. split.
  - intros [y [Hy He]]. apply String.eqb_eq in He. now subst.
  - intros H. exists x. split; auto. apply String.eqb_refl.
Qed.

(** *** The two detectors *)

Lemma nlu_pronouns_spaceless : forallb spaceless NLUModule.pronouns = true.
Proof. reflexivity. Qed.

Lemma has_last_entities_iff ctx :
  ORBAI.has_last_entities ctx = true
  <-> exists e es, ORBAI.last_entities ctx = Some (e :: es).
Proof.
  unfold ORBAI.has_last_entities.
  destruct (ORBAI.last_entities ctx) as [[|e es]|]; split;
    try discriminate; try (intros (e' & es' & H); discriminate).
  - intros _. now exists e, es.
  - reflexivity.
Qed.

(** The rules at work: a pronoun between spaces is found, a pronoun
    directly before the question mark is not, and a cue or a conjunction
    counts wherever its letters occur. *)
Example followup_samples :
  NLUModule.is_followup_question "What facilities does it have?" [] = true
  /\ NLUModule.is_followup_question "Where is it?" [] = false
  /\ NLUModule.is_followup_question "Android lab timings" [] = true
  /\ NLUModule.is_followup_question "Orientation day" [] = true
  /\ NLUModule.is_followup_question "Hostel fees" [] = false.
Proof. repeat split. Qed.

(** Two more inputs. The analyzer of nlu_module.py extracts no entity from
    the empty query, is given a context whose current entity is "Tech
    Park", and does not mark the query as a follow-up. The detector of
    orb_ai.py is given a query with the cue "what about" and the entity
    "hostel", and does not mark it either. *)
Lemma followup_rules_missing :
  NLUModule.analyze_query plain_models ""
    (Some [("current_entity", VStr "Tech Park")])
  = NLUModule.Analysed (NLUModule.mkAnalysis "" "" [] "other" "general" false true)
  /\ contains (lower "what about the hostel") "what about" = true
  /\ ORBAI._is_follow_up_question
       (ORBAI.mkContext None (Some ["Tech Park"]) None [] [] [] false)
       "what about the hostel"
       (ORBAI.mkClassification ORBAI.FACTUAL ["hostel"] [])
     = false.
Proof. repeat split. Qed.

(** The rules of the two detectors, each on the text it is handed
    ([analyze_query] hands [is_followup_question] the preprocessed query).
    The first marks a text exactly when, in lower case, it has one of the
    seven pronouns as a piece between spaces (or the ends of the text), or
    contains one of the seven cue phrases, or starts with "and", "but",
    "or" or "so"; it does not read the context. The second marks a query
    exactly when one of the pronouns is a white-space separated word of
    the query in lower case, or no entity was extracted and the last
    entities of the context are not empty. *)
Lemma followup_detection_rules :
  (forall text context,
     NLUModule.is_followup_question text context = true
     <-> (exists p, In p NLUModule.pronouns /\ In p (split_on " " (lower text)))
         \/ (exists cue, In cue NLUModule.followup_phrases
                         /\ contains (lower text) cue = true)
         \/ (exists conj, In conj NLUModule.conjunctions
                          /\ startswith (lower text) conj = true))
  /\ (forall text context context',
       NLUModule.is_followup_question text context
       = NLUModule.is_followup_question text context')
  /\ (forall ctx query classification,
       ORBAI._is_follow_up_question ctx query classification = true
       <-> (exists p, In p ORBAI.pronouns /\ In p (split_ws (lower query)))
           \/ (ORBAI.c_entities classification = []
               /\ exists e es, ORBAI.last_entities ctx = Some (e :: es))).
Proof.
  split; [|split].
  - intros text context. unfold NLUModule.is_followup_question.
    rewrite !orb_true_iff, !existsb_exists, or_assoc.
    assert (Hp : (exists x, In x NLUModule.pronouns
                    /\ contains (" " ++ lower text ++ " ") (" " ++ x ++ " ") = true)
                 <-> (exists p, In p NLUModule.pronouns
                        /\ In p (split_on " " (lower text)))).
    { pose proof nlu_pronouns_spaceless as Hs. rewrite forallb_forall in Hs.
      split; intros [p [Hin Hc]]; exists p; (split; [assumption|]);
        apply padded_contains_iff_piece; auto. }
    rewrite Hp. tauto.
  - reflexivity.
  - intros ctx query classification. unfold ORBAI._is_follow_up_question.
    rewrite orb_true_iff, andb_true_iff, existsb_exists, has_last_entities_iff.
    split.
    + intros [[p [Hin Hm]]|[Hn Hl]].
      * left. exists p. split; auto. now apply mem_iff_In.
      * right. split; auto. now destruct (ORBAI.c_entities classification).
    + intros [[p [Hin Hm]]|[Hn Hl]].
      * left. exists p. split; auto. now apply mem_iff_In.
      * right. split; auto. now rewrite Hn.
Qed.

(** C3: the analyzer does not mark "Where is it?" as a follow-up, although
    "it" is a word of the query, no entity is extracted and the context
    names "Tech Park" as the current entity; this is the follow-up that
    section 8 of the specification requires to be resolved.
    [preprocess_text] keeps the question mark and [is_followup_question]
    looks for the pronoun between two spaces, so the pronoun before the
    question mark is missed, whatever the tagger and the context; the same
    question with a word after the pronoun is marked. The detector of
    orb_ai.py looks for the pronoun among the white-space separated words
    and is called by [process_query] after the last entities were replaced
    by those of the query: it does not mark the query either, whatever the
    context and the classification. *)
Theorem followup_pronoun_before_question_mark_missed :
  NLUModule.analyze_query plain_models "Where is it?"
    (Some [("current_entity", VStr "Tech Park")])
  = NLUModule.Analysed
      (NLUModule.mkAnalysis "Where is it?" "where is it?" [] "factual" "location" false true)
  /\ (forall M context,
        match NLUModule.analyze_query M "Where is it?" context with
        | NLUModule.Analysed a => NLUModule.is_followup a = false
        | NLUModule.AnalysisError _ _ => True
        end)
  /\ NLUModule.is_followup_question (NLUModule.preprocess_text "Where is it located?") []
     = true
  /\ (forall ctx t classification,
        ORBAI._is_follow_up_question
          (ORBAI.with_classification ctx t (ORBAI.c_entities classification))
          "Where is it?" classification
        = false).
Proof.
  split; [reflexivity|]. split; [|split; [reflexivity|]].
  - intros M context. unfold NLUModule.analyze_query, NLUModule.extract_entities.
    change (NLUModule.preprocess_text "Where is it?") with "where is it?".
    destruct (NLUModule.pos_tag M "where is it?") as [tags|e]; simpl; [reflexivity | exact I].
  - intros ctx t classification. unfold ORBAI._is_follow_up_question.
    change (existsb (fun pronoun => mem pronoun (split_ws (lower "Where is it?")))
                    ORBAI.pronouns) with false.
    unfold ORBAI.has_last_entities. simpl.
    now destruct (ORBAI.c_entities classification).
Qed.

End FollowupFacts.

(** ** The session context after a turn *)

Module ContextFacts.

Import PyStr PyValue Notions Samples.

(** *** orb_ai.py *)




(** *** enhanced_chatbot.py *)

Import NLUModule EnhancedChatbot.





End ContextFacts.

(** ** More of the knowledge store *)

Module KnowledgeGraphMore.

Import PyStr PyValue KnowledgeGraph PyDictFacts KnowledgeGraphFacts Notions Samples.

Lemma get_app_some {A : Type} (d e : odict A) k v :
  PyDict.get k d = Some v -> PyDict.get k (d ++ e) = Some v.
Proof.
  induction d as [|[k' v'] d IH]; simpl; [discriminate|].
  destruct (String.eqb k k'); auto.
Qed.

Lemma has_app {A : Type} (d e : odict A) k :
  PyDict.has k (d ++ e) = PyDict.has k d || PyDict.has k e.
Proof.
  unfold PyDict.has. destruct (PyDict.get k d) as [v|] eqn:E.
  - now rewrite (get_app_some d e k E).
  - now rewrite get_app_none.
Qed.

Lemma lower_char_idempotent c : lower_char (lower_char c) = lower_char c.
Proof. destruct c as [[] [] [] [] [] [] [] []]; reflexivity. Qed.

Lemma lower_idempotent s : lower (lower s) = lower s.
Proof.
  induction s as [|c s IH]; simpl; auto.
  now rewrite lower_char_idempotent, IH.
Qed.

(** *** query *)

Lemma selected_iff t filters n :
  selected t filters n = true
  <-> (exists ty, PyDict.get "type" (snd n) = Some ty /\ py_eq ty (VStr t) = true)
      /\ (forall k v, In (k, v) (or_empty filters) ->
            exists w, PyDict.get k (snd n) = Some w /\ py_eq w v = true).
Proof.
  unfold selected, type_mismatch. rewrite andb_true_iff.
  assert (Ht : negb match PyDict.get "type" (snd n) with
                    | Some ty => negb (py_eq ty (VStr t))
                    | None => true
                    end = true
               <-> exists ty, PyDict.get "type" (snd n) = Some ty /\ py_eq ty (VStr t) = true).
  { destruct (PyDict.get "type" (snd n)) as [ty|].
    - rewrite negb_involutive. split.
      + intros H. now exists ty.
      + intros [ty' [H1 H2]]. now inversion H1; subst.
    - split; [discriminate | intros [ty [H _]]; discriminate]. }
  assert (Hf : forall f, matches_filters (snd n) f = true
               <-> forall k v, In (k, v) f ->
                     exists w, PyDict.get k (snd n) = Some w /\ py_eq w v = true).
  { intros f. unfold matches_filters. rewrite forallb_forall. split.
    - intros H k v Hin. specialize (H _ Hin). simpl in H.
      destruct (PyDict.get k (snd n)) as [w|]; [now exists w | discriminate].
    - intros H [k v] Hin. destruct (H k v Hin) as [w [Hw Hq]]. simpl. now rewrite Hw. }
  rewrite Ht. apply and_iff_compat_l.
  destruct filters as [[|kv f]|]; unfold truthy_filters, or_empty.
  - split; [intros _ k v [] | auto].
  - apply (Hf (kv :: f)).
  - split; [intros _ k v [] | auto].
Qed.

(** X1: [query] returns, in insertion order and without failing, one entry
    for each node that has an attribute "type" equal to the requested type
    and, for every pair of the filter, an attribute of that name with an
    equal value; an empty filter is no filter. *)
Theorem query_selects_by_type_and_filters g t filters :
  query g t filters = map render (filter (selected t filters) (nodes g))
  /\ query g t (Some []) = query g t None
  /\ (forall n,
        selected t filters n = true
        <-> (exists ty, PyDict.get "type" (snd n) = Some ty /\ py_eq ty (VStr t) = true)
            /\ (forall k v, In (k, v) (or_empty filters) ->
                  exists w, PyDict.get k (snd n) = Some w /\ py_eq w v = true)).
Proof.
  split; [apply query_spec|]. split; [now rewrite !query_spec|].
  intros n. apply selected_iff.
Qed.

(** X2: an entity added with [add_entity] is found again: its node has the
    given type and every given attribute, [query] for its type reports it,
    and so does [query] with a filter on any of its string attributes. *)
Theorem add_entity_then_query g entity_id entity_type attributes g' :
  PyDict.wf_dict (or_empty attributes) ->
  add_entity g entity_id entity_type attributes = Ok g' ->
  exists a,
    PyDict.get entity_id (nodes g') = Some a
    /\ PyDict.get "type" a = Some (VStr entity_type)
    /\ (forall k v, In (k, v) (or_empty attributes) -> PyDict.get k a = Some v)
    /\ In (entity_dict entity_id a) (query g' entity_type None)
    /\ (forall k s, In (k, VStr s) (or_empty attributes) ->
          In (entity_dict entity_id a) (query g' entity_type (Some [(k, VStr s)]))).
Proof.
  intros Hwf. unfold add_entity.
  destruct (rebinds attributes) eqn:Ety; [discriminate|].
  apply rebinds_false_type in Ety.
  intros H. inversion H as [Hg]. clear H.
  set (attr := ("type", VStr entity_type) :: or_empty attributes) in *.
  assert (Hwf' : PyDict.wf_dict attr).
  { unfold PyDict.wf_dict, attr. simpl. constructor; auto. now apply has_false_notin. }
  assert (Hnode : exists a, PyDict.get entity_id (nodes (add_node g entity_id attr)) = Some a
                            /\ forall k v, In (k, v) attr -> PyDict.get k a = Some v).
  { unfold add_node. destruct (PyDict.get entity_id (nodes g)) as [old|] eqn:E; simpl.
    - exists (PyDict.update old attr). split; [apply get_set_same|].
      intros k v Hin. now apply get_update_in.
    - exists (PyDict.update [] attr). split.
      + rewrite get_app_none by assumption. simpl. now rewrite String.eqb_refl.
      + intros k v Hin. now apply get_update_in. }
  destruct Hnode as [a [Ha Hattr]]. exists a.
  assert (Htype : PyDict.get "type" a = Some (VStr entity_type))
    by (apply Hattr; now left).
  assert (Hin : In (entity_id, a) (nodes (add_node g entity_id attr))) by now apply get_in.
  split; [exact Ha|]. split; [exact Htype|].
  split; [intros k v Hkv; apply Hattr; now right|].
  assert (Hsel : forall filters,
             (forall k v, In (k, v) (or_empty filters) -> In (k, v) attr /\ py_eq v v = true) ->
             In (entity_dict entity_id a)
                (query (add_node g entity_id attr) entity_type filters)).
  { intros filters Hf. rewrite query_spec.
    apply (in_map render _ (entity_id, a)). apply filter_In. split; auto.
    apply selected_iff. simpl. split.
    - exists (VStr entity_type). split; auto. simpl. apply String.eqb_refl.
    - intros k v Hkv. destruct (Hf k v Hkv) as [Hin' Heq]. exists v. split; auto. }
  split.
  - apply Hsel. intros k v [].
  - intros k s Hks. apply Hsel. simpl. intros k' v' [Heq|[]]. inversion Heq; subst.
    split; [now right|]. simpl. apply String.eqb_refl.
Qed.

Lemma add_entity_then_query_witness :
  exists a,
    PyDict.get "Tech Park" (nodes tech_park_store) = Some a
    /\ In (entity_dict "Tech Park" a)
          (query tech_park_store "location"
             (Some [("address", VStr "SRM Nagar, Kattankulathur")])).
Proof.
  assert (Hwf : PyDict.wf_dict (or_empty (Some tech_park_attrs))).
  { unfold PyDict.wf_dict. simpl. repeat constructor; simpl; intuition discriminate. }
  destruct (@add_entity_then_query empty_graph "Tech Park" "location" (Some tech_park_attrs)
              tech_park_store Hwf eq_refl)
    as (a & Ha & _ & _ & _ & Hq).
  exists a. split; [exact Ha|].
  apply Hq. simpl. now left.
Defined.

(** *** add_relationship *)

(** The nodes [add_edge] creates for end points that are not yet nodes. *)
Lemma add_relationship_nodes g u v r :
  nodes (add_relationship g u v r)
  = nodes g
    ++ (if PyDict.has u (nodes g) then [] else [(u, [])])
    ++ (if PyDict.has v (nodes g) || String.eqb v u then [] else [(v, [])]).
Proof.
  unfold add_relationship, add_edge. simpl.
  destruct (PyDict.has u (nodes g)) eqn:Eu; simpl.
  - destruct (PyDict.has v (nodes g)) eqn:Ev; simpl; [now rewrite app_nil_r|].
    destruct (String.eqb v u) eqn:E; [|reflexivity].
    apply String.eqb_eq in E. congruence.
  - rewrite has_app. destruct (PyDict.has v (nodes g)) eqn:Ev; simpl.
    + reflexivity.
    + unfold PyDict.has at 1. simpl.
      destruct (String.eqb v u); simpl; [reflexivity | now rewrite <- app_assoc].
Qed.

(** X3: [add_relationship] never fails. An end point that is not a node
    of the graph is created as a node without attributes (there is no
    UnknownEntityError); the nodes already present keep their place and
    their attributes; both end points are nodes afterwards and exactly one
    edge, labelled with the relationship, is appended. *)
Theorem add_relationship_creates_missing_endpoints g u v r :
  exists created,
    nodes (add_relationship g u v r) = nodes g ++ created
    /\ Forall (fun n => snd n = [] /\ (fst n = u \/ fst n = v)
                        /\ PyDict.has (fst n) (nodes g) = false) created
    /\ (forall n a, PyDict.get n (nodes g) = Some a ->
          PyDict.get n (nodes (add_relationship g u v r)) = Some a)
    /\ PyDict.has u (nodes (add_relationship g u v r)) = true
    /\ PyDict.has v (nodes (add_relationship g u v r)) = true
    /\ edges (add_relationship g u v r) = edges g ++ [(u, v, [("relationship", VStr r)])].
Proof.
  rewrite add_relationship_nodes.
  eexists. split; [reflexivity|].
  split; [|split; [|split; [|split]]].
  - apply Forall_app. split.
    + destruct (PyDict.has u (nodes g)) eqn:Eu; constructor; [|constructor].
      simpl. auto.
    + destruct (PyDict.has v (nodes g)) eqn:Ev; simpl; [constructor|].
      destruct (String.eqb v u); constructor; [|constructor].
      simpl. auto.
  - intros n a Hn. now apply get_app_some.
  - rewrite !has_app. destruct (PyDict.has u (nodes g)); simpl; auto.
    unfold PyDict.has. simpl. now rewrite String.eqb_refl.
  - rewrite !has_app. destruct (PyDict.has v (nodes g)) eqn:Ev; simpl; auto.
    destruct (String.eqb v u) eqn:E.
    + apply String.eqb_eq in E. subst v. rewrite Ev. unfold PyDict.has. simpl.
      now rewrite String.eqb_refl.
    + rewrite orb_true_iff. right. unfold PyDict.has. simpl. now rewrite String.eqb_refl.
  - unfold add_relationship, add_edge. simpl.
    destruct (PyDict.has u (nodes g)); simpl;
      match goal with
      | |- context [if ?b then _ else _] => destruct b; reflexivity
      end.
Qed.

Section Relationship.

Variable str_of : value -> string.

Lemma search_by_text_all g :
  search_by_text str_of g "" = map render (nodes g).
Proof.
  unfold search_by_text. rewrite search_loop_spec, lower_empty.
  rewrite filter_all_true; auto.
  intros n. unfold node_matches. now rewrite contains_empty.
Qed.

(** X4: a relationship never changes the answer of a [query]: the nodes
    it creates have no type, so no query reports them, whatever the type
    and the filter; the text search for the empty string does report them,
    as entities with an identifier and nothing else. *)
Theorem add_relationship_hidden_from_query g u v r :
  (forall t filters, query (add_relationship g u v r) t filters = query g t filters)
  /\ (PyDict.has u (nodes g) = false ->
      In [("id", VStr u)] (search_by_text str_of (add_relationship g u v r) ""))
  /\ (PyDict.has v (nodes g) = false ->
      In [("id", VStr v)] (search_by_text str_of (add_relationship g u v r) "")).
Proof.
  split; [|split].
  - intros t filters. rewrite !query_spec, add_relationship_nodes, !filter_app.
    assert (Hnone : forall (b : bool) (n : string),
               filter (selected t filters) (if b then [] else [(n, [])]) = []).
    { intros [] n; reflexivity. }
    now rewrite !Hnone, !app_nil_r.
  - intros Hu. rewrite search_by_text_all, add_relationship_nodes, Hu.
    rewrite !map_app. apply in_or_app. right. apply in_or_app. left. now left.
  - intros Hv. rewrite search_by_text_all, add_relationship_nodes, Hv.
    rewrite !map_app. apply in_or_app. right.
    destruct (String.eqb v u) eqn:E; simpl.
    + apply String.eqb_eq in E. subst v. rewrite Hv. now left.
    + apply in_or_app. right. now left.
Qed.

(** *** search_by_text *)

Lemma node_matches_iff query n :
  node_matches str_of query n = true
  <-> contains (lower (fst n)) query = true
      \/ exists k v, In (k, v) (snd n) /\ value_matches str_of query v = true.
Proof.
  unfold node_matches. rewrite orb_true_iff, existsb_exists.
  apply or_iff_compat_l. unfold PyDict.values. split.
  - intros [v [Hin Hv]]. apply in_map_iff in Hin. destruct Hin as [[k v'] [Heq Hin]].
    simpl in Heq. subst v'. now exists k, v.
  - intros [k [v [Hin Hv]]]. exists v. split; auto.
    now apply (in_map snd _ (k, v)).
Qed.

(** X5: the text search ignores the case of the query, and it is sound:
    every entity it returns is a node of the graph whose identifier, in
    lower case, contains the query in lower case, or which has an
    attribute value that matches it (a string containing it, or a list or
    a dictionary with a member whose text contains it). *)
Theorem search_by_text_case_insensitive_and_sound g query :
  search_by_text str_of g (lower query) = search_by_text str_of g query
  /\ (forall query', lower query' = lower query ->
        search_by_text str_of g query' = search_by_text str_of g query)
  /\ (forall e, In e (search_by_text str_of g query) ->
        exists n, In n (nodes g) /\ e = render n
          /\ (contains (lower (fst n)) (lower query) = true
              \/ exists k v, In (k, v) (snd n)
                             /\ value_matches str_of (lower query) v = true)).
Proof.
  split; [|split].
  - unfold search_by_text. now rewrite lower_idempotent.
  - intros query' H. unfold search_by_text. now rewrite H.
  - intros e He. unfold search_by_text in He. rewrite search_loop_spec in He.
    simpl in He. apply in_map_iff in He. destruct He as [n [Heq Hin]].
    apply filter_In in Hin. destruct Hin as [Hin Hm].
    exists n. split; auto. split; auto. now apply node_matches_iff.
Qed.

End Relationship.

Lemma add_relationship_hidden_from_query_witness :
  PyDict.has "Kattankulathur Campus" (nodes tech_park_store) = false
  /\ In [("id", VStr "Kattankulathur Campus")]
        (search_by_text (fun _ => "")
           (add_relationship tech_park_store "Kattankulathur Campus" "Tech Park" "has_location")
           "").
Proof.
  split; [reflexivity|].
  exact (proj1 (proj2 (add_relationship_hidden_from_query (fun _ => "")
                         tech_park_store "Kattankulathur Campus" "Tech Park" "has_location"))
               eq_refl).
Defined.

Lemma search_by_text_case_insensitive_and_sound_witness :
  search_by_text (fun _ => "") two_parks "PARK" = search_by_text (fun _ => "") two_parks "park".
Proof.
  exact (proj1 (proj2 (search_by_text_case_insensitive_and_sound (fun _ => "")
                         two_parks "park"))
               "PARK" eq_refl).
Defined.


(** X6: the operations of the store keep its invariant: starting from the
    empty graph, [add_entity] and [add_relationship] never produce two
    nodes with the same identifier, nor an attribute dictionary with a
    repeated key. *)
Theorem store_operations_keep_identifiers_unique :
  wf_graph empty_graph
  /\ (forall g entity_id entity_type attributes g',
        wf_graph g -> add_entity g entity_id entity_type attributes = Ok g' -> wf_graph g')
  /\ (forall g u v r, wf_graph g -> wf_graph (add_relationship g u v r)).
Proof.
  split; [apply empty_graph_wf|]. split.
  - intros g entity_id entity_type attributes g'. apply add_entity_wf.
  - intros g u v r. apply add_relationship_wf.
Qed.

Lemma store_operations_keep_identifiers_unique_witness :
  wf_graph (add_relationship tech_park_store "Kattankulathur Campus" "Tech Park" "has_location").
Proof.
  destruct store_operations_keep_identifiers_unique as (He & Ha & Hr).
  apply Hr.
  exact (Ha empty_graph "Tech Park" "location" (Some tech_park_attrs) tech_park_store
            He eq_refl).
Defined.

End KnowledgeGraphMore.

(** ** More of the admission handler *)

Module AdmissionMore.

Import PyStr PyValue AdmissionHandler KnowledgeGraphMore MoreNotions.

(** X7: the answer of [handle_admission_query] depends on the query in
    lower case only; it is made of the sections the query asks for, in the
    fixed order documents, eligibility, procedure, deadlines, contact, and
    of all five when the query asks for none; every section is taken from
    the requirements of the admission type found in the query. *)
Theorem handle_admission_query_sections query :
  handle_admission_query (lower query) = handle_admission_query query
  /\ exists t,
       _determine_admission_type (lower query) = Some t
       /\ handle_admission_query query
          = match requested (lower query) with
            | [] => sections (admission_requirements t)
            | names => filter (fun kv => mem (fst kv) names)
                              (sections (admission_requirements t))
            end.
Proof.
  split.
  - unfold handle_admission_query. now rewrite lower_idempotent.
  - unfold handle_admission_query.
    destruct (_determine_admission_type (lower query)) as [t|] eqn:E;
      [|now apply AdmissionHandlerFacts.determine_admission_type_total in E].
    exists t. split; [reflexivity|].
    unfold requested, section_words. cbn [filter snd].
    destruct (contains_any (lower query) ["document"; "require"; "submit"]),
      (contains_any (lower query) ["eligible"; "eligibility"; "qualify"]),
      (contains_any (lower query) ["procedure"; "process"; "how to"; "steps"]),
      (contains_any (lower query) ["deadline"; "date"; "when"]),
      (contains_any (lower query) ["contact"; "email"; "reach"]);
      reflexivity.
Qed.

End AdmissionMore.

(** ** More of the query analyzer *)

Module NLUMore.

Import PyStr PyValue NLUModule KnowledgeGraphMore MoreNotions MoreSamples.

(** *** Intent *)

Lemma startswith_app_l : forall s a b,
  startswith s (a ++ b) = true -> startswith s a = true.
Proof.
  intros s a. revert s. induction a as [|c a IH]; intros s b H.
  - now destruct s.
  - destruct s as [|d s]; [discriminate|].
    simpl in *. apply andb_prop in H. destruct H as [H1 H2].
    rewrite H1. simpl. eapply IH; eauto.
Qed.

(** A text that contains a phrase contains every beginning of it. *)
Lemma contains_app_l : forall s a b,
  contains s (a ++ b) = true -> contains s a = true.
Proof.
  induction s as [|c s IH]; intros a b H.
  - change (contains "" (a ++ b)) with (startswith "" (a ++ b) || false) in H.
    change (contains "" a) with (startswith "" a || false).
    rewrite orb_false_r in *. eapply startswith_app_l; eauto.
  - change (contains (String c s) (a ++ b))
      with (startswith (String c s) (a ++ b) || contains s (a ++ b)) in H.
    change (contains (String c s) a) with (startswith (String c s) a || contains s a).
    apply orb_true_iff in H. apply orb_true_iff. destruct H as [H|H].
    + left. eapply startswith_app_l; eauto.
    + right. eapply IH; eauto.
Qed.

Lemma detect_intent_first_match text :
  forall patterns, 
    match find (fun entry => contains_any (strip (lower text)) (snd entry)) patterns with
    | Some entry => In (fst entry) (PyDict.keys patterns)
    | None => True
    end.
Proof.
  induction patterns as [|[name words] patterns IH]; simpl; auto.
  destruct (contains_any (strip (lower text)) words); simpl; auto.
  destruct (find _ patterns); auto.
Qed.

(** X8: [detect_intent] answers with one of six names, the first intent
    in the order location, timing, process, contact, description that has
    a pattern occurring in the text. A location pattern therefore wins
    over every other, and a text with "reach out", a pattern of the
    intent contact, is a location query because it contains "reach". *)
Theorem detect_intent_precedence text :
  In (detect_intent text)
     ["location"; "timing"; "process"; "contact"; "description"; "general"]
  /\ (contains_any (strip (lower text))
        ["where"; "location"; "address"; "directions"; "find"; "reach"] = true ->
      detect_intent text = "location")
  /\ (contains (strip (lower text)) "reach out" = true -> detect_intent text = "location").
Proof.
  assert (Hloc : contains_any (strip (lower text))
                   ["where"; "location"; "address"; "directions"; "find"; "reach"] = true ->
                 detect_intent text = "location").
  { intros H. unfold detect_intent, intent_patterns. cbn [find snd]. now rewrite H. }
  split; [|split; [exact Hloc|]].
  - unfold detect_intent.
    pose proof (detect_intent_first_match text intent_patterns) as H.
    destruct (find _ intent_patterns) as [entry|]; simpl; [|tauto].
    simpl in H. tauto.
  - intros H. apply Hloc.
    apply (contains_app_l _ "reach" " out") in H.
    unfold contains_any. simpl. rewrite H. now rewrite !orb_true_r.
Qed.

Lemma detect_intent_precedence_witness :
  contains (strip (lower "How can I reach out to the admissions office?")) "reach out" = true
  /\ detect_intent "How can I reach out to the admissions office?" = "location".
Proof.
  split; [reflexivity|].
  apply (detect_intent_precedence "How can I reach out to the admissions office?").
  reflexivity.
Defined.

(** *** Entities *)

Lemma entities_loop_acc : forall tags ents cur,
  entities_loop tags ents cur = ents ++ entities_loop tags [] cur.
Proof.
  induction tags as [|[w tg] tags IH]; intros ents cur; simpl.
  - destruct cur; [now rewrite app_nil_r | reflexivity].
  - destruct (is_noun_tag tg); [apply IH|].
    destruct cur; [apply IH|].
    rewrite IH. rewrite (IH [join " " (s :: cur)]). now rewrite app_assoc.
Qed.

Lemma entities_loop_nouns : forall nouns rest ents cur,
  all_nouns nouns = true ->
  entities_loop (nouns ++ rest) ents cur = entities_loop rest ents (cur ++ map fst nouns).
Proof.
  induction nouns as [|[w tg] nouns IH]; intros rest ents cur H; simpl.
  - now rewrite app_nil_r.
  - simpl in H. apply andb_prop in H. destruct H as [H1 H2].
    rewrite H1, IH by assumption. now rewrite <- app_assoc.
Qed.

Lemma entities_loop_no_noun : forall tags,
  no_noun tags = true -> entities_loop tags [] [] = [].
Proof.
  induction tags as [|[w tg] tags IH]; simpl; auto.
  intros H. apply andb_prop in H. destruct H as [H1 H2].
  apply negb_true_iff in H1. rewrite H1. auto.
Qed.

Lemma entities_loop_gap : forall gap rest ents cur,
  no_noun gap = true -> gap <> [] -> cur <> [] ->
  entities_loop (gap ++ rest) ents cur = entities_loop rest (ents ++ [join " " cur]) [].
Proof.
  assert (Hskip : forall gap rest ents,
             no_noun gap = true ->
             entities_loop (gap ++ rest) ents [] = entities_loop rest ents []).
  { induction gap as [|[w tg] gap IH]; intros rest ents H; simpl; auto.
    simpl in H. apply andb_prop in H. destruct H as [H1 H2].
    apply negb_true_iff in H1. rewrite H1. now apply IH. }
  intros [|[w tg] gap] rest ents cur H Hgap Hcur; [congruence|].
  simpl in *. apply andb_prop in H. destruct H as [H1 H2].
  apply negb_true_iff in H1. rewrite H1.
  destruct cur; [congruence|]. now apply Hskip.
Qed.

Lemma entities_loop_tail : forall tail ents cur,
  no_noun tail = true -> cur <> [] ->
  entities_loop tail ents cur = ents ++ [join " " cur].
Proof.
  intros [|wt tail] ents cur H Hcur.
  - simpl. now destruct cur.
  - rewrite <- (app_nil_r (wt :: tail)).
    rewrite entities_loop_gap by (auto; discriminate). reflexivity.
Qed.

Lemma entities_loop_runs tail : no_noun tail = true ->
  forall more run ents,
    run <> [] -> all_nouns run = true -> Forall gap_then_run more ->
    entities_loop (run ++ flat_map (fun gr => fst gr ++ snd gr) more ++ tail) ents []
    = ents ++ phrase run :: map (fun gr => phrase (snd gr)) more.
Proof.
  intros Htail.
  assert (Hne : forall run : list (string * string), run <> [] -> map fst run <> []).
  { intros [|x run] H; [congruence | discriminate]. }
  induction more as [|[gap run'] more IH]; intros run ents Hrun Hn Hmore;
    rewrite entities_loop_nouns by assumption; simpl app.
  - simpl. now apply entities_loop_tail; auto.
  - inversion Hmore as [|? ? (Hg1 & Hg2 & Hr1 & Hr2) Hrest]; subst. simpl in *.
    rewrite <- !app_assoc.
    rewrite entities_loop_gap by auto.
    rewrite (IH run' (ents ++ [join " " (map fst run)]) Hr1 Hr2 Hrest).
    now rewrite <- app_assoc.
Qed.

(** Every list of tagged words has no noun or can be cut into its runs. *)
Lemma cut_into_runs_exists : forall tags,
  no_noun tags = true \/ exists lead run more tail, cut_into_runs tags lead run more tail.
Proof.
  induction tags as [|[w tg] tags IH]; [now left|].
  destruct (is_noun_tag tg) eqn:Etg.
  - right. destruct IH as [Hno|(lead & run & more & tail & Heq & Hlead & Hrun & Hn & Hmore & Htail)].
    + exists [], [(w, tg)], [], tags. unfold cut_into_runs. simpl. rewrite Etg.
      repeat split; auto. discriminate.
    + destruct lead as [|l lead].
      * exists [], ((w, tg) :: run), more, tail. unfold cut_into_runs. simpl in *.
        rewrite Etg, Hn, Heq. repeat split; auto. discriminate.
      * exists [], [(w, tg)], ((l :: lead, run) :: more), tail.
        unfold cut_into_runs. simpl. rewrite Etg, Heq. simpl. rewrite <- !app_assoc.
        repeat split; auto; try discriminate.
        constructor; auto. unfold gap_then_run. simpl. repeat split; auto. discriminate.
  - destruct IH as [Hno|(lead & run & more & tail & Heq & Hlead & Hrun & Hn & Hmore & Htail)].
    + left. simpl. now rewrite Etg.
    + right. exists ((w, tg) :: lead), run, more, tail. unfold cut_into_runs. simpl.
      rewrite Etg, Hlead, Heq. repeat split; auto.
Qed.

(** X9: when the tagger answers, the entities of [extract_entities] are
    the maximal runs of consecutive words tagged as nouns, the words of
    each run joined by single spaces, in the order of the text. Tagged
    words without a noun give no entity. Tagged words cut into words that
    are not nouns, a first run of nouns, further runs each after a gap of
    one or more words that are not nouns, and words that are not nouns,
    give the phrases of the runs, wherever the first run starts. Every
    list of tagged words is of one of these two forms. *)
Theorem extract_entities_noun_runs M text tags :
  pos_tag M text = Ok tags ->
  (no_noun tags = true -> extract_entities M text = Ok [])
  /\ (forall lead run more tail,
        cut_into_runs tags lead run more tail ->
        extract_entities M text
        = Ok (phrase run :: map (fun gr => phrase (snd gr)) more))
  /\ (no_noun tags = true
      \/ exists lead run more tail, cut_into_runs tags lead run more tail).
Proof.
  intros Ht. unfold extract_entities. rewrite Ht. simpl.
  split; [|split].
  - intros H. now rewrite entities_loop_no_noun.
  - intros lead run more tail (Heq & Hlead & Hrun & Hn & Hmore & Htail). subst tags.
    f_equal. rewrite entities_loop_acc.
    assert (Hskip : forall gap rest,
               no_noun gap = true -> entities_loop (gap ++ rest) [] [] = entities_loop rest [] []).
    { induction gap as [|[w tg] gap IH]; intros rest H; simpl; auto.
      simpl in H. apply andb_prop in H. destruct H as [H1 H2].
      apply negb_true_iff in H1. rewrite H1. now apply IH. }
    rewrite Hskip by assumption.
    now rewrite (@entities_loop_runs tail Htail more run [] Hrun Hn Hmore).
  - apply cut_into_runs_exists.
Qed.

Lemma extract_entities_noun_runs_witness :
  cut_into_runs question_tags
    [("where", "WRB"); ("is", "VBZ")]
    [("tech", "NN"); ("park", "NN")]
    [([("and", "CC"); ("the", "DT")], [("library", "NN")])]
    [("?", ".")]
  /\ extract_entities question_tagger "where is tech park and the library?"
     = Ok ["tech park"; "library"].
Proof.
  assert (H : cut_into_runs question_tags
                [("where", "WRB"); ("is", "VBZ")]
                [("tech", "NN"); ("park", "NN")]
                [([("and", "CC"); ("the", "DT")], [("library", "NN")])]
                [("?", ".")]).
  { unfold cut_into_runs. split; [reflexivity|]. split; [reflexivity|].
    split; [discriminate|]. split; [reflexivity|]. split; [|reflexivity].
    constructor; [|constructor]. unfold gap_then_run. simpl.
    split; [discriminate|]. split; [reflexivity|]. split; [discriminate | reflexivity]. }
  split; [exact H|].
  exact (proj1 (proj2 (@extract_entities_noun_runs question_tagger
                         "where is tech park and the library?" question_tags eq_refl))
               _ _ _ _ H).
Defined.

(** *** Normalisation *)

Lemma all_chars_app P a b :
  all_chars P (a ++ b) = all_chars P a && all_chars P b.
Proof.
  induction a as [|c a IH]; simpl; auto. now rewrite IH, andb_assoc.
Qed.

Lemma kept_after_blanking c :
  kept (if is_word (lower_char c) || is_space (lower_char c) || Ascii.eqb (lower_char c) "?"
        then lower_char c else " "%char) = true.
Proof. destruct c as [[] [] [] [] [] [] [] []]; reflexivity. Qed.

Lemma blank_lower_kept text : all_chars kept (blank_punctuation (lower text)) = true.
Proof.
  induction text as [|c text IH]; simpl; auto.
  now rewrite kept_after_blanking, IH.
Qed.

Lemma kept_lower_fixed s : all_chars kept s = true -> lower s = s.
Proof.
  induction s as [|c s IH]; simpl; auto.
  intros H. apply andb_prop in H. destruct H as [Hc Hs].
  unfold kept in Hc. apply andb_prop in Hc. destruct Hc as [Hl _].
  apply Ascii.eqb_eq in Hl. now rewrite Hl, IH.
Qed.

Lemma kept_blank_fixed s : all_chars kept s = true -> blank_punctuation s = s.
Proof.
  induction s as [|c s IH]; simpl; auto.
  intros H. apply andb_prop in H. destruct H as [Hc Hs].
  unfold kept in Hc. apply andb_prop in Hc. destruct Hc as [_ Hk].
  now rewrite Hk, IH.
Qed.

Lemma split_ws_aux_pieces : forall s cur,
  all_chars word_char cur = true -> all_chars kept s = true ->
  Forall is_word_piece (split_ws_aux cur s).
Proof.
  induction s as [|c s IH]; intros cur Hcur Hs; simpl.
  - destruct cur; constructor; [|constructor]. split; [discriminate | assumption].
  - simpl in Hs. apply andb_prop in Hs. destruct Hs as [Hc Hs].
    destruct (is_space c) eqn:Esp.
    + destruct cur.
      * now apply IH.
      * constructor; [split; [discriminate | assumption]|]. now apply IH.
    + apply IH; auto. rewrite all_chars_app, Hcur. simpl.
      unfold word_char. now rewrite Hc, Esp.
Qed.

Lemma word_char_not_space c : word_char c = true -> is_space c = false.
Proof.
  unfold word_char. intros H. apply andb_prop in H. destruct H as [_ H].
  now apply negb_true_iff.
Qed.

Lemma append_assoc_char cur c w : ((cur ++ String c "") ++ w)%string = (cur ++ String c w)%string.
Proof. induction cur as [|d cur IH]; simpl; auto. now rewrite IH. Qed.

Lemma append_empty_r s : (s ++ "")%string = s.
Proof. induction s as [|c s IH]; simpl; auto. now rewrite IH. Qed.

Lemma split_ws_aux_word : forall w cur s,
  all_chars word_char w = true ->
  split_ws_aux cur (w ++ s) = split_ws_aux (cur ++ w) s.
Proof.
  induction w as [|c w IH]; intros cur s H; simpl.
  - now rewrite append_empty_r.
  - simpl in H. apply andb_prop in H. destruct H as [Hc Hw].
    rewrite (word_char_not_space _ Hc), IH by assumption.
    now rewrite append_assoc_char.
Qed.

Lemma split_join_pieces : forall ws,
  Forall is_word_piece ws -> split_ws (join " " ws) = ws.
Proof.
  unfold split_ws. induction ws as [|w ws IH]; intros H; [reflexivity|].
  inversion H as [|? ? [Hne Hw] Hws]; subst.
  destruct ws as [|w2 ws].
  - simpl. rewrite <- (append_empty_r w) at 1.
    rewrite split_ws_aux_word by assumption. simpl.
    destruct w; [congruence | reflexivity].
  - change (join " " (w :: w2 :: ws)) with (w ++ " " ++ join " " (w2 :: ws))%string.
    rewrite split_ws_aux_word by assumption.
    change ("" ++ w)%string with w.
    change (" " ++ join " " (w2 :: ws))%string with (String " " (join " " (w2 :: ws))).
    simpl split_ws_aux.
    destruct w; [congruence|]. f_equal. now apply IH.
Qed.

Lemma join_pieces_kept : forall ws,
  Forall is_word_piece ws -> all_chars kept (join " " ws) = true.
Proof.
  assert (Hk : forall w, all_chars word_char w = true -> all_chars kept w = true).
  { induction w as [|c w IH]; simpl; auto. intros H. apply andb_prop in H.
    destruct H as [Hc Hw]. unfold word_char in Hc. apply andb_prop in Hc.
    destruct Hc as [Hc _]. now rewrite Hc, IH. }
  induction ws as [|w ws IH]; intros H; [reflexivity|].
  inversion H as [|? ? [Hne Hw] Hws]; subst.
  destruct ws as [|w2 ws]; [now apply Hk|].
  change (join " " (w :: w2 :: ws)) with (w ++ " " ++ join " " (w2 :: ws))%string.
  rewrite all_chars_app, (Hk w Hw). simpl. now apply IH.
Qed.

(** X10: for a text of ASCII characters, [preprocess_text] yields a normal
    form: words separated by single spaces, with no space at either end,
    each word made of lower-case letters, digits, underscores and question
    marks only; and preprocessing a preprocessed text changes nothing.
    (Outside ASCII Python's [lower], [\w] and [\s] are not those of the
    embedding.) *)
Theorem preprocess_text_normal_form text :
  all_chars is_ascii text = true ->
  preprocess_text (preprocess_text text) = preprocess_text text
  /\ exists ws,
       preprocess_text text = join " " ws
       /\ Forall (fun w => w <> "" /\ all_chars word_char w = true) ws.
Proof.
  intros _.
  assert (Hp : Forall is_word_piece (split_ws (blank_punctuation (lower text)))).
  { apply split_ws_aux_pieces; [reflexivity | apply blank_lower_kept]. }
  split.
  - unfold preprocess_text. cbv zeta.
    set (ws := split_ws (blank_punctuation (lower text))) in *.
    rewrite (kept_lower_fixed _ (join_pieces_kept Hp)).
    rewrite (kept_blank_fixed _ (join_pieces_kept Hp)).
    now rewrite split_join_pieces.
  - exists (split_ws (blank_punctuation (lower text))). split; [reflexivity | exact Hp].
Qed.

Lemma preprocess_text_normal_form_witness :
  preprocess_text "  Where is the Tech-Park,  please?" = "where is the tech park please?"
  /\ preprocess_text (preprocess_text "  Where is the Tech-Park,  please?")
     = preprocess_text "  Where is the Tech-Park,  please?".
Proof.
  split; [reflexivity|].
  exact (proj1 (preprocess_text_normal_form "  Where is the Tech-Park,  please?" eq_refl)).
Defined.

End NLUMore.

(** ** More of the resolution engine *)

Module EnhancedMore.

Import PyStr PyValue NLUModule EnhancedChatbot PyDictFacts EnhancedChatbotFacts.
Import Notions Samples MoreNotions MoreSamples.

(** *** Direct match and follow-up *)

Lemma py_eq_str v s : py_eq v (VStr s) = true -> v = VStr s.
Proof.
  destruct v; simpl; try discriminate.
  intros H. apply String.eqb_eq in H. now subst.
Qed.

(** An exact hit with one of the intents location, description and
    contact: the response names the entity and the intent, and scores 1. *)
Lemma special_hit kb entity intent category data :
  lookup kb entity = Some (category, data) ->
  is_special intent = true ->
  exists r, _get_entity_info kb entity intent = Ok r
            /\ PyDict.get "type" r = Some intent
            /\ PyDict.get "entity" r = Some (VStr entity)
            /\ PyDict.get "confidence" r = Some (VNum 1)
            /\ confident r = Ok true.
Proof.
  intros Hl Hs. rewrite get_entity_info_lookup, Hl. unfold entity_response.
  unfold is_special, special_intents in Hs. simpl in Hs.
  destruct (py_eq intent (VStr "location")) eqn:E1;
    [eexists; split; [reflexivity|]; repeat split|].
  destruct (py_eq intent (VStr "description")) eqn:E2;
    [eexists; split; [reflexivity|]; repeat split|].
  destruct (py_eq intent (VStr "contact")) eqn:E3; [|discriminate].
  apply py_eq_str in E3. subst intent. simpl.
  eexists; split; [reflexivity|]; repeat split.
Qed.

(** X11: when the first extracted entities are unknown to the knowledge
    base and the next one is known, [_find_best_match] answers, for the
    intents location, description and contact, with the response of
    [_get_entity_info] for that entity: it names the entity, has the
    intent as its type and the confidence 1; later entities are not
    looked at. *)
Theorem first_known_entity_answers C M kb st a sid pre e post category data :
  analysis_entities a = pre ++ e :: post ->
  Forall (fun p => lookup kb p = None) pre ->
  lookup kb e = Some (category, data) ->
  is_special (analysis_intent a (VStr "general")) = true ->
  exists r,
    _find_best_match C M kb st a sid = Ok r
    /\ _get_entity_info kb e (analysis_intent a (VStr "general")) = Ok r
    /\ PyDict.get "type" r = Some (analysis_intent a (VStr "general"))
    /\ PyDict.get "entity" r = Some (VStr e)
    /\ PyDict.get "confidence" r = Some (VNum 1).
Proof.
  intros Hent Hpre Hl Hs.
  destruct (@special_hit kb e _ category data Hl Hs) as (r & Hr & Ht & He & Hc & Hconf).
  exists r. split; [|auto].
  apply (@find_best_match_first_confident C M kb st a sid pre e post r); auto.
  apply Forall_forall. intros p Hp. rewrite Forall_forall in Hpre.
  destruct (@get_entity_info_miss kb p (analysis_intent a (VStr "general")) (Hpre p Hp))
    as [H1 H2].
  eexists. split; eauto.
Qed.

Lemma first_known_entity_answers_witness :
  exists r,
    _find_best_match simple_collaborators plain_models campus_kb [] (Analysed where_analysis)
      "session-1" = Ok r
    /\ PyDict.get "entity" r = Some (VStr "tech park")
    /\ PyDict.get "confidence" r = Some (VNum 1).
Proof.
  destruct (@first_known_entity_answers simple_collaborators plain_models campus_kb []
              (Analysed where_analysis) "session-1" ["srm"] "tech park" ["hostel"]
              "locations" _ eq_refl
              (@Forall_cons _ (fun p => lookup campus_kb p = None) "srm" [] eq_refl
                 (Forall_nil _))
              eq_refl eq_refl)
    as (r & Hr & _ & _ & He & Hc).
  exists r. split; [exact Hr|]. split; [exact He | exact Hc].
Defined.

(** X12: a follow-up question is answered about the current entity of the
    session, not about the entities of the question: when the context
    names a current entity that the knowledge base has, and the intent of
    the question (or, for a question of general intent, the current intent
    of the context) is location, description or contact, the response of
    [_handle_followup] names the current entity with confidence 1. Without
    a current entity the question is handled as a fresh one. *)
Theorem followup_answers_about_current_entity C M kb st query a context sid :
  (forall c s category data,
     PyDict.get "current_entity" context = Some (VStr (String c s)) ->
     lookup kb (String c s) = Some (category, data) ->
     is_special (followup_intent a context) = true ->
     exists r,
       _handle_followup C M kb st query a context sid = Ok r
       /\ PyDict.get "type" r = Some (followup_intent a context)
       /\ PyDict.get "entity" r = Some (VStr (String c s))
       /\ PyDict.get "confidence" r = Some (VNum 1))
  /\ (PyDict.get "current_entity" context = None ->
      _handle_followup C M kb st query a context sid
      = _find_best_match C M kb st (Analysed a) sid).
Proof.
  split.
  - intros c s category data Hcur Hl Hs.
    destruct (@special_hit kb (String c s) _ category data Hl Hs) as (r & Hr & Ht & He & Hc & Hconf).
    exists r. split; [|auto].
    unfold _handle_followup.
    replace (get_or_none "current_entity" context) with (VStr (String c s))
      by (unfold get_or_none, PyDict.get_default; now rewrite Hcur).
    cbv beta iota zeta. unfold followup_intent in Hr.
    rewrite Hr. simpl. now rewrite Hconf.
  - intros Hnone. unfold _handle_followup, get_or_none, PyDict.get_default.
    now rewrite Hnone.
Qed.

Lemma followup_answers_about_current_entity_witness :
  exists r,
    _handle_followup simple_collaborators plain_models campus_kb [] "What about the hostel?"
      what_about_analysis tech_park_context "session-1" = Ok r
    /\ PyDict.get "entity" r = Some (VStr "tech park")
    /\ PyDict.get "type" r = Some (VStr "location").
Proof.
  destruct (proj1 (@followup_answers_about_current_entity simple_collaborators plain_models
                     campus_kb [] "What about the hostel?" what_about_analysis
                     tech_park_context "session-1")
                  "t"%char "ech park" "locations" _ eq_refl eq_refl eq_refl)
    as (r & Hr & Ht & He & _).
  exists r. split; [exact Hr|]. split; [exact He | exact Ht].
Defined.

(** *** Candidates *)

Lemma colon_free_app a b : colon_free (a ++ b) = colon_free a && colon_free b.
Proof.
  induction a as [|c a IH]; simpl; auto. now rewrite IH, andb_assoc.
Qed.

Lemma split_colon_none s : colon_free s = true -> split_colon s = (s, None).
Proof.
  induction s as [|c s IH]; simpl; auto.
  intros H. apply andb_prop in H. destruct H as [Hc Hs].
  apply negb_true_iff in Hc. now rewrite Hc, IH.
Qed.

Lemma split_colon_first e rest :
  colon_free e = true -> split_colon (e ++ String ":" rest) = (e, Some rest).
Proof.
  induction e as [|c e IH]; simpl; auto.
  intros H. apply andb_prop in H. destruct H as [Hc He].
  apply negb_true_iff in Hc. now rewrite Hc, IH.
Qed.

Lemma append_assoc (a b c : string) : ((a ++ b) ++ c)%string = (a ++ b ++ c)%string.
Proof. induction a as [|x a IH]; simpl; auto. now rewrite IH. Qed.

(** X13: [_format_candidate_response] keeps the confidence it is given and
    takes what stands before the first colon as the entity. For the
    candidate "entity: description" that [_get_candidate_responses] makes
    of an entity without a colon in its name this is the entity; for the
    candidate of its facilities it is the name followed by " facilities",
    for the candidate of its contact it is "Contact " and the name, and
    for the candidate of an address without colon it is the whole sentence
    with an empty description. *)
Theorem format_candidate_entity entity text confidence :
  colon_free entity = true ->
  let description := _format_candidate_response (entity ++ ": " ++ text) confidence in
  let facilities := _format_candidate_response (entity ++ " facilities: " ++ text) confidence in
  let contact := _format_candidate_response ("Contact " ++ entity ++ ": " ++ text) confidence in
  let located := _format_candidate_response (entity ++ " is located at " ++ text) confidence in
  PyDict.get "entity" description = Some (VStr (strip entity))
  /\ PyDict.get "description" description = Some (VStr (strip (" " ++ text)))
  /\ PyDict.get "confidence" description = Some (VNum confidence)
  /\ PyDict.get "entity" facilities = Some (VStr (strip (entity ++ " facilities")))
  /\ PyDict.get "entity" contact = Some (VStr (strip ("Contact " ++ entity)))
  /\ (colon_free text = true ->
      PyDict.get "entity" located = Some (VStr (strip (entity ++ " is located at " ++ text)))
      /\ PyDict.get "description" located = Some (VStr "")).
Proof.
  intros He. cbv zeta. unfold _format_candidate_response.
  split; [|split; [|split; [|split; [|split]]]].
  - change (entity ++ ": " ++ text)%string with (entity ++ String ":" (" " ++ text))%string.
    now rewrite split_colon_first.
  - change (entity ++ ": " ++ text)%string with (entity ++ String ":" (" " ++ text))%string.
    now rewrite split_colon_first.
  - reflexivity.
  - replace (entity ++ " facilities: " ++ text)%string
      with ((entity ++ " facilities") ++ String ":" (" " ++ text))%string
      by (now rewrite append_assoc).
    rewrite split_colon_first; [reflexivity|].
    now rewrite colon_free_app, He.
  - replace ("Contact " ++ entity ++ ": " ++ text)%string
      with (("Contact " ++ entity) ++ String ":" (" " ++ text))%string
      by (now rewrite append_assoc).
    rewrite split_colon_first; [reflexivity|].
    now rewrite colon_free_app, He.
  - intros Ht. rewrite split_colon_none; [split; reflexivity|].
    now rewrite !colon_free_app, He, Ht.
Qed.

Lemma format_candidate_entity_witness :
  PyDict.get "entity"
    (_format_candidate_response ("tech park" ++ ": " ++ "Research labs") (7 # 10))
  = Some (VStr "tech park")
  /\ PyDict.get "entity"
       (_format_candidate_response ("tech park" ++ " facilities: " ++ "Research Labs") (7 # 10))
     = Some (VStr "tech park facilities").
Proof.
  destruct (@format_candidate_entity "tech park" "Research labs" (7 # 10) eq_refl)
    as (H1 & _).
  destruct (@format_candidate_entity "tech park" "Research Labs" (7 # 10) eq_refl)
    as (_ & _ & _ & H4 & _).
  split; [exact H1 | exact H4].
Defined.









(** *** Fallback suggestions *)

Lemma insert_desc_perm x : forall l, Permutation (insert_desc x l) (x :: l).
Proof.
  induction l as [|y l IH]; simpl; auto.
  destruct (Qlt_le_dec (snd x) (snd y)); auto.
  rewrite IH. apply perm_swap.
Qed.

Lemma sort_desc_perm : forall l, Permutation (sort_desc l) l.
Proof.
  induction l as [|x l IH]; simpl; auto.
  rewrite insert_desc_perm. now constructor.
Qed.

Lemma insert_desc_sorted x : forall l,
  StronglySorted (fun a b => snd b <= snd a) l ->
  StronglySorted (fun a b => snd b <= snd a) (insert_desc x l).
Proof.
  induction l as [|y l IH]; simpl; intros H.
  - repeat constructor.
  - apply StronglySorted_inv in H. destruct H as [Hl Hy].
    destruct (Qlt_le_dec (snd x) (snd y)) as [Hlt|Hle].
    + constructor; auto.
      rewrite Forall_forall in *. intros z Hz.
      apply (Permutation_in _ (insert_desc_perm x l)) in Hz.
      destruct Hz as [<-|Hz]; [now apply Qlt_le_weak | auto].
    + constructor; [constructor; auto|].
      constructor; auto.
      rewrite Forall_forall in *. intros z Hz.
      apply Qle_trans with (snd y); auto.
Qed.

Lemma sort_desc_sorted : forall l, StronglySorted (fun a b => snd b <= snd a) (sort_desc l).
Proof.
  induction l as [|x l IH]; simpl; [constructor|]. now apply insert_desc_sorted.
Qed.

Lemma similar_to_above_floor M kb entity x :
  In x (similar_to M kb entity) ->
  similarity_floor < snd x
  /\ exists category, In category kb /\ In (fst x) (PyDict.keys (snd category)).
Proof.
  unfold similar_to. intros H. apply in_flat_map in H. destruct H as [cat [Hcat H]].
  apply in_flat_map in H. destruct H as [kb_entity [Hk H]].
  destruct (Qlt_le_dec similarity_floor (get_semantic_similarity M entity kb_entity))
    as [Hlt|]; [|destruct H].
  destruct H as [<-|[]]. simpl. split; auto. now exists cat.
Qed.

(** X15: when some entity of the knowledge base is similar above the
    floor 0.5 to an extracted entity, the fallback response opens with
    the three questions about the most similar one: an entity of the
    knowledge base whose similarity is above the floor and not exceeded by
    any other; at most two more suggestions follow. *)
Theorem fallback_suggests_most_similar_first C M kb st a sid :
  is_ok (get_context C st sid) = true ->
  flat_map (similar_to M kb) (analysis_entities a) <> [] ->
  exists best score more,
    In (best, score) (flat_map (similar_to M kb) (analysis_entities a))
    /\ (forall x, In x (flat_map (similar_to M kb) (analysis_entities a)) ->
          snd x <= score)
    /\ similarity_floor < score
    /\ (exists category, In category kb /\ In best (PyDict.keys (snd category)))
    /\ (List.length more <= 2)%nat
    /\ _generate_fallback_response C M kb st a sid
       = Ok (fallback_response (suggestions_about best ++ more)).
Proof.
  intros Hctx Hne. unfold _generate_fallback_response.
  destruct (get_context C st sid) as [ctx|]; [|discriminate]. simpl bind.
  set (similar := flat_map (similar_to M kb) (analysis_entities a)) in *.
  pose proof (sort_desc_perm similar) as Hperm.
  pose proof (sort_desc_sorted similar) as Hsorted.
  destruct (sort_desc similar) as [|[best score] rest] eqn:Es.
  - apply Permutation_nil in Hperm. congruence.
  - assert (Hin : In (best, score) similar)
      by (apply (Permutation_in _ Hperm); now left).
    exists best, score,
      (firstn 2 (flat_map (fun es => suggestions_about (fst es)) (firstn 2 rest))).
    split; [exact Hin|]. split; [|split; [|split; [|split]]].
    + intros x Hx. apply (Permutation_in _ (Permutation_sym Hperm)) in Hx.
      apply StronglySorted_inv in Hsorted. destruct Hsorted as [_ Hall].
      destruct Hx as [<-|Hx]; [apply Qle_refl|].
      rewrite Forall_forall in Hall. exact (Hall x Hx).
    + unfold similar in Hin. apply in_flat_map in Hin. destruct Hin as [entity [_ Hin]].
      now apply similar_to_above_floor in Hin.
    + unfold similar in Hin. apply in_flat_map in Hin. destruct Hin as [entity [_ Hin]].
      now apply similar_to_above_floor in Hin.
    + rewrite length_firstn. lia.
    + reflexivity.
Qed.

Lemma fallback_suggests_most_similar_first_witness :
  _generate_fallback_response simple_collaborators library_models campus_kb []
    library_analysis "session-1"
  = Ok (fallback_response
          ["What is tech park?"; "Tell me about tech park"; "Where is tech park located?";
           "What is hostel?"; "Tell me about hostel"])
  /\ exists best score more,
       In (best, score) (flat_map (similar_to library_models campus_kb)
                                  (analysis_entities library_analysis))
       /\ similarity_floor < score
       /\ _generate_fallback_response simple_collaborators library_models campus_kb []
            library_analysis "session-1"
          = Ok (fallback_response (suggestions_about best ++ more)).
Proof.
  split; [reflexivity|].
  destruct (@fallback_suggests_most_similar_first simple_collaborators library_models
              campus_kb [] library_analysis "session-1" eq_refl ltac:(discriminate))
    as (best & score & more & Hin & _ & Hfloor & _ & _ & H).
  exists best, score, more. split; [exact Hin|]. split; [exact Hfloor | exact H].
Defined.

(** *** Degradation and errors *)

Lemma encoder_fault_similarity M text1 text2 :
  (forall texts, is_ok (encode M texts) = false) ->
  get_semantic_similarity M text1 text2 = 0.
Proof.
  intros H. unfold get_semantic_similarity.
  specialize (H [text1]). now destruct (encode M [text1]).
Qed.

Lemma flat_map_all_nil {A B : Type} (f : A -> list B) (l : list A) :
  (forall x, f x = []) -> flat_map f l = [].
Proof.
  intros H. induction l as [|x l IH]; simpl; auto. now rewrite H, IH.
Qed.

Lemma encoder_fault_no_similar M kb :
  (forall texts, is_ok (encode M texts) = false) ->
  forall names, flat_map (similar_to M kb) names = [].
Proof.
  intros H names. apply flat_map_all_nil. intros entity.
  unfold similar_to. apply flat_map_all_nil. intros cat.
  apply flat_map_all_nil. intros kb_entity.
  now rewrite (encoder_fault_similarity M entity kb_entity H).
Qed.

Lemma first_confident_all_miss kb intent : forall names,
  Forall (fun p => lookup kb p = None) names ->
  first_confident kb names intent = Ok None.
Proof.
  induction names as [|p names IH]; intros H; simpl; auto.
  inversion H as [|? ? Hp Hrest]; subst.
  destruct (@get_entity_info_miss kb p intent Hp) as [H1 H2].
  rewrite H1. change (bind (Ok ?x) ?k) with (k x). cbv beta.
  rewrite H2. simpl. now apply IH.
Qed.

(** X16: when the sentence encoder is out of order, the encoder itself
    is never the cause of a failure. If every call of the encoder raises,
    [find_best_matches] returns the empty list, and a query none of whose
    entities is in the knowledge base gets from [_find_best_match] the
    exception of [_get_candidate_responses] if that raises, else the
    exception of [get_context] if that raises, and else the fallback
    response with the five fixed questions, whatever the knowledge base
    holds. *)
Theorem encoder_fault_gives_popular_topics C M kb st a sid :
  (forall texts, is_ok (encode M texts) = false) ->
  Forall (fun p => lookup kb p = None) (entities a) ->
  (forall e, _get_candidate_responses C kb = Raise e ->
     _find_best_match C M kb st (Analysed a) sid = Raise e)
  /\ (forall candidates e,
        _get_candidate_responses C kb = Ok candidates ->
        get_context C st sid = Raise e ->
        _find_best_match C M kb st (Analysed a) sid = Raise e)
  /\ (forall candidates context,
        _get_candidate_responses C kb = Ok candidates ->
        get_context C st sid = Ok context ->
        _find_best_match C M kb st (Analysed a) sid
        = Ok (fallback_response popular_topics))
  /\ (forall query candidates top_k, find_best_matches M query candidates top_k = []).
Proof.
  intros Henc Hmiss.
  assert (Hfb : _generate_fallback_response C M kb st (Analysed a) sid
                = match get_context C st sid with
                  | Ok _ => Ok (fallback_response popular_topics)
                  | Raise e => Raise e
                  end).
  { unfold _generate_fallback_response.
    destruct (get_context C st sid); [|reflexivity]. simpl bind.
    now rewrite (encoder_fault_no_similar M kb Henc). }
  assert (Hrank : forall query candidates top_k,
             find_best_matches M query candidates top_k = []).
  { intros query candidates top_k. unfold find_best_matches.
    specialize (Henc candidates). now destruct (encode M candidates). }
  assert (Hmatch : _find_best_match C M kb st (Analysed a) sid
                   = match _get_candidate_responses C kb with
                     | Ok _ => _generate_fallback_response C M kb st (Analysed a) sid
                     | Raise e => Raise e
                     end).
  { unfold _find_best_match. simpl analysis_entities.
    rewrite first_confident_all_miss by assumption. simpl.
    destruct (_get_candidate_responses C kb) as [candidates|e]; [|reflexivity]. simpl.
    destruct candidates; [reflexivity|]. now rewrite Hrank. }
  split; [|split; [|split; [|exact Hrank]]].
  - intros e He. now rewrite Hmatch, He.
  - intros candidates e Hc He. now rewrite Hmatch, Hc, Hfb, He.
  - intros candidates context Hc Hctx. now rewrite Hmatch, Hc, Hfb, Hctx.
Qed.

Lemma encoder_fault_gives_popular_topics_witness :
  _find_best_match simple_collaborators
    (mkModels (fun _ => tt) (fun _ => Raise ProviderError) (fun _ _ => Raise ProviderError)
              (fun _ => []) (fun _ => Ok []))
    campus_kb [] library_analysis "session-1"
  = Ok (fallback_response popular_topics)
  /\ _find_best_match simple_collaborators
       (mkModels (fun _ => tt) (fun _ => Raise ProviderError) (fun _ _ => Raise ProviderError)
                 (fun _ => []) (fun _ => Ok []))
       (campus_kb ++ [("programs", [("law", [("facilities", VNone)])])]) []
       library_analysis "session-1"
     = Raise TypeError.
Proof.
  split.
  - refine (proj1 (proj2 (proj2 (@encoder_fault_gives_popular_topics simple_collaborators
              (mkModels (fun _ => tt) (fun _ => Raise ProviderError)
                        (fun _ _ => Raise ProviderError) (fun _ => []) (fun _ => Ok []))
              campus_kb [] _ "session-1" _ _))) _ _ eq_refl eq_refl).
    + intros texts. reflexivity.
    + repeat constructor.
  - refine (proj1 (@encoder_fault_gives_popular_topics simple_collaborators
              (mkModels (fun _ => tt) (fun _ => Raise ProviderError)
                        (fun _ _ => Raise ProviderError) (fun _ => []) (fun _ => Ok []))
              (campus_kb ++ [("programs", [("law", [("facilities", VNone)])])]) [] _
              "session-1" _ _) _ eq_refl).
    + intros texts. reflexivity.
    + repeat constructor.
Defined.

(** X17: [process_query] never raises. Whatever goes wrong inside (the
    context manager, the analysis, the resolution, the formatter) the
    caller receives the error response, of type "error" and confidence 0;
    every other answer is the formatted response completed with the
    identifier of the session, which is the one passed in or, when none
    or an empty one is passed, the one just created. *)
Theorem process_query_error_or_session C M kb st query session_id :
  snd (process_query C M kb st query session_id) = error_response
  \/ (PyDict.get "session_id" (snd (process_query C M kb st query session_id))
      = Some (VStr (match session_id with
                    | Some (String c s) => String c s
                    | _ => new_session_id C st
                    end))
      /\ PyDict.has "conversation_summary" (snd (process_query C M kb st query session_id))
         = true).
Proof.
  unfold process_query.
  set (sid := match session_id with
              | Some (String c s) => String c s
              | _ => new_session_id C st
              end).
  assert (Hcreated :
            match session_id with
            | Some (String c s) => Ok (st, String c s)
            | _ => st1 <- create_conversation C st (new_session_id C st) ;;
                   Ok (st1, new_session_id C st)
            end
            = match session_id with
              | Some (String c s) => Ok (st, sid)
              | _ => st1 <- create_conversation C st sid ;; Ok (st1, sid)
              end).
  { unfold sid. now destruct session_id as [[|c s]|]. }
  rewrite Hcreated. clear Hcreated.
  assert (Hmain : forall st1,
            snd match resolve_and_update C M kb st1 query sid with
                | Ok (st2, response) =>
                    match (formatted <- format_response C response ;;
                           summary <- get_conversation_summary C st2 sid ;;
                           Ok (PyDict.set (PyDict.set formatted "session_id" (VStr sid))
                                          "conversation_summary" summary)) with
                    | Ok formatted => (st2, formatted)
                    | Raise _ => (st2, error_response)
                    end
                | Raise _ => (st1, error_response)
                end = error_response
            \/ (PyDict.get "session_id"
                  (snd match resolve_and_update C M kb st1 query sid with
                       | Ok (st2, response) =>
                           match (formatted <- format_response C response ;;
                                  summary <- get_conversation_summary C st2 sid ;;
                                  Ok (PyDict.set (PyDict.set formatted "session_id" (VStr sid))
                                                 "conversation_summary" summary)) with
                           | Ok formatted => (st2, formatted)
                           | Raise _ => (st2, error_response)
                           end
                       | Raise _ => (st1, error_response)
                       end) = Some (VStr sid)
                /\ PyDict.has "conversation_summary"
                     (snd match resolve_and_update C M kb st1 query sid with
                          | Ok (st2, response) =>
                              match (formatted <- format_response C response ;;
                                     summary <- get_conversation_summary C st2 sid ;;
                                     Ok (PyDict.set
                                           (PyDict.set formatted "session_id" (VStr sid))
                                           "conversation_summary" summary)) with
                              | Ok formatted => (st2, formatted)
                              | Raise _ => (st2, error_response)
                              end
                          | Raise _ => (st1, error_response)
                          end) = true)).
  { intros st1.
    destruct (resolve_and_update C M kb st1 query sid) as [[st2 response]|e]; [|now left].
    destruct (format_response C response) as [formatted|e]; simpl; [|now left].
    destruct (get_conversation_summary C st2 sid) as [summary|e]; simpl; [|now left].
    right. split.
    - rewrite get_set_other by discriminate. apply get_set_same.
    - unfold PyDict.has. now rewrite get_set_same. }
  destruct session_id as [[|c s]|].
  - destruct (create_conversation C st sid) as [st1|e]; simpl; [apply Hmain | now left].
  - apply Hmain.
  - destruct (create_conversation C st sid) as [st1|e]; simpl; [apply Hmain | now left].
Qed.

End EnhancedMore.

(** ** More of the pattern-based engine *)

Module ORBAIMore.

Import PyStr PyValue ORBAI Notions Samples MoreNotions MoreSamples.

(** *** The context within a turn *)

Lemma classified_context_same c1 c2 turn t entities :
  same_but_last c1 c2 ->
  with_classification (with_history c1 (conversation_history c1 ++ [turn])) t entities
  = with_classification (with_history c2 (conversation_history c2 ++ [turn])) t entities.
Proof.
  intros (H1 & H2 & H3 & H4 & H5).
  unfold with_classification, with_history. simpl. congruence.
Qed.

(** X18: what a turn answers does not depend on the last entities or the
    last question type that earlier turns left in the context:
    [process_query] replaces both by those of the current query before it
    reads them. From two contexts that differ in nothing else it returns
    the same response or exception and, when the query can be classified,
    leaves the same context. *)
Theorem earlier_last_entities_never_read E c1 c2 query timestamp :
  same_but_last c1 c2 ->
  snd (process_query E c1 query timestamp) = snd (process_query E c2 query timestamp)
  /\ (is_ok (classify_question E query) = true ->
      fst (process_query E c1 query timestamp) = fst (process_query E c2 query timestamp)).
Proof.
  intros Hsame. unfold process_query.
  destruct (classify_question E query) as [classification|e]; cbv zeta.
  - rewrite (classified_context_same (mkTurn query timestamp None)
               (c_type classification) (c_entities classification) Hsame).
    split; reflexivity.
  - split; [reflexivity | discriminate].
Qed.

Lemma earlier_last_entities_never_read_witness :
  snd (process_query bare_externals after_tech_park "What about it?" "2024-01-01T10:01:00")
  = snd (process_query bare_externals
           (mkContext None None None (conversation_history after_tech_park) []
                      (follow_up_context after_tech_park) false)
           "What about it?" "2024-01-01T10:01:00").
Proof.
  apply (@earlier_last_entities_never_read bare_externals after_tech_park
           (mkContext None None None (conversation_history after_tech_park) []
                      (follow_up_context after_tech_park) false)
           "What about it?" "2024-01-01T10:01:00").
  repeat split.
Defined.

(** X19: within a turn a reference is never resolved to an entity of an
    earlier turn. [process_query] calls [_resolve_references] after it has
    replaced the last entities by the current ones, so the step that
    should add the earlier entities to a query without entities finds
    nothing to add: the resolved entities are the current ones, followed
    by the characters of a "relevant_entities" entry of the follow-up
    context if there is one, in the order of [set]. *)
Theorem references_never_resolved_to_earlier_entities E ctx t current query :
  _resolve_references E (with_classification ctx t current) current query
  = set_order E
      (current ++ match PyDict.get "relevant_entities" (follow_up_context ctx) with
                  | Some (String c s) => chars (String c s)
                  | _ => []
                  end).
Proof.
  unfold _resolve_references, has_last_entities. simpl.
  destruct current as [|e es]; simpl;
    destruct (PyDict.get "relevant_entities" (follow_up_context ctx)) as [[|c s]|];
    rewrite ?app_nil_r; reflexivity.
Qed.

(** *** Responses and history *)

Lemma handle_fallback_not_empty ctx query classification :
  is_empty_response (_handle_fallback ctx query classification) = false.
Proof.
  unfold _handle_fallback.
  destruct (find_similar_questions query) as [|q qs]; [|reflexivity].
  destruct (_is_follow_up_question ctx query classification && has_last_entities ctx);
    reflexivity.
Qed.

Lemma set_last_response_snoc : forall history t response,
  set_last_response (history ++ [t]) response
  = history ++ [mkTurn (t_query t) (t_timestamp t) (Some response)].
Proof.
  induction history as [|t0 history IH]; intros t response; [reflexivity|].
  simpl. rewrite IH. destruct (history ++ [t]) eqn:E; [|reflexivity].
  now destruct history.
Qed.

(** X20: a turn that returns never returns an empty answer: the response
    of [process_query] is not the empty dictionary and has an
    "information" or a "formatted_answer" entry that is not empty, because
    an empty answer of a handler is replaced by a suggestion, a
    clarification or the general fallback, each with a text. *)
Theorem process_query_answer_never_empty E ctx query timestamp response :
  snd (process_query E ctx query timestamp) = Ok response ->
  is_empty_response response = false
  /\ response <> []
  /\ (truthy (get_or_none "information" response) = true
      \/ truthy (get_or_none "formatted_answer" response) = true).
Proof.
  intros H.
  assert (He : is_empty_response response = false).
  { unfold process_query in H.
    destruct (classify_question E query) as [classification|e]; [|discriminate].
    cbv zeta in H.
    destruct (_process_by_type E _ _ _ _) as [fu [r|e]]; [|discriminate].
    simpl in H. inversion H as [Hr]. clear H.
    destruct (is_empty_response r) eqn:Er; [apply handle_fallback_not_empty | exact Er]. }
  split; [exact He|].
  unfold is_empty_response in He. destruct response as [|kv response]; [discriminate|].
  split; [discriminate|].
  apply andb_false_iff in He. destruct He as [He|He]; apply negb_false_iff in He; auto.
Qed.

Lemma process_query_answer_never_empty_witness :
  is_empty_response
    [("type", VStr "greeting"); ("formatted_answer", VStr greeting_text)] = false.
Proof.
  exact (proj1 (@process_query_answer_never_empty bare_externals after_tech_park "hello"
                  "2024-01-01T10:01:00" _ eq_refl)).
Defined.

(** X21: every turn is recorded at the end of the history and nothing
    before it is touched: after a turn that returns, the last entry holds
    the query, the time stamp and the response returned; after a turn that
    raises, it holds the query and the time stamp without a response. *)
Theorem process_query_records_turn E ctx query timestamp :
  (forall response,
     snd (process_query E ctx query timestamp) = Ok response ->
     conversation_history (fst (process_query E ctx query timestamp))
     = conversation_history ctx ++ [mkTurn query timestamp (Some response)])
  /\ (is_ok (snd (process_query E ctx query timestamp)) = false ->
      conversation_history (fst (process_query E ctx query timestamp))
      = conversation_history ctx ++ [mkTurn query timestamp None]).
Proof.
  unfold process_query.
  destruct (classify_question E query) as [classification|e]; cbv zeta.
  - destruct (_process_by_type E _ _ _ _) as [fu [r|e]]; simpl.
    + split; [|discriminate].
      intros response H. inversion H as [Hr]. rewrite Hr.
      now rewrite set_last_response_snoc.
    + split; [discriminate | reflexivity].
  - simpl. split; [discriminate | reflexivity].
Qed.

Lemma process_query_records_turn_witness :
  conversation_history
    (fst (process_query bare_externals after_tech_park "hello" "2024-01-01T10:01:00"))
  = conversation_history after_tech_park
    ++ [mkTurn "hello" "2024-01-01T10:01:00"
          (Some [("type", VStr "greeting"); ("formatted_answer", VStr greeting_text)])].
Proof.
  exact (proj1 (process_query_records_turn bare_externals after_tech_park "hello"
                  "2024-01-01T10:01:00") _ eq_refl).
Defined.

(** *** Similar questions *)

Lemma unique_subset : forall l x, In x (unique l) -> In x l.
Proof.
  induction l as [|y l IH]; simpl; auto.
  intros x [H|H]; auto. apply filter_In in H. right. apply IH. tauto.
Qed.

Lemma NoDup_filter {A : Type} (f : A -> bool) : forall l, NoDup l -> NoDup (filter f l).
Proof.
  induction l as [|x l IH]; simpl; intros H; [constructor|].
  inversion H; subst. destruct (f x); auto.
  constructor; auto. intros Hin. apply filter_In in Hin. tauto.
Qed.

Lemma unique_NoDup : forall l, NoDup (unique l).
Proof.
  induction l as [|x l IH]; simpl; constructor.
  - intros H. apply filter_In in H. destruct H as [_ H].
    now rewrite String.eqb_refl in H.
  - now apply NoDup_filter.
Qed.

(** X22: [find_similar_questions] returns at most three suggestions and
    never the same one twice. *)
Theorem find_similar_questions_at_most_three_distinct query :
  (List.length (find_similar_questions query) <= 3)%nat
  /\ NoDup (find_similar_questions query).
Proof.
  unfold find_similar_questions. split.
  - rewrite length_firstn. lia.
  - match goal with
    | |- NoDup (firstn 3 (unique ?l)) =>
        pose proof (unique_NoDup l) as H;
        rewrite <- (firstn_skipn 3 (unique l)) in H;
        now apply NoDup_app_remove_r in H
    end.
Qed.

End ORBAIMore.

(** ** The question patterns *)

Module TextProcessorFacts.

Import PyStr TextProcessor.

Lemma after_prefix_sound : forall l s rest,
  ORBAI.after_prefix s l = Some rest -> s = (l ++ rest)%string.
Proof.
  induction l as [|a l IH]; intros s rest H.
  - destruct s; simpl in H; now inversion H.
  - destruct s as [|b s]; simpl in H; [discriminate|].
    destruct (Ascii.eqb a b) eqn:E; [|discriminate].
    apply Ascii.eqb_eq in E. subst b. simpl. f_equal. now apply IH.
Qed.

Lemma matches_seq_lit l r s :
  matches_at_start (Seq (Lit l) r) s = true ->
  exists t, s = (l ++ t)%string /\ matches_at_start r t = true.
Proof.
  unfold matches_at_start. simpl.
  destruct (ORBAI.after_prefix s l) as [t|] eqn:E; simpl; [|discriminate].
  rewrite app_nil_r. intros H. exists t. split; auto. now apply after_prefix_sound.
Qed.

Lemma matches_seq_alt a b r s :
  matches_at_start (Seq (Alt a b) r) s = true ->
  matches_at_start (Seq a r) s = true \/ matches_at_start (Seq b r) s = true.
Proof.
  unfold matches_at_start. simpl. rewrite flat_map_app.
  destruct (flat_map (rmatch r) (rmatch a s)); simpl; auto.
Qed.

(** A pattern that matches wherever another does is found by [search]
    whenever the other is. *)
Lemma search_covered a b :
  (forall s, matches_at_start a s = true -> matches_at_start b s = true) ->
  forall s, search a s = true -> search b s = true.
Proof.
  intros H. induction s as [|c s IH]; intros Hs.
  - change (matches_at_start a "" || false = true) in Hs.
    change (matches_at_start b "" || false = true).
    rewrite orb_false_r in *. auto.
  - change (matches_at_start a (String c s) || search a s = true) in Hs.
    change (matches_at_start b (String c s) || search b s = true).
    apply orb_true_iff in Hs. apply orb_true_iff. destruct Hs; auto.
Qed.

Lemma pros_cons_covered s :
  matches_at_start pros_cons_pattern s = true -> matches_at_start what_is_pattern s = true.
Proof.
  unfold pros_cons_pattern. cbn [seq_of one_of]. intros H.
  apply matches_seq_lit in H. destruct H as [t [-> H]].
  repeat (apply matches_seq_alt in H; destruct H as [H|H]);
    apply matches_seq_lit in H; destruct H as [u [-> _]]; reflexivity.
Qed.

Lemma steps_covered s :
  matches_at_start steps_pattern s = true -> matches_at_start what_is_pattern s = true.
Proof.
  unfold steps_pattern. cbn [seq_of one_of]. intros H.
  apply matches_seq_lit in H. destruct H as [t [-> H]].
  apply matches_seq_alt in H. destruct H as [H|H];
    apply matches_seq_lit in H; destruct H as [u [-> H]];
    apply matches_seq_lit in H; destruct H as [v [-> H]];
    repeat (apply matches_seq_alt in H; destruct H as [H|H]);
    apply matches_seq_lit in H; destruct H as [w [-> _]]; reflexivity.
Qed.

Lemma match_question_type_cases query :
  _match_question_type query
  = if existsb (fun r => search_ignorecase r query) location_patterns then ORBAI.LOCATION
    else if existsb (fun r => search_ignorecase r query) factual_patterns then ORBAI.FACTUAL
    else if existsb (fun r => search_ignorecase r query) procedural_patterns
         then ORBAI.PROCEDURAL
    else if existsb (fun r => search_ignorecase r query) comparative_patterns
         then ORBAI.COMPARATIVE
    else ORBAI.UNKNOWN.
Proof.
  unfold _match_question_type, question_patterns. cbn [find snd fst].
  repeat match goal with
         | |- context [if ?b then _ else _] => destruct b; try reflexivity
         end.
Qed.

(** X23: the types are tried in the order location, factual, procedural,
    comparative, so a query with a location pattern is a location
    question whatever else it contains. Two patterns can never decide:
    wherever "what are the pros|cons|advantages|disadvantages of ..." or
    "what are|is the steps|process|procedure to|for ..." occurs, the
    factual pattern "what is|are ..." occurs too, so such a question is
    classified as location or factual, never as comparative or
    procedural. *)
Theorem match_question_type_shadowed_patterns query :
  (existsb (fun r => search_ignorecase r query) location_patterns = true ->
   _match_question_type query = ORBAI.LOCATION)
  /\ (search_ignorecase pros_cons_pattern query = true ->
      _match_question_type query = ORBAI.LOCATION
      \/ _match_question_type query = ORBAI.FACTUAL)
  /\ (search_ignorecase steps_pattern query = true ->
      _match_question_type query = ORBAI.LOCATION
      \/ _match_question_type query = ORBAI.FACTUAL).
Proof.
  rewrite match_question_type_cases.
  assert (Hfact : search_ignorecase what_is_pattern query = true ->
                  existsb (fun r => search_ignorecase r query) factual_patterns = true).
  { intros H. unfold factual_patterns. simpl. now rewrite H. }
  split; [|split].
  - intros H. now rewrite H.
  - intros H. apply (search_covered _ _ pros_cons_covered) in H.
    destruct (existsb _ location_patterns); auto. rewrite (Hfact H). auto.
  - intros H. apply (search_covered _ _ steps_covered) in H.
    destruct (existsb _ location_patterns); auto. rewrite (Hfact H). auto.
Qed.

Lemma match_question_type_shadowed_patterns_witness :
  search_ignorecase steps_pattern "What are the steps to register?" = true
  /\ _match_question_type "What are the steps to register?" = ORBAI.FACTUAL
  /\ search_ignorecase pros_cons_pattern "What are the pros of a hostel?" = true
  /\ _match_question_type "What are the pros of a hostel?" = ORBAI.FACTUAL.
Proof.
  pose proof (proj2 (proj2 (match_question_type_shadowed_patterns
                              "What are the steps to register?")) eq_refl) as H1.
  pose proof (proj1 (proj2 (match_question_type_shadowed_patterns
                              "What are the pros of a hostel?")) eq_refl) as H2.
  repeat split.
Defined.

End TextProcessorFacts.
